(** * Vanachitra FRA viewer: layer, filter and statistics engine

    A shallow embedding of [src/fradss/static/vanachitra.js] (class
    [VanachitraFRAViewer]) and the properties of it that the specification
    states.

    Conventions of the embedding.
    - A JavaScript number is an IEEE binary64 [float] (the kernel's primitive
      floats), so [+] and the truthiness of a number are the ones of the
      language.
    - A property of a GeoJSON feature that holds text is an [option string]:
      [None] is the absent property ([undefined]), [Some s] a string.  Other
      JSON shapes (null, nested objects, numbers in a text field) are outside
      the input type.  The area properties are [option float].
    - An object literal indexed by a computed key is a [gmap string _] of its
      own properties, read through [get], which also sees the members every
      object literal inherits from [Object.prototype].
    - A [string] holds the UTF-8 text of the JavaScript string; where the
      language compares strings by their UTF-16 code units ([sort]), the
      model compares the code units of that text.
    - Code that can throw returns a [completion]. *)

From Corelib Require Import PrimFloat.
From Stdlib Require Import String Ascii List Sorted Permutation Lia.
From stdpp Require Import base option list strings pretty gmap sorting.

#[local] Set Warnings "-inexact-float".

Local Open Scope string_scope.
Local Open Scope list_scope.

(** ** JavaScript values *)

Module JS.

(** Truthiness of a string-or-undefined value: [undefined] and the empty
    string are falsy. *)
Definition truthy (v : option string) : bool :=
  match v with
  | Some s => negb (String.eqb s "")
  | None => false
  end.

(** [a || b] on such values. *)
Definition or_else (a b : option string) : option string :=
  if truthy a then a else b.

(** [v === 'lit'] against a string literal. *)
Definition strict_eq (v : option string) (lit : string) : bool :=
  match v with
  | Some s => String.eqb s lit
  | None => false
  end.

(** Truthiness of a number: [0], [-0] and [NaN] are falsy. *)
Definition truthy_num (x : float) : bool :=
  negb (PrimFloat.eqb x 0 || PrimFloat.is_nan x).

Definition truthy_opt_num (v : option float) : bool :=
  match v with
  | Some x => truthy_num x
  | None => false
  end.

(** [a || b] on numbers-or-undefined. *)
Definition num_or_else (a b : option float) : option float :=
  if truthy_opt_num a then a else b.

(** [v || 0]: the number itself when it is truthy, the literal [0]
    otherwise. *)
Definition num_or_zero (v : option float) : float :=
  match v with
  | Some x => if truthy_num x then x else 0%float
  | None => 0%float
  end.

(** The string a value becomes when it is used as a property key or
    assigned to a DOM string attribute. *)
Definition to_key (v : option string) : string :=
  match v with
  | Some s => s
  | None => "undefined"
  end.

(** The property names every object literal inherits from
    [Object.prototype].  All of them are truthy (functions, or the
    prototype object itself for [__proto__]), none has a [push] method and
    none has own enumerable properties. *)
Definition object_prototype_names : list string :=
  [ "constructor"; "hasOwnProperty"; "isPrototypeOf";
    "propertyIsEnumerable"; "toLocaleString"; "toString"; "valueOf";
    "__proto__"; "__defineGetter__"; "__defineSetter__";
    "__lookupGetter__"; "__lookupSetter__" ].

Definition inherited (k : string) : bool :=
  existsb (String.eqb k) object_prototype_names.

(** What [obj[key]] evaluates to on an object literal whose own properties
    all have type [A]. *)
Inductive member (A : Type) : Type :=
| Own (a : A)
| Inherited
| Missing.
Arguments Own {A} a.
Arguments Inherited {A}.
Arguments Missing {A}.

Definition get {A} (obj : gmap string A) (key : string) : member A :=
  match obj !! key with
  | Some a => Own a
  | None => if inherited key then Inherited else Missing
  end.

(** Normal completion or a thrown [TypeError]. *)
Inductive completion (A : Type) : Type :=
| Returned (a : A)
| Thrown (message : string).
Arguments Returned {A} a.
Arguments Thrown {A} message.

Definition bind {A B} (c : completion A) (k : A -> completion B)
  : completion B :=
  match c with
  | Returned a => k a
  | Thrown m => Thrown m
  end.

Definition cmap {A B} (f : A -> B) (c : completion A) : completion B :=
  bind c (fun a => Returned (f a)).

(** [arr.forEach(step)] over a state that [step] may abandon by throwing. *)
Fixpoint for_each {A S} (step : S -> A -> completion S) (arr : list A)
  (s : S) : completion S :=
  match arr with
  | [] => Returned s
  | a :: rest => bind (step s a) (for_each step rest)
  end.

(** The UTF-16 code units of a string, from its UTF-8 text: a character up
    to U+FFFF is one unit, a character beyond it the two units of its
    surrogate pair.  A byte that does not start a character of the text (the
    text of a JavaScript string has none) is kept as a unit of its own. *)
Definition continuation (b : ascii) : N := N.land (N_of_ascii b) 63.

Definition surrogates (cp : N) : list N :=
  let v := (cp - 65536)%N in
  [(55296 + N.shiftr v 10)%N; (56320 + N.land v 1023)%N].

Fixpoint code_units (s : string) : list N :=
  match s with
  | EmptyString => []
  | String b0 rest =>
      let n0 := N_of_ascii b0 in
      if (n0 <? 192)%N then n0 :: code_units rest
      else if (n0 <? 224)%N then
        match rest with
        | String b1 r1 =>
            (N.land n0 31 * 64 + continuation b1)%N :: code_units r1
        | _ => n0 :: code_units rest
        end
      else if (n0 <? 240)%N then
        match rest with
        | String b1 (String b2 r2) =>
            (N.land n0 15 * 4096 + continuation b1 * 64
             + continuation b2)%N :: code_units r2
        | _ => n0 :: code_units rest
        end
      else
        match rest with
        | String b1 (String b2 (String b3 r3)) =>
            surrogates (N.land n0 7 * 262144 + continuation b1 * 4096
                        + continuation b2 * 64 + continuation b3)%N
            ++ code_units r3
        | _ => n0 :: code_units rest
        end
  end.

(** [x <= y] on sequences of code units: the first unit that differs
    decides, and a proper prefix comes first. *)
Fixpoint units_leb (x y : list N) : bool :=
  match x, y with
  | [], _ => true
  | _ :: _, [] => false
  | a :: x', b :: y' => (a <? b)%N || ((a =? b)%N && units_leb x' y')
  end.

(** The comparison of two strings by [Array.prototype.sort()] without a
    comparator. *)
Definition string_leb (x y : string) : bool :=
  units_leb (code_units x) (code_units y).

End JS.

(** ** Features *)

Record properties : Type := Properties {
  fra_type : option string;
  feature_type : option string;
  claim_type : option string;
  status : option string;
  state : option string;
  district : option string;
  village : option string;
  area_claimed : option float;
  area_hectares : option float
}.

(** A feature of the collection; [feature_id] stands for everything else the
    record carries (geometry, identifiers), which the engine only passes
    through. *)
Record feature : Type := Feature {
  feature_id : nat;
  props : properties
}.

(** [feature.properties.fra_type || feature.properties.feature_type], the
    first statement of every call site. *)
Definition fraTypeOf (p : properties) : option string :=
  JS.or_else (fra_type p) (feature_type p).

Definition CFR_name : string := "Community Forest Resource Rights".
Definition IFR_name : string := "Individual Forest Rights".
Definition CR_name : string := "Community Rights".
Definition Agriculture_name : string := "Agriculture".
Definition WaterBody_name : string := "Water Body".

(** ** Leaflet path options

    The map library is an external collaborator.  The engine only hands it
    option objects: [L.geoJSON(..., {style})] and [layer.setStyle(style)]
    copy every key of [style] into the layer's options and leave the other
    options as they were.  A [style] is such an object: a field is [None]
    when the key is not in the object.  [dashArray] may be present with the
    value [null], which is [Some None]. *)

Record style : Type := Style {
  color : option string;
  fillColor : option string;
  fillOpacity : option float;
  weight : option float;
  opacity : option float;
  dashArray : option (option string)
}.

Definition override {A} (old new : option A) : option A :=
  match new with
  | Some _ => new
  | None => old
  end.

(** [layer.setStyle(s)] on the options [o] of the layer. *)
Definition setStyle (o s : style) : style :=
  {| color := override (color o) (color s);
     fillColor := override (fillColor o) (fillColor s);
     fillOpacity := override (fillOpacity o) (fillOpacity s);
     weight := override (weight o) (weight s);
     opacity := override (opacity o) (opacity s);
     dashArray := override (dashArray o) (dashArray s) |}.

(** The options a vector layer starts from (Leaflet's [L.Path] defaults). *)
Definition path_defaults : style :=
  {| color := Some "#3388ff";
     fillColor := None;
     fillOpacity := Some 0.2%float;
     weight := Some 3%float;
     opacity := Some 1%float;
     dashArray := Some None |}.

(** ** getFeatureStyle *)

(** An entry of [this.colors]: the three keys a colour rule carries. *)
Definition rule (c fc : string) (fo : float) : style :=
  {| color := Some c; fillColor := Some fc; fillOpacity := Some fo;
     weight := None; opacity := None; dashArray := None |}.

Definition colors : gmap string style :=
  <["CFR" := rule "#8B4513" "#A0522D" 0.4%float]>
  (<["IFR" := rule "#FF6B35" "#F7931E" 0.6%float]>
  (<["CR" := rule "#9B59B6" "#8E44AD" 0.6%float]>
  (<["Agriculture" := rule "#2ECC71" "#27AE60" 0.7%float]>
  (<["Water Body" := rule "#3498DB" "#2980B9" 0.8%float]> ∅)))).

(** The literal on the right of [this.colors[styleKey] || {...}]. *)
Definition fallback_style : style := rule "#333333" "#666666" 0.5%float.

(** What [{...v}] copies out of an inherited member: nothing, none of them
    has own enumerable properties. *)
Definition no_keys : style :=
  {| color := None; fillColor := None; fillOpacity := None;
     weight := None; opacity := None; dashArray := None |}.

(** The [if / else if] chain of [getFeatureStyle] that maps the data to a
    key of the colour scheme; [styleKey] starts as [fraType]. *)
Definition styleKeyOf (p : properties) : option string :=
  let fraType := fraTypeOf p in
  if JS.strict_eq (claim_type p) "CFR" || JS.strict_eq fraType CFR_name
  then Some "CFR"
  else if JS.strict_eq (claim_type p) "IFR" || JS.strict_eq fraType IFR_name
  then Some "IFR"
  else if JS.strict_eq (claim_type p) "CR" || JS.strict_eq fraType CR_name
  then Some "CR"
  else if JS.strict_eq fraType Agriculture_name then Some "Agriculture"
  else if JS.strict_eq fraType WaterBody_name then Some "Water Body"
  else fraType.

Definition baseStyleOf (styleKey : option string) : style :=
  match JS.get colors (JS.to_key styleKey) with
  | JS.Own r => r
  | JS.Inherited => no_keys
  | JS.Missing => fallback_style
  end.

Definition getFeatureStyle (f : feature) : style :=
  let styleKey := styleKeyOf (props f) in
  let baseStyle := baseStyleOf styleKey in
  {| color := color baseStyle;
     fillColor := fillColor baseStyle;
     fillOpacity := fillOpacity baseStyle;
     weight := Some (if JS.strict_eq styleKey "CFR" then 3%float else 2%float);
     opacity := Some 0.8%float;
     dashArray := Some (if JS.strict_eq (status (props f)) "Pending"
                        then Some "5, 5" else None) |}.

(** ** createPopupContent *)

(** The type a popup names in its heading: [fraType] starts as the
    descriptive type and is overwritten when [claim_type] is a legacy
    code. *)
Definition popupTypeOf (p : properties) : option string :=
  let fraType := fraTypeOf p in
  if JS.strict_eq (claim_type p) "CFR" then Some CFR_name
  else if JS.strict_eq (claim_type p) "IFR" then Some IFR_name
  else if JS.strict_eq (claim_type p) "CR" then Some CR_name
  else fraType.

(** ** displayFRALayers *)

Abbreviation groups := (gmap string (list feature)).

(** The object literal [featureGroups] before the loop. *)
Definition featureGroups : groups :=
  <[CFR_name := []]> (<[IFR_name := []]> (<[CR_name := []]>
  (<[Agriculture_name := []]> (<[WaterBody_name := []]> ∅)))).

(** [featureGroups[key].push(feature)] for an own key. *)
Definition push (key : string) (f : feature) (g : groups) : groups :=
  alter (fun arr => arr ++ [f]) key g.

(** The message of the [TypeError] an inherited member raises. *)
Definition push_error : string :=
  "featureGroups[fraType].push is not a function".

(** The body of [this.filteredData.features.forEach(feature => ...)].  An
    own property of [featureGroups] is an array, hence truthy; so is an
    inherited member, which has no [push]. *)
Definition groupStep (g : groups) (f : feature) : JS.completion groups :=
  let fraType := fraTypeOf (props f) in
  match JS.get g (JS.to_key fraType) with
  | JS.Own _ => JS.Returned (push (JS.to_key fraType) f g)
  | JS.Inherited => JS.Thrown push_error
  | JS.Missing =>
      if JS.strict_eq (claim_type (props f)) "CFR"
      then JS.Returned (push CFR_name f g)
      else if JS.strict_eq (claim_type (props f)) "IFR"
      then JS.Returned (push IFR_name f g)
      else if JS.strict_eq (claim_type (props f)) "CR"
      then JS.Returned (push CR_name f g)
      else JS.Returned g
  end.

Definition layerOrder : list string :=
  [CFR_name; Agriculture_name; WaterBody_name; CR_name; IFR_name].

(** A layer group handed to the map: the type it was built for and its
    features, each drawn with [getFeatureStyle]. *)
Abbreviation plan := (list (string * list feature)).

(** The body of [layerOrder.forEach(fraType => ...)]: a non-empty group is
    added to the map on top of the groups added before it. *)
Definition layerStep (g : groups) (added : plan) (fraType : string)
  : JS.completion plan :=
  match g !! fraType with
  | Some arr =>
      if Nat.ltb 0 (length arr)
      then JS.Returned (added ++ [(fraType, arr)])
      else JS.Returned added
  | None => JS.Thrown "featureGroups[fraType] is undefined"
  end.

Definition displayFRALayers (features : list feature) : JS.completion plan :=
  JS.bind (JS.for_each groupStep features featureGroups)
    (fun g => JS.for_each (layerStep g) layerOrder []).

(** ** updateStatistics *)

Record typeCounts : Type := TypeCounts {
  CFR : nat;
  IFR : nat;
  CR : nat;
  Agriculture : nat;
  WaterBody : nat
}.

Record tally : Type := Tally {
  counts : typeCounts;
  totalArea : float;
  approvedCount : nat;
  pendingCount : nat
}.

Definition tally0 : tally :=
  {| counts := {| CFR := 0; IFR := 0; CR := 0; Agriculture := 0;
                  WaterBody := 0 |};
     totalArea := 0%float; approvedCount := 0; pendingCount := 0 |}.

(** The type-counting chain of the loop body. *)
Definition countType (p : properties) (c : typeCounts) : typeCounts :=
  let fraType := fraTypeOf p in
  if JS.strict_eq (claim_type p) "CFR" || JS.strict_eq fraType CFR_name
  then {| CFR := S (CFR c); IFR := IFR c; CR := CR c;
          Agriculture := Agriculture c; WaterBody := WaterBody c |}
  else if JS.strict_eq (claim_type p) "IFR" || JS.strict_eq fraType IFR_name
  then {| CFR := CFR c; IFR := S (IFR c); CR := CR c;
          Agriculture := Agriculture c; WaterBody := WaterBody c |}
  else if JS.strict_eq (claim_type p) "CR" || JS.strict_eq fraType CR_name
  then {| CFR := CFR c; IFR := IFR c; CR := S (CR c);
          Agriculture := Agriculture c; WaterBody := WaterBody c |}
  else if JS.strict_eq fraType Agriculture_name
  then {| CFR := CFR c; IFR := IFR c; CR := CR c;
          Agriculture := S (Agriculture c); WaterBody := WaterBody c |}
  else if JS.strict_eq fraType WaterBody_name
  then {| CFR := CFR c; IFR := IFR c; CR := CR c;
          Agriculture := Agriculture c; WaterBody := S (WaterBody c) |}
  else c.

(** [props.area_claimed || props.area_hectares || 0], the area a feature
    adds to the total (and the area its popup prints). *)
Definition areaOf (p : properties) : float :=
  JS.num_or_zero (JS.num_or_else (area_claimed p) (area_hectares p)).

Definition countStatus (p : properties) (t : tally) : nat * nat :=
  if JS.strict_eq (status p) "Approved"
  then (S (approvedCount t), pendingCount t)
  else if JS.strict_eq (status p) "Pending"
  then (approvedCount t, S (pendingCount t))
  else (approvedCount t, pendingCount t).

(** The body of [features.forEach(feature => ...)]. *)
Definition statStep (t : tally) (f : feature) : tally :=
  let p := props f in
  {| counts := countType p (counts t);
     totalArea := PrimFloat.add (totalArea t) (areaOf p);
     approvedCount := fst (countStatus p t);
     pendingCount := snd (countStatus p t) |}.

(** What [updateStatistics] shows: the tally of the loop and
    [features.length]. *)
Record statistics : Type := Statistics {
  tallied : tally;
  totalFeatures : nat
}.

Definition updateStatistics (features : list feature) : statistics :=
  {| tallied := fold_left statStep features tally0;
     totalFeatures := length features |}.

(** Sum of the values of [typeCounts]. *)
Definition sumCounts (c : typeCounts) : nat :=
  CFR c + IFR c + CR c + Agriculture c + WaterBody c.

(** ** applyFilters *)

Module Filters.
Record t : Type := Make {
  state : string;
  district : string;
  village : string;
  fraType : string;
  status : string
}.
End Filters.

(** Truthiness of a filter value read from a [select]: the empty string of
    the "All ..." option is falsy. *)
Definition chosen (v : string) : bool := negb (String.eqb v "").

(** The [matches] flag of the FRA-type branch. *)
Definition typeMatches (wanted : string) (p : properties) : bool :=
  let fraType := fraTypeOf p in
  if String.eqb wanted CFR_name
     && (JS.strict_eq (claim_type p) "CFR" || JS.strict_eq fraType CFR_name)
  then true
  else if String.eqb wanted IFR_name
     && (JS.strict_eq (claim_type p) "IFR" || JS.strict_eq fraType IFR_name)
  then true
  else if String.eqb wanted CR_name
     && (JS.strict_eq (claim_type p) "CR" || JS.strict_eq fraType CR_name)
  then true
  else if JS.strict_eq fraType wanted
  then true
  else false.

(** The callback of [this.fraData.features.filter(feature => ...)], with its
    early returns. *)
Definition passes (flt : Filters.t) (f : feature) : bool :=
  let p := props f in
  if chosen (Filters.state flt)
     && negb (JS.strict_eq (state p) (Filters.state flt))
  then false
  else if chosen (Filters.district flt)
     && negb (JS.strict_eq (district p) (Filters.district flt))
  then false
  else if chosen (Filters.village flt)
     && negb (JS.strict_eq (village p) (Filters.village flt))
  then false
  else if chosen (Filters.fraType flt)
     && negb (typeMatches (Filters.fraType flt) p)
  then false
  else if chosen (Filters.status flt)
     && negb (JS.strict_eq (status p) (Filters.status flt))
  then false
  else true.

(** [this.filteredData.features] after [applyFilters]. *)
Definition applyFilters (all : list feature) (flt : Filters.t)
  : list feature :=
  List.filter (passes flt) all.

(** ** Cascading option lists *)

(** [[...new Set(values)]]: the distinct values in order of first
    occurrence. *)
Definition new_Set (values : list (option string)) : list (option string) :=
  fold_left
    (fun seen v => if bool_decide (v ∈ seen) then seen else seen ++ [v])
    values [].

(** The order of [Array.prototype.sort()] without a comparator: [undefined]
    after every string, strings by their UTF-16 code units. *)
Definition sort_le (a b : option string) : Prop :=
  match a, b with
  | _, None => True
  | None, Some _ => False
  | Some x, Some y => JS.string_leb x y = true
  end.

#[local] Instance sort_le_dec (a b : option string) : Decision (sort_le a b).
Proof.
  destruct a as [x|], b as [y|]; simpl; try (left; exact I).
  - destruct (JS.string_leb x y); [left; reflexivity | right; discriminate].
  - right; intros [].
Defined.

Definition sort (values : list (option string)) : list (option string) :=
  merge_sort sort_le values.

(** The state of the five [select] elements the viewer reads and rewrites:
    the selected values and the option values of the two dependent lists
    (each starts with the empty value of its "All ..." entry). *)
Record controls : Type := Controls {
  state_filter : string;
  district_filter : string;
  village_filter : string;
  fra_type_filter : string;
  status_filter : string;
  district_options : list string;
  village_options : list string
}.

(** The two collections the viewer holds: everything that was loaded, and
    what the last [applyFilters] or [clearFilters] left visible. *)
Record dataset : Type := Dataset {
  fraData : list feature;
  filteredData : list feature
}.

Definition districtsOf (fraData : list feature) (selectedState : string)
  : list (option string) :=
  sort (new_Set (map (fun f => district (props f))
    (List.filter (fun f => JS.strict_eq (state (props f)) selectedState)
       fraData))).

Definition villagesOf (fraData : list feature)
  (selectedState selectedDistrict : string) : list (option string) :=
  sort (new_Set (map (fun f => village (props f))
    (List.filter (fun f => JS.strict_eq (state (props f)) selectedState
                        && JS.strict_eq (district (props f)) selectedDistrict)
       fraData))).

(** [updateDistrictFilter]: replacing the options of a [select] leaves the
    "All ..." entry selected. *)
Definition updateDistrictFilter (this : dataset) (d : controls)
  : controls :=
  let selectedState := state_filter d in
  let options :=
    if negb (chosen selectedState) then [""]
    else "" :: map JS.to_key (districtsOf (fraData this) selectedState) in
  {| state_filter := state_filter d;
     district_filter := "";
     village_filter := village_filter d;
     fra_type_filter := fra_type_filter d;
     status_filter := status_filter d;
     district_options := options;
     village_options := village_options d |}.

Definition updateVillageFilter (this : dataset) (d : controls)
  : controls :=
  let selectedState := state_filter d in
  let selectedDistrict := district_filter d in
  let options :=
    if negb (chosen selectedState) || negb (chosen selectedDistrict) then [""]
    else "" :: map JS.to_key
                 (villagesOf (fraData this) selectedState selectedDistrict) in
  {| state_filter := state_filter d;
     district_filter := district_filter d;
     village_filter := "";
     fra_type_filter := fra_type_filter d;
     status_filter := status_filter d;
     district_options := district_options d;
     village_options := options |}.

(** The user picks a value in a [select]; a [change] event follows. *)
Definition chooseState (this : dataset) (v : string) (d : controls)
  : controls :=
  updateDistrictFilter this
    {| state_filter := v;
       district_filter := district_filter d;
       village_filter := village_filter d;
       fra_type_filter := fra_type_filter d;
       status_filter := status_filter d;
       district_options := district_options d;
       village_options := village_options d |}.

Definition chooseDistrict (this : dataset) (v : string) (d : controls)
  : controls :=
  updateVillageFilter this
    {| state_filter := state_filter d;
       district_filter := v;
       village_filter := village_filter d;
       fra_type_filter := fra_type_filter d;
       status_filter := status_filter d;
       district_options := district_options d;
       village_options := village_options d |}.

(** The controls as the page loads them. *)
Definition controls0 : controls :=
  {| state_filter := ""; district_filter := ""; village_filter := "";
     fra_type_filter := ""; status_filter := "";
     district_options := [""]; village_options := [""] |}.

(** ** Highlighting *)

(** A layer object of the map: the feature it draws and its current
    options. *)
Record layer : Type := Layer {
  layer_feature : feature;
  options : style
}.

(** The viewer's interaction state.  [objects] holds every layer object
    created so far; a layer is referred to by its position there, as the
    code refers to it by reference.  [currentFeature] is [None] for
    [null]. *)
Record viewer : Type := Viewer {
  currentFeature : option nat;
  objects : list layer
}.

(** The layer [L.geoJSON] creates for a feature with the [style] callback of
    [displayFRALayers]. *)
Definition newLayer (f : feature) : layer :=
  {| layer_feature := f;
     options := setStyle path_defaults (getFeatureStyle f) |}.

Definition layersOf (p : plan) : list layer :=
  flat_map (fun g => map newLayer (snd g)) p.

(** [objects[i].setStyle(s)]. *)
Definition restyle (i : nat) (s : style) (objs : list layer) : list layer :=
  alter (fun l => {| layer_feature := layer_feature l;
                     options := setStyle (options l) s |}) i objs.

(** [objects[i].setStyle(this.getFeatureStyle(objects[i].feature))]. *)
Definition resetStyle (i : nat) (objs : list layer) : list layer :=
  match objs !! i with
  | Some l => restyle i (getFeatureStyle (layer_feature l)) objs
  | None => objs
  end.

Definition highlight_style : style :=
  {| color := Some "#ffff00"; fillColor := None;
     fillOpacity := Some 0.9%float; weight := Some 5%float;
     opacity := Some 1%float; dashArray := None |}.

Definition hover_style : style :=
  {| color := None; fillColor := None;
     fillOpacity := Some 0.8%float; weight := Some 4%float;
     opacity := Some 1%float; dashArray := None |}.

Definition highlightFeature (targetLayer : nat) (v : viewer) : viewer :=
  let objs :=
    match currentFeature v with
    | Some c => resetStyle c (objects v)
    | None => objects v
    end in
  {| currentFeature := Some targetLayer;
     objects := restyle targetLayer highlight_style objs |}.

Definition resetView (v : viewer) : viewer :=
  match currentFeature v with
  | Some c => {| currentFeature := None; objects := resetStyle c (objects v) |}
  | None => v
  end.

(** The [mouseover] and [mouseout] handlers of [onEachFeature]. *)
Definition mouseover (i : nat) (v : viewer) : viewer :=
  {| currentFeature := currentFeature v;
     objects := restyle i hover_style (objects v) |}.

Definition mouseout (i : nat) (v : viewer) : viewer :=
  {| currentFeature := currentFeature v;
     objects := resetStyle i (objects v) |}.

(** A call of [displayFRALayers] from [applyFilters], [clearFilters] or
    [toggleHierarchy]: the old layers leave the map and new layer objects are
    created; [currentFeature] is not touched.  When the call throws no layer
    is created. *)
Definition redisplay (features : list feature) (v : viewer) : viewer :=
  match displayFRALayers features with
  | JS.Returned p =>
      {| currentFeature := currentFeature v;
         objects := objects v ++ layersOf p |}
  | JS.Thrown _ => v
  end.

(** The viewer once [init] has loaded and displayed the data. *)
Definition loaded (features : list feature) : viewer :=
  redisplay features {| currentFeature := None; objects := [] |}.

Inductive event : Type :=
| Click (i : nat)
| MouseOver (i : nat)
| MouseOut (i : nat)
| ResetView
| Redisplay (features : list feature).

(** Events reach the handlers of layers that exist.  (After a click the
    handler also opens the page of the feature when the feature carries an
    identifier; the viewer modelled here is the one that stays.) *)
Definition fire (e : event) (v : viewer) : viewer :=
  match e with
  | Click i =>
      if Nat.ltb i (length (objects v)) then highlightFeature i v else v
  | MouseOver i =>
      if Nat.ltb i (length (objects v)) then mouseover i v else v
  | MouseOut i =>
      if Nat.ltb i (length (objects v)) then mouseout i v else v
  | ResetView => resetView v
  | Redisplay features => redisplay features v
  end.

Definition run (features : list feature) (es : list event) : viewer :=
  fold_left (fun v e => fire e v) es (loaded features).

(** A layer shows the highlight when its stroke has the highlight colour. *)
Definition highlighted (l : layer) : bool :=
  JS.strict_eq (color (options l)) "#ffff00".

(** ** Vocabulary of the properties *)

Definition group_names : list string :=
  [CFR_name; IFR_name; CR_name; Agriculture_name; WaterBody_name].

Definition legacy_codes : list string := ["CFR"; "IFR"; "CR"].

(** A feature is recognised when its legacy code or its descriptive type
    names one of the five categories. *)
Definition recognised (p : properties) : bool :=
  existsb (JS.strict_eq (claim_type p)) legacy_codes
  || existsb (JS.strict_eq (fraTypeOf p)) group_names.

(** The descriptive type is the name of a member of [Object.prototype]. *)
Definition hitsPrototype (p : properties) : bool :=
  JS.inherited (JS.to_key (fraTypeOf p)).

(** The group a feature is pushed to, if any. *)
Definition groupOf (p : properties) : option string :=
  if existsb (JS.strict_eq (fraTypeOf p)) group_names then fraTypeOf p
  else if JS.strict_eq (claim_type p) "CFR" then Some CFR_name
  else if JS.strict_eq (claim_type p) "IFR" then Some IFR_name
  else if JS.strict_eq (claim_type p) "CR" then Some CR_name
  else None.

(** Some feature of the collection belongs to the group [name]. *)
Definition present (features : list feature) (name : string) : bool :=
  existsb (fun f => JS.strict_eq (groupOf (props f)) name) features.

(** The types of the layer groups in the order they are added to the map. *)
Definition drawOrder (features : list feature)
  : JS.completion (list string) :=
  JS.cmap (map fst) (displayFRALayers features).

(** A feature occurs in some group of a plan. *)
Definition rendered (f : feature) (p : plan) : Prop :=
  exists g, In g p /\ In f (snd g).

Definition with_status (s : option string) (f : feature) : feature :=
  let p := props f in
  {| feature_id := feature_id f;
     props := {| fra_type := fra_type p; feature_type := feature_type p;
                 claim_type := claim_type p; status := s; state := state p;
                 district := district p; village := village p;
                 area_claimed := area_claimed p;
                 area_hectares := area_hectares p |} |}.

Definition with_area (a h : option float) (f : feature) : feature :=
  let p := props f in
  {| feature_id := feature_id f;
     props := {| fra_type := fra_type p; feature_type := feature_type p;
                 claim_type := claim_type p; status := status p;
                 state := state p; district := district p;
                 village := village p;
                 area_claimed := a; area_hectares := h |} |}.

(** *** The specification's reading of a filter

    A field of the filter that is not set imposes nothing; a field that is
    set must equal the feature's value.  [category] is the one category the
    normaliser is said to give a feature. *)
Definition field_matches (wanted : string) (actual : option string) : Prop :=
  wanted = "" \/ actual = Some wanted.

Definition spec_retained (category : feature -> option string)
  (flt : Filters.t) (f : feature) : Prop :=
  field_matches (Filters.state flt) (state (props f))
  /\ field_matches (Filters.district flt) (district (props f))
  /\ field_matches (Filters.village flt) (village (props f))
  /\ field_matches (Filters.fraType flt) (category f)
  /\ field_matches (Filters.status flt) (status (props f)).

(** What the FRA-type branch of the filter accepts. *)
Definition type_accepts (wanted : string) (p : properties) : Prop :=
  fraTypeOf p = Some wanted
  \/ (wanted = CFR_name /\ claim_type p = Some "CFR")
  \/ (wanted = IFR_name /\ claim_type p = Some "IFR")
  \/ (wanted = CR_name /\ claim_type p = Some "CR").

(** *** The specification's precedence rule

    The category a legacy code stands for, by its long name and by its key
    in the colour scheme. *)
Definition name_of_code (code : string) : string :=
  if String.eqb code "CFR" then CFR_name
  else if String.eqb code "IFR" then IFR_name
  else CR_name.

Definition key_of_name (name : string) : string :=
  if String.eqb name CFR_name then "CFR"
  else if String.eqb name IFR_name then "IFR"
  else if String.eqb name CR_name then "CR"
  else name.

(** The two schemas of a feature disagree: [claim_type] is the legacy code
    [code], the descriptive type is the group name [name], and they stand
    for different categories. *)
Definition conflicting (f : feature) (code name : string) : Prop :=
  claim_type (props f) = Some code
  /\ In code legacy_codes
  /\ fraTypeOf (props f) = Some name
  /\ In name group_names
  /\ name_of_code code <> name.

(** Position of a colour-scheme key in the chain of [getFeatureStyle] and
    [updateStatistics]. *)
Definition chain_rank (key : string) : nat :=
  if String.eqb key "CFR" then 0
  else if String.eqb key "IFR" then 1
  else if String.eqb key "CR" then 2
  else 3.

Definition first_in_chain (a b : string) : string :=
  if Nat.leb (chain_rank a) (chain_rank b) then a else b.

(** The features of a collection that belong to the group [name], in the
    order of the collection. *)
Definition collect (name : string) (features : list feature) : list feature :=
  List.filter (fun f => JS.strict_eq (groupOf (props f)) name) features.

(** The own properties of the object stay the five group names. *)
Definition own_names (g : groups) : Prop :=
  forall k, is_Some (g !! k) <-> In k group_names.

(** The grouping loop without its exceptions. *)
Definition place (g : groups) (f : feature) : groups :=
  match groupOf (props f) with
  | Some k => push k f g
  | None => g
  end.

(** One entry of the plan per group that is not empty. *)
Definition entry (X : list feature) (k : string) : plan :=
  if present X k then [(k, collect k X)] else [].


(** The specification's precedence: the layer group and the style of a
    feature are those of its legacy code. *)
Definition resolved_from_code (f : feature) (code : string) : Prop :=
  drawOrder [f] = JS.Returned [name_of_code code]
  /\ styleKeyOf (props f) = Some code.

(** The specification's equivalence of two features: the same layer group,
    the same style key, the same answer of every FRA-type filter and the
    same statistics bucket. *)
Definition treated_alike (a b : feature) : Prop :=
  drawOrder [a] = drawOrder [b]
  /\ styleKeyOf (props a) = styleKeyOf (props b)
  /\ (forall wanted, chosen wanted = true ->
        typeMatches wanted (props a) = typeMatches wanted (props b))
  /\ (forall c, countType (props a) c = countType (props b) c).

(** [typeCounts[key]++]. *)
Definition bump (key : string) (c : typeCounts) : typeCounts :=
  if String.eqb key "CFR"
  then {| CFR := S (CFR c); IFR := IFR c; CR := CR c;
          Agriculture := Agriculture c; WaterBody := WaterBody c |}
  else if String.eqb key "IFR"
  then {| CFR := CFR c; IFR := S (IFR c); CR := CR c;
          Agriculture := Agriculture c; WaterBody := WaterBody c |}
  else if String.eqb key "CR"
  then {| CFR := CFR c; IFR := IFR c; CR := S (CR c);
          Agriculture := Agriculture c; WaterBody := WaterBody c |}
  else if String.eqb key "Agriculture"
  then {| CFR := CFR c; IFR := IFR c; CR := CR c;
          Agriculture := S (Agriculture c); WaterBody := WaterBody c |}
  else if String.eqb key "Water Body"
  then {| CFR := CFR c; IFR := IFR c; CR := CR c;
          Agriculture := Agriculture c; WaterBody := S (WaterBody c) |}
  else c.

(** The specification's reading of an option list that is not scoped: every
    district of the loaded data is on offer. *)
Definition all_districts_listed (this : dataset) (d : controls) : Prop :=
  forall f, In f (fraData this) ->
    In (JS.to_key (district (props f))) (district_options d).

(** Every key of the options is set by the style. *)
Definition complete (s : style) : Prop :=
  is_Some (color s) /\ is_Some (fillColor s) /\ is_Some (fillOpacity s)
  /\ is_Some (weight s) /\ is_Some (opacity s) /\ is_Some (dashArray s).

(** A layer has its normal style: the options it was created with, which
    derive from the category and the status of its feature. *)
Definition normal (l : layer) : Prop :=
  options l = options (newLayer (layer_feature l)).

(** What holds of the viewer after any sequence of events: the layers draw
    recognised features, and a layer that shows the highlight is the current
    one. *)
Record consistent (v : viewer) : Prop := Consistent {
  layers_recognised :
    forall i l, objects v !! i = Some l ->
      recognised (props (layer_feature l)) = true;
  highlight_is_current :
    forall i l, objects v !! i = Some l -> highlighted l = true ->
      currentFeature v = Some i
}.

(** ** Example inputs *)

(** A feature of a category the viewer does not know. *)
Definition forest_feature : feature :=
  {| feature_id := 1;
     props := {| fra_type := Some "Forest"; feature_type := None;
                 claim_type := None; status := Some "Approved";
                 state := Some "Odisha"; district := Some "Mayurbhanj";
                 village := Some "Jashipur";
                 area_claimed := Some 2.5%float; area_hectares := None |} |}.

(** A feature whose claimed area is recorded as 0 and whose surveyed area is
    not. *)
Definition zero_claimed_feature : feature :=
  {| feature_id := 2;
     props := {| fra_type := Some "Agriculture"; feature_type := None;
                 claim_type := None; status := Some "Pending";
                 state := Some "Odisha"; district := Some "Mayurbhanj";
                 village := Some "Jashipur";
                 area_claimed := Some 0%float;
                 area_hectares := Some 3.5%float |} |}.

(** A feature whose two schemas name different categories. *)
Definition mixed_feature : feature :=
  {| feature_id := 3;
     props := {| fra_type := Some "Agriculture"; feature_type := None;
                 claim_type := Some "CFR"; status := Some "Approved";
                 state := Some "Odisha"; district := Some "Mayurbhanj";
                 village := Some "Jashipur";
                 area_claimed := Some 4%float; area_hectares := None |} |}.

Definition only_type (wanted : string) : Filters.t :=
  {| Filters.state := ""; Filters.district := ""; Filters.village := "";
     Filters.fraType := wanted; Filters.status := "" |}.

(** A feature whose legacy code says IFR and whose descriptive type says
    CFR. *)
Definition conflict_feature : feature :=
  {| feature_id := 4;
     props := {| fra_type := Some CFR_name; feature_type := None;
                 claim_type := Some "IFR"; status := Some "Approved";
                 state := Some "Odisha"; district := Some "Mayurbhanj";
                 village := Some "Jashipur";
                 area_claimed := Some 1.5%float; area_hectares := None |} |}.

(** A feature in the legacy schema and one in the descriptive schema. *)
Definition legacy_cfr : feature :=
  {| feature_id := 5;
     props := {| fra_type := None; feature_type := None;
                 claim_type := Some "CFR"; status := Some "Pending";
                 state := Some "Odisha"; district := Some "Mayurbhanj";
                 village := Some "Jashipur";
                 area_claimed := Some 15.8%float; area_hectares := None |} |}.

Definition descriptive_cfr : feature :=
  {| feature_id := 6;
     props := {| fra_type := Some CFR_name; feature_type := None;
                 claim_type := None; status := Some "Pending";
                 state := Some "Odisha"; district := Some "Mayurbhanj";
                 village := Some "Jashipur";
                 area_claimed := None; area_hectares := Some 15.8%float |} |}.

(** A feature in the legacy schema that has no [fra_type] and whose
    [feature_type] names another category. *)
Definition legacy_cfr_farm : feature :=
  {| feature_id := 8;
     props := {| fra_type := None; feature_type := Some "Agriculture";
                 claim_type := Some "CFR"; status := Some "Pending";
                 state := Some "Odisha"; district := Some "Mayurbhanj";
                 village := Some "Jashipur";
                 area_claimed := Some 15.8%float; area_hectares := None |} |}.

(** A feature whose descriptive type is the name of a member of
    [Object.prototype]. *)
Definition prototype_feature : feature :=
  {| feature_id := 7;
     props := {| fra_type := Some "constructor"; feature_type := None;
                 claim_type := None; status := Some "Pending";
                 state := Some "Odisha"; district := Some "Mayurbhanj";
                 village := Some "Jashipur";
                 area_claimed := Some 1%float; area_hectares := None |} |}.

Definition place_feature (id : nat) (st di vi : string) : feature :=
  {| feature_id := id;
     props := {| fra_type := Some IFR_name; feature_type := None;
                 claim_type := None; status := Some "Approved";
                 state := Some st; district := Some di; village := Some vi;
                 area_claimed := Some 2.5%float; area_hectares := None |} |}.

(** Data from two states, of which the user sees only the Odisha part. *)
Definition two_state_data : dataset :=
  {| fraData := [ place_feature 10 "Odisha" "Mayurbhanj" "Jashipur";
                  place_feature 11 "Telangana" "Adilabad" "Utnoor";
                  place_feature 12 "Odisha" "Keonjhar" "Banspal";
                  place_feature 13 "Odisha" "Mayurbhanj" "Karanjia" ];
     filteredData := [ place_feature 10 "Odisha" "Mayurbhanj" "Jashipur" ] |}.

(** The user picks Odisha, then Mayurbhanj, then goes back to "All
    States". *)
Definition state_cleared : controls :=
  chooseState two_state_data ""
    (chooseDistrict two_state_data "Mayurbhanj"
       (chooseState two_state_data "Odisha" controls0)).

(** Two features of the CFR group, one of the Agriculture group and one the
    viewer does not draw. *)
Definition sample_features : list feature :=
  [ conflict_feature; legacy_cfr; zero_claimed_feature; forest_feature ].

(** The three features of the specification's scenario. *)
Definition scenario_features : list feature :=
  [ {| feature_id := 20;
       props := {| fra_type := None; feature_type := None;
                   claim_type := Some "IFR"; status := Some "Approved";
                   state := None; district := None; village := None;
                   area_claimed := Some 2.5%float; area_hectares := None |} |};
    {| feature_id := 21;
       props := {| fra_type := None; feature_type := None;
                   claim_type := Some "CFR"; status := Some "Pending";
                   state := None; district := None; village := None;
                   area_claimed := Some 15.8%float; area_hectares := None |} |};
    {| feature_id := 22;
       props := {| fra_type := Some "Water Body"; feature_type := None;
                   claim_type := None; status := None;
                   state := None; district := None; village := None;
                   area_claimed := Some 0%float; area_hectares := None |} |} ].

(** * The rest of the viewer *)

(** ** Statistics by status and by category *)

(** [props.status === s]. *)
Definition has_status (s : string) (f : feature) : bool :=
  JS.strict_eq (status (props f)) s.

(** The counter of [typeCounts] that the loop body increments for a
    feature, if any. *)
Definition bucketOf (p : properties) : option string :=
  if recognised p then styleKeyOf p else None.

(** [typeCounts[key]]. *)
Definition countOf (key : string) (c : typeCounts) : nat :=
  if String.eqb key "CFR" then CFR c
  else if String.eqb key "IFR" then IFR c
  else if String.eqb key "CR" then CR c
  else if String.eqb key "Agriculture" then Agriculture c
  else if String.eqb key "Water Body" then WaterBody c
  else 0.

Definition count_keys : list string :=
  ["CFR"; "IFR"; "CR"; "Agriculture"; "Water Body"].

(** ** Filters against each other *)

(** Every field that [f] sets is set to the same value by [g]. *)
Definition narrows (g f : Filters.t) : Prop :=
  (Filters.state f = "" \/ Filters.state g = Filters.state f)
  /\ (Filters.district f = "" \/ Filters.district g = Filters.district f)
  /\ (Filters.village f = "" \/ Filters.village g = Filters.village f)
  /\ (Filters.fraType f = "" \/ Filters.fraType g = Filters.fraType f)
  /\ (Filters.status f = "" \/ Filters.status g = Filters.status f).

(** The filter with every control on its "All ..." entry. *)
Definition no_filter : Filters.t :=
  {| Filters.state := ""; Filters.district := ""; Filters.village := "";
     Filters.fraType := ""; Filters.status := "" |}.

(** ** setupFilters and the values applyFilters reads *)

(** The option values [setupFilters] gives the state [select]. *)
Definition stateOptions (fraData : list feature) : list string :=
  "" :: map JS.to_key
          (sort (new_Set (map (fun f => state (props f)) fraData))).

(** The [filters] object [applyFilters] builds from the controls. *)
Definition readFilters (d : controls) : Filters.t :=
  {| Filters.state := state_filter d;
     Filters.district := district_filter d;
     Filters.village := village_filter d;
     Filters.fraType := fra_type_filter d;
     Filters.status := status_filter d |}.

(** The user picks a village; no handler listens to that [select]. *)
Definition chooseVillage (v : string) (d : controls) : controls :=
  {| state_filter := state_filter d;
     district_filter := district_filter d;
     village_filter := v;
     fra_type_filter := fra_type_filter d;
     status_filter := status_filter d;
     district_options := district_options d;
     village_options := village_options d |}.

(** ** The type icon of a popup *)

(** The object literal the icon is looked up in. *)
Definition typeIcons : gmap string string :=
  <[CFR_name := "🌲"]> (<[IFR_name := "🏠"]> (<[CR_name := "🤝"]>
  (<[Agriculture_name := "🌾"]> (<[WaterBody_name := "💧"]> ∅)))).

(** What the template interpolates for the icon: a glyph, or the text of an
    inherited member. *)
Inductive icon : Type :=
| Glyph (s : string)
| MemberText.

(** [{...}[fraType] || '📍'], computed before the legacy codes overwrite
    [fraType]. *)
Definition typeIconOf (p : properties) : icon :=
  match JS.get typeIcons (JS.to_key (fraTypeOf p)) with
  | JS.Own s => Glyph s
  | JS.Inherited => MemberText
  | JS.Missing => Glyph "📍"
  end.

(** The glyph that belongs to a type name. *)
Definition glyph_of (name : string) : icon :=
  match typeIcons !! name with
  | Some s => Glyph s
  | None => Glyph "📍"
  end.

(** ** The styles a layer can show *)

(** The options of a layer of feature [f] are its normal style, or that
    style under the hover style, the highlight style, or the highlight style
    and the hover style on top. *)
Definition shows_one_of_four (l : layer) : Prop :=
  let n := getFeatureStyle (layer_feature l) in
  options l = n
  \/ options l = setStyle n hover_style
  \/ options l = setStyle n highlight_style
  \/ options l = setStyle (setStyle n highlight_style) hover_style.

(** The loop body increments [typeCounts[key]] for the feature. *)
Definition counted_as (key : string) (f : feature) : bool :=
  match bucketOf (props f) with
  | Some k => String.eqb key k
  | None => false
  end.

(** Two filters for the scenarios: Odisha, and Mayurbhanj in Odisha. *)
Definition odisha_filter : Filters.t :=
  {| Filters.state := "Odisha"; Filters.district := "";
     Filters.village := ""; Filters.fraType := ""; Filters.status := "" |}.

Definition mayurbhanj_filter : Filters.t :=
  {| Filters.state := "Odisha"; Filters.district := "Mayurbhanj";
     Filters.village := ""; Filters.fraType := ""; Filters.status := "" |}.

(** ** The page: data, controls, statistics panel, layers and alerts

    The fields of the viewer object and the parts of the document it writes
    to.  The view of the map (centre, zoom, bounds) and the geometry of the
    features are not part of the model (every feature is one Leaflet can
    draw), nor are the check boxes of the layer controls, the labels and the
    full-screen mode. *)

Record page : Type := Page {
  (** [this.fraData] and [this.filteredData]; [None] while both are
      [null]. *)
  data : option dataset;
  (** The five [select] elements. *)
  selects : controls;
  (** The option values of the state [select]; [None] while it still has
      the options of the page's markup. *)
  state_options : option (list string);
  (** The numbers of the statistics panel; [None] while it still has the
      text of the page's markup. *)
  panel : option statistics;
  (** [this.layers] without its [null] entries: layer key to the features
      of the layer group. *)
  layers : gmap string (list feature);
  (** The keys of the layer groups of [this.layers] that are on the map, in
      the order they were added: the first is drawn first, the last on
      top. *)
  stack : list string;
  (** The overlay controls added to the map so far, each with the names of
      its entries; the newest is last. *)
  overlays : list (list string);
  (** The alerts shown so far, each a message and a type. *)
  alerts : list (string * string);
  hierarchyVisible : bool;
  (** The errors no handler caught. *)
  uncaught : list string
}.

Definition set_data (x : option dataset) (p : page) : page :=
  Page x (selects p) (state_options p) (panel p) (layers p) (stack p)
    (overlays p) (alerts p) (hierarchyVisible p) (uncaught p).

Definition set_selects (x : controls) (p : page) : page :=
  Page (data p) x (state_options p) (panel p) (layers p) (stack p)
    (overlays p) (alerts p) (hierarchyVisible p) (uncaught p).

Definition set_state_options (x : option (list string)) (p : page) : page :=
  Page (data p) (selects p) x (panel p) (layers p) (stack p)
    (overlays p) (alerts p) (hierarchyVisible p) (uncaught p).

Definition set_panel (x : option statistics) (p : page) : page :=
  Page (data p) (selects p) (state_options p) x (layers p) (stack p)
    (overlays p) (alerts p) (hierarchyVisible p) (uncaught p).

Definition set_layers (x : gmap string (list feature)) (p : page) : page :=
  Page (data p) (selects p) (state_options p) (panel p) x (stack p)
    (overlays p) (alerts p) (hierarchyVisible p) (uncaught p).

Definition set_stack (x : list string) (p : page) : page :=
  Page (data p) (selects p) (state_options p) (panel p) (layers p) x
    (overlays p) (alerts p) (hierarchyVisible p) (uncaught p).

Definition set_overlays (x : list (list string)) (p : page) : page :=
  Page (data p) (selects p) (state_options p) (panel p) (layers p) (stack p)
    x (alerts p) (hierarchyVisible p) (uncaught p).

Definition set_hierarchyVisible (x : bool) (p : page) : page :=
  Page (data p) (selects p) (state_options p) (panel p) (layers p) (stack p)
    (overlays p) (alerts p) x (uncaught p).

(** [this.showAlert(message, type)]. *)
Definition showAlert (message type : string) (p : page) : page :=
  Page (data p) (selects p) (state_options p) (panel p) (layers p) (stack p)
    (overlays p) (alerts p ++ [(message, type)]) (hierarchyVisible p)
    (uncaught p).

(** A method of the viewer returns, or throws with the page as it has left
    it. *)
Inductive result : Type :=
| Ok (p : page)
| Raise (p : page) (message : string).

Definition and_then (r : result) (k : page -> result) : result :=
  match r with
  | Ok p => k p
  | Raise p m => Raise p m
  end.

(** An event handler is over: an error nobody caught goes to the console. *)
Definition settle (r : result) : page :=
  match r with
  | Ok p => p
  | Raise p m =>
      Page (data p) (selects p) (state_options p) (panel p) (layers p)
        (stack p) (overlays p) (alerts p) (hierarchyVisible p)
        (uncaught p ++ [m])
  end.

(** The keys of [this.layers] in the order of the object literal, which is
    the order of [Object.values] and [Object.entries]. *)
Definition layer_keys : list string :=
  ["cfr"; "ifr"; "cr"; "agriculture"; "waterBody"].

Definition layerMapping : gmap string string :=
  <[CFR_name := "cfr"]> (<[IFR_name := "ifr"]> (<[CR_name := "cr"]>
  (<[Agriculture_name := "agriculture"]>
  (<[WaterBody_name := "waterBody"]> ∅)))).

(** [layerMapping[fraType]] for a type of [layerOrder]. *)
Definition layerKeyOf (fraType : string) : string :=
  match layerMapping !! fraType with
  | Some key => key
  | None => "undefined"
  end.

Definition displayNames : gmap string string :=
  <["cfr" := "🌲 CFR - Community Forest Resource Rights"]>
  (<["ifr" := "🏠 IFR - Individual Forest Rights"]>
  (<["cr" := "🤝 CR - Community Rights"]>
  (<["agriculture" := "🌾 Agriculture"]>
  (<["waterBody" := "💧 Water Bodies"]> ∅)))).

(** [{...}[key] || key] for a key of [this.layers]. *)
Definition displayNameOf (key : string) : string :=
  match displayNames !! key with
  | Some name => name
  | None => key
  end.

(** The names [addFRALayerControl] collects from [this.layers]. *)
Definition overlayNames (m : gmap string (list feature)) : list string :=
  map displayNameOf
    (List.filter (fun key => bool_decide (is_Some (m !! key))) layer_keys).

(** [addFRALayerControl]: a control is added when there is a layer.  The
    loop that is to remove the control of the call before runs over the
    layers of the map, of which none is a control, and removes nothing. *)
Definition addFRALayerControl (p : page) : page :=
  match overlayNames (layers p) with
  | [] => p
  | names => set_overlays (overlays p ++ [names]) p
  end.

(** The body of [layerOrder.forEach] on the page: the group of the plan
    becomes [this.layers[layerKey]] and goes onto the map. *)
Definition addGroup (p : page) (g : string * list feature) : page :=
  let layerKey := layerKeyOf (fst g) in
  set_stack (stack p ++ [layerKey])
    (set_layers (<[layerKey := snd g]> (layers p)) p).

(** [displayFRALayers] on the page. *)
Definition displayPage (p : page) : result :=
  (* the layers of [this.layers] that are on the map leave it *)
  let p1 :=
    set_stack
      (List.filter (fun key => bool_decide (layers p !! key = None))
         (stack p)) p in
  let p2 := set_layers ∅ p1 in
  match data p2 with
  | None => Ok p2
  | Some this =>
      match displayFRALayers (filteredData this) with
      | JS.Thrown m => Raise p2 m
      | JS.Returned px => Ok (addFRALayerControl (fold_left addGroup px p2))
      end
  end.

(** [updateStatistics] on the page. *)
Definition updatePanel (p : page) : page :=
  match data p with
  | None => p
  | Some this => set_panel (Some (updateStatistics (filteredData this))) p
  end.

(** [setupFilters]. *)
Definition setupFilters (p : page) : page :=
  match data p with
  | None => p
  | Some this => set_state_options (Some (stateOptions (fraData this))) p
  end.

Definition load_failed : string :=
  "Failed to load FRA data. Please check the server connection.".

(** [loadFRAData]: [response] is the feature collection the server sent, or
    [None] when the request failed.  An error of [displayFRALayers] is caught
    here as well. *)
Definition loadFRAData (response : option (list feature)) (p : page)
  : page :=
  match response with
  | None => showAlert load_failed "error" p
  | Some features =>
      let p1 :=
        set_data (Some {| fraData := features; filteredData := features |})
          p in
      match displayPage p1 with
      | Ok p2 => p2
      | Raise p2 _ => showAlert load_failed "error" p2
      end
  end.

(** The viewer as its constructor leaves it. *)
Definition constructed : page :=
  {| data := None; selects := controls0; state_options := None;
     panel := None; layers := ∅; stack := []; overlays := [];
     alerts := []; hierarchyVisible := true; uncaught := [] |}.

(** [init]. *)
Definition init (response : option (list feature)) : page :=
  updatePanel (setupFilters (loadFRAData response constructed)).

Definition filters_applied (shown total : nat) : string :=
  "Filters applied! Showing " ++ pretty shown ++ " of " ++ pretty total
  ++ " features.".

(** [applyFilters] on the page. *)
Definition applyFiltersPage (p : page) : result :=
  match data p with
  | None => Ok (showAlert "No data available to filter!" "error" p)
  | Some this =>
      let filtered :=
        applyFilters (fraData this) (readFilters (selects p)) in
      let p1 :=
        set_data (Some {| fraData := fraData this;
                          filteredData := filtered |}) p in
      and_then (displayPage p1) (fun p2 =>
        Ok (showAlert
              (filters_applied (length filtered) (length (fraData this)))
              "success" (updatePanel p2)))
  end.

(** [clearFilters] on the page. *)
Definition clearFiltersPage (p : page) : result :=
  let p1 := set_selects controls0 p in
  let p2 :=
    set_data
      match data p1 with
      | None => None
      | Some this => Some {| fraData := fraData this;
                             filteredData := fraData this |}
      end p1 in
  and_then (displayPage p2) (fun p3 =>
    Ok (showAlert "Filters cleared!" "success" (updatePanel p3))).

(** [zoomToData], as far as the page shows it. *)
Definition zoomToDataPage (p : page) : page :=
  match data p with
  | None => showAlert "No data to zoom to!" "error" p
  | Some this =>
      match filteredData this with
      | [] => showAlert "No data to zoom to!" "error" p
      | _ :: _ => p
      end
  end.

(** [exportData], as far as the page shows it. *)
Definition exportDataPage (p : page) : page :=
  match data p with
  | None => showAlert "No data to export!" "error" p
  | Some _ => showAlert "Data exported successfully!" "success" p
  end.

(** [toggleHierarchy]. *)
Definition toggleHierarchy (p : page) : result :=
  let p1 := set_hierarchyVisible (negb (hierarchyVisible p)) p in
  if hierarchyVisible p1 then displayPage p1 else Ok p1.

(** [toggleAllLayers]: [map.removeLayer] of a layer that is not on the map
    and [map.addLayer] of one that is do nothing. *)
Definition toggleAllLayers (p : page) : page :=
  let present := fun key => bool_decide (is_Some (layers p !! key)) in
  let hasVisibleLayers :=
    existsb (fun key => present key && bool_decide (key ∈ stack p))
      layer_keys in
  if hasVisibleLayers
  then set_stack (List.filter (fun key => negb (present key)) (stack p)) p
  else
    set_stack
      (fold_left
         (fun onMap key =>
            if present key && negb (bool_decide (key ∈ onMap))
            then onMap ++ [key] else onMap)
         layer_keys (stack p)) p.

(** The message of the [TypeError] for [null.features]. *)
Definition null_features : string :=
  "Cannot read properties of null (reading 'features')".

(** [updateDistrictFilter] and [updateVillageFilter] on the page.  Without
    data they clear the options and, once past their early return, throw on
    [this.fraData.features]. *)
Definition updateDistrictPage (p : page) : result :=
  match data p with
  | Some this => Ok (set_selects (updateDistrictFilter this (selects p)) p)
  | None =>
      let d := selects p in
      let cleared :=
        {| state_filter := state_filter d;
           district_filter := "";
           village_filter := village_filter d;
           fra_type_filter := fra_type_filter d;
           status_filter := status_filter d;
           district_options := [""];
           village_options := village_options d |} in
      if negb (chosen (state_filter d))
      then Ok (set_selects cleared p)
      else Raise (set_selects cleared p) null_features
  end.

Definition updateVillagePage (p : page) : result :=
  match data p with
  | Some this => Ok (set_selects (updateVillageFilter this (selects p)) p)
  | None =>
      let d := selects p in
      let cleared :=
        {| state_filter := state_filter d;
           district_filter := district_filter d;
           village_filter := "";
           fra_type_filter := fra_type_filter d;
           status_filter := status_filter d;
           district_options := district_options d;
           village_options := [""] |} in
      if negb (chosen (state_filter d)) || negb (chosen (district_filter d))
      then Ok (set_selects cleared p)
      else Raise (set_selects cleared p) null_features
  end.

(** What the user does on the page. *)
Inductive action : Type :=
| ApplyFilters
| ClearFilters
| ZoomToData
| ExportData
| ToggleHierarchy
| ToggleAllLayers
| PickState (v : string)
| PickDistrict (v : string)
| PickVillage (v : string)
| PickType (v : string)
| PickStatus (v : string).

Definition pick_state (v : string) (d : controls) : controls :=
  {| state_filter := v; district_filter := district_filter d;
     village_filter := village_filter d;
     fra_type_filter := fra_type_filter d;
     status_filter := status_filter d;
     district_options := district_options d;
     village_options := village_options d |}.

Definition pick_district (v : string) (d : controls) : controls :=
  {| state_filter := state_filter d; district_filter := v;
     village_filter := village_filter d;
     fra_type_filter := fra_type_filter d;
     status_filter := status_filter d;
     district_options := district_options d;
     village_options := village_options d |}.

Definition pick_type (v : string) (d : controls) : controls :=
  {| state_filter := state_filter d; district_filter := district_filter d;
     village_filter := village_filter d;
     fra_type_filter := v;
     status_filter := status_filter d;
     district_options := district_options d;
     village_options := village_options d |}.

Definition pick_status (v : string) (d : controls) : controls :=
  {| state_filter := state_filter d; district_filter := district_filter d;
     village_filter := village_filter d;
     fra_type_filter := fra_type_filter d;
     status_filter := v;
     district_options := district_options d;
     village_options := village_options d |}.

(** The listeners of [setupEventListeners]. *)
Definition act (a : action) (p : page) : page :=
  match a with
  | ApplyFilters => settle (applyFiltersPage p)
  | ClearFilters => settle (clearFiltersPage p)
  | ZoomToData => zoomToDataPage p
  | ExportData => exportDataPage p
  | ToggleHierarchy => settle (toggleHierarchy p)
  | ToggleAllLayers => toggleAllLayers p
  | PickState v =>
      settle (updateDistrictPage (set_selects (pick_state v (selects p)) p))
  | PickDistrict v =>
      settle (updateVillagePage
                (set_selects (pick_district v (selects p)) p))
  | PickVillage v => set_selects (chooseVillage v (selects p)) p
  | PickType v => set_selects (pick_type v (selects p)) p
  | PickStatus v => set_selects (pick_status v (selects p)) p
  end.

(** The page after it was opened and the user did [actions]. *)
Definition session (response : option (list feature))
  (actions : list action) : page :=
  fold_left (fun p a => act a p) actions (init response).

(** ** What the page shows *)

(** The grouping loop throws on no feature of the collection. *)
Definition drawable (X : list feature) : Prop :=
  existsb (fun f => hitsPrototype (props f)) X = false.

(** [this.layers] after the groups of [X] were added. *)
Definition layersFor (X : list feature) : gmap string (list feature) :=
  fold_left (fun m g => <[layerKeyOf (fst g) := snd g]> m)
    (flat_map (entry X) layerOrder) ∅.

(** The entries of an overlay control for the groups of [X]. *)
Definition overlayFor (X : list feature) : list string :=
  map (fun name => displayNameOf (layerKeyOf name))
    (List.filter (present X) group_names).

(** The page after [displayFRALayers] found nothing to draw, or threw. *)
Definition cleared (p : page) : page :=
  set_layers ∅ (set_stack [] p).

(** The page after [displayFRALayers] drew the groups of [X]. *)
Definition drawn (X : list feature) (p : page) : page :=
  set_overlays
    (overlays p ++ match overlayFor X with
                   | [] => []
                   | names => [names]
                   end)
    (set_stack (map layerKeyOf (List.filter (present X) layerOrder))
       (set_layers (layersFor X) p)).

(** The layer groups on the map are groups of [this.layers], each once, and
    [this.layers] has its five keys only. *)
Record tidy (p : page) : Prop := {
  on_map_once : NoDup (stack p);
  on_map_layers : forall key, In key (stack p) -> is_Some (layers p !! key);
  layers_keys : forall key, is_Some (layers p !! key) -> In key layer_keys
}.

(** The page shows the selection [X] of the loaded features [all]: the
    statistics are those of [X], and the layer of a category holds the
    features of [X] that are drawn in it, in their order. *)
Record shows (all X : list feature) (p : page) : Prop := {
  shows_data : data p = Some {| fraData := all; filteredData := X |};
  shows_panel : panel p = Some (updateStatistics X);
  shows_layers :
    forall name, In name group_names ->
      layers p !! layerKeyOf name
      = if present X name then Some (collect name X) else None;
  shows_tidy : tidy p
}.

(** A session: the user filters on Odisha and the CFR type, hides and shows
    the layers and clears the filters. *)
Definition sample_actions : list action :=
  [ PickState "Odisha"; PickType CFR_name; ApplyFilters; ToggleAllLayers;
    ToggleHierarchy; ClearFilters ].

(** Loaded data with a feature whose type names a member of
    [Object.prototype]. *)
Definition poisoned_features : list feature :=
  [ legacy_cfr; prototype_feature; zero_claimed_feature ].

(** * Properties *)

(** ** Reading the JavaScript tests *)

Lemma strict_eq_true (v : option string) (s : string) :
  JS.strict_eq v s = true <-> v = Some s.
Proof.
  destruct v as [x|]; simpl.
  - rewrite String.eqb_eq. split; congruence.
  - split; discriminate.
Qed.

Lemma strict_eq_false (v : option string) (s : string) :
  JS.strict_eq v s = false <-> v <> Some s.
Proof.
  rewrite <- strict_eq_true. destruct (JS.strict_eq v s); split; congruence.
Qed.

Lemma strict_eq_refl (s : string) : JS.strict_eq (Some s) s = true.
Proof. apply strict_eq_true. reflexivity. Qed.

Lemma chosen_false (v : string) : chosen v = false <-> v = "".
Proof.
  unfold chosen. rewrite Bool.negb_false_iff. apply String.eqb_eq.
Qed.

Lemma chosen_true (v : string) : chosen v = true <-> v <> "".
Proof.
  unfold chosen. rewrite Bool.negb_true_iff. apply String.eqb_neq.
Qed.

#[local] Arguments JS.strict_eq : simpl never.

(** Case analysis on every [===] test of the goal. *)
Ltac split_tests :=
  repeat match goal with
         | |- context [JS.strict_eq ?v ?s] =>
             let E := fresh "E" in destruct (JS.strict_eq v s) eqn:E
         end.

(** ** Statistics *)

Lemma countType_sum (p : properties) (c : typeCounts) :
  sumCounts (countType p c)
  = sumCounts c + (if recognised p then 1 else 0).
Proof.
  unfold countType, recognised, legacy_codes, group_names, sumCounts.
  simpl existsb. split_tests; simpl; lia.
Qed.

Lemma tally_counts (X : list feature) (t : tally) :
  sumCounts (counts (fold_left statStep X t))
  = sumCounts (counts t)
    + length (List.filter (fun f => recognised (props f)) X).
Proof.
  revert t. induction X as [|f X IH]; intros t; simpl.
  - lia.
  - rewrite IH. simpl counts. rewrite countType_sum.
    destruct (recognised (props f)); simpl; lia.
Qed.

Lemma tally_area (X : list feature) (t : tally) :
  totalArea (fold_left statStep X t)
  = fold_left (fun a f => PrimFloat.add a (areaOf (props f))) X (totalArea t).
Proof.
  revert t. induction X as [|f X IH]; intros t; simpl.
  - reflexivity.
  - rewrite IH. reflexivity.
Qed.

Lemma filter_length_le {A} (keep : A -> bool) (X : list A) :
  length (List.filter keep X) <= length X.
Proof.
  induction X as [|a X IH]; simpl; [lia|].
  destruct (keep a); simpl; lia.
Qed.

Lemma filter_length_all {A} (keep : A -> bool) (X : list A) :
  length (List.filter keep X) = length X <-> forallb keep X = true.
Proof.
  induction X as [|a X IH]; simpl; [tauto|].
  pose proof (filter_length_le keep X) as Hle.
  destruct (keep a); simpl.
  - rewrite <- IH. lia.
  - split; [lia | discriminate].
Qed.

(** C1, as stated, at the collection that holds only [forest_feature]: the
    five category counts add up to 0 while [totalFeatures] is 1, so the sum
    of [countByCategory] is not [totalFeatures]. *)
Lemma summarize_counts_gap :
  ~ (sumCounts (counts (tallied (updateStatistics [forest_feature])))
     = totalFeatures (updateStatistics [forest_feature])
     /\ totalFeatures (updateStatistics [forest_feature])
        = length [forest_feature]).
Proof. vm_compute. intros [H _]. discriminate H. Qed.

(** C1, amended: for every collection X, [totalFeatures] is |X|; the five
    category counts add up to the number of recognised features of X (those
    whose [claim_type] is CFR, IFR or CR or whose descriptive type is one of
    the five names), hence to at most [totalFeatures], and to exactly
    [totalFeatures] when and only when every feature of X is recognised; and
    the total area is the left-to-right sum, from 0, of the area of each
    feature of X. *)
Theorem summarize_invariant (X : list feature) :
  let s := updateStatistics X in
  totalFeatures s = length X
  /\ sumCounts (counts (tallied s))
     = length (List.filter (fun f => recognised (props f)) X)
  /\ sumCounts (counts (tallied s)) <= totalFeatures s
  /\ (sumCounts (counts (tallied s)) = totalFeatures s
      <-> forallb (fun f => recognised (props f)) X = true)
  /\ totalArea (tallied s)
     = fold_left (fun a f => PrimFloat.add a (areaOf (props f))) X 0%float.
Proof.
  simpl. unfold updateStatistics; simpl.
  rewrite tally_counts, tally_area. simpl.
  split; [reflexivity|]. split; [reflexivity|].
  split; [apply filter_length_le|].
  split; [apply filter_length_all | reflexivity].
Qed.

(** The scenario of the specification: three features, one of each schema
    and one without area. *)
Example scenario_statistics :
  totalFeatures (updateStatistics scenario_features) = 3
  /\ totalArea (tallied (updateStatistics scenario_features)) = 18.3%float
  /\ counts (tallied (updateStatistics scenario_features))
     = {| CFR := 1; IFR := 1; CR := 0; Agriculture := 0; WaterBody := 1 |}
  /\ map feature_id (applyFilters scenario_features (only_type IFR_name))
     = [20].
Proof. repeat split; vm_compute; reflexivity. Qed.

(** ** The area of a feature *)

Lemma areaOf_cases (p : properties) :
  areaOf p
  = match area_claimed p, area_hectares p with
    | Some x, Some y =>
        if JS.truthy_num x then x else if JS.truthy_num y then y else 0%float
    | Some x, None => if JS.truthy_num x then x else 0%float
    | None, Some y => if JS.truthy_num y then y else 0%float
    | None, None => 0%float
    end.
Proof.
  unfold areaOf, JS.num_or_else, JS.num_or_zero, JS.truthy_opt_num.
  destruct (area_claimed p) as [x|], (area_hectares p) as [y|];
    try reflexivity.
  - destruct (JS.truthy_num x) eqn:Ex; [rewrite Ex|]; reflexivity.
  - destruct (JS.truthy_num x) eqn:Ex; [rewrite Ex|]; reflexivity.
Qed.

(** C10: the area a feature adds to the total is [area_claimed] when that is
    truthy; when [area_claimed] is absent, zero or otherwise falsy it is
    [area_hectares], and 0 only when that is falsy too.  In particular a
    feature with [area_claimed] 0 and a non-zero [area_hectares] adds
    [area_hectares].  The loop adds exactly this value to [totalArea]. *)
Theorem area_fallback_chain (f : feature) :
  let p := props f in
  (forall x, area_claimed p = Some x -> JS.truthy_num x = true ->
     areaOf p = x)
  /\ (forall h, JS.truthy_opt_num (area_claimed p) = false ->
        area_hectares p = Some h -> JS.truthy_num h = true -> areaOf p = h)
  /\ (JS.truthy_opt_num (area_claimed p) = false ->
      JS.truthy_opt_num (area_hectares p) = false -> areaOf p = 0%float)
  /\ (forall h, area_claimed p = Some 0%float -> area_hectares p = Some h ->
        JS.truthy_num h = true -> areaOf p = h)
  /\ (forall X,
        totalArea (tallied (updateStatistics (X ++ [f])))
        = PrimFloat.add (totalArea (tallied (updateStatistics X))) (areaOf p)).
Proof.
  intros p. repeat split.
  - intros x Hc Hx. rewrite areaOf_cases, Hc.
    destruct (area_hectares p); rewrite Hx; reflexivity.
  - intros h Hc Hh Hth. rewrite areaOf_cases, Hh.
    destruct (area_claimed p) as [x|]; simpl in Hc.
    + rewrite Hc, Hth. reflexivity.
    + rewrite Hth. reflexivity.
  - intros Hc Hh. rewrite areaOf_cases.
    destruct (area_claimed p) as [x|], (area_hectares p) as [y|];
      simpl in Hc, Hh; try rewrite Hc; try rewrite Hh; reflexivity.
  - intros h Hc Hh Hth. rewrite areaOf_cases, Hc, Hh, Hth. reflexivity.
  - intros X. unfold updateStatistics; simpl.
    rewrite fold_left_app. reflexivity.
Qed.

(** The same on [zero_claimed_feature]: it adds its 3.5 hectares. *)
Example zero_claimed_area :
  areaOf (props zero_claimed_feature) = 3.5%float
  /\ totalArea (tallied (updateStatistics [zero_claimed_feature])) = 3.5%float.
Proof. split; reflexivity. Qed.

(** ** Filtering *)

Lemma typeMatches_accepts (wanted : string) (p : properties) :
  typeMatches wanted p = true <-> type_accepts wanted p.
Proof.
  unfold typeMatches, type_accepts.
  destruct (String.eqb_spec wanted CFR_name) as [->|Hc];
    [|destruct (String.eqb_spec wanted IFR_name) as [->|Hi];
      [|destruct (String.eqb_spec wanted CR_name) as [->|Hr]]];
    simpl; split_tests; simpl;
    rewrite ?strict_eq_true, ?strict_eq_false in *;
    split; intros H; try reflexivity; try discriminate;
    try solve [intuition congruence];
    try solve [left; assumption];
    try solve [right; left; split; [reflexivity | assumption]];
    try solve [right; right; left; split; [reflexivity | assumption]];
    try solve [right; right; right; split; [reflexivity | assumption]];
    try solve [destruct H as [H|[[H1 H2]|[[H1 H2]|[H1 H2]]]];
               try congruence; try discriminate H1].
Qed.

Lemma gate_open (wanted : string) (test : bool) (actual : Prop) :
  (test = true <-> actual) ->
  (chosen wanted && negb test = false <-> wanted = "" \/ actual).
Proof.
  intros Ht. destruct (chosen wanted) eqn:Ec; simpl.
  - apply chosen_true in Ec. rewrite Bool.negb_false_iff, Ht. tauto.
  - apply chosen_false in Ec. tauto.
Qed.

Lemma passes_iff (flt : Filters.t) (f : feature) :
  passes flt f = true <->
  field_matches (Filters.state flt) (state (props f))
  /\ field_matches (Filters.district flt) (district (props f))
  /\ field_matches (Filters.village flt) (village (props f))
  /\ (Filters.fraType flt = "" \/ type_accepts (Filters.fraType flt) (props f))
  /\ field_matches (Filters.status flt) (status (props f)).
Proof.
  unfold passes, field_matches.
  rewrite <- (gate_open _ _ _ (strict_eq_true (state (props f)) _)).
  rewrite <- (gate_open _ _ _ (strict_eq_true (district (props f)) _)).
  rewrite <- (gate_open _ _ _ (strict_eq_true (village (props f)) _)).
  rewrite <- (gate_open _ _ _ (strict_eq_true (status (props f)) _)).
  rewrite <- (gate_open _ _ _ (typeMatches_accepts _ (props f))).
  repeat match goal with
         | |- context [if ?c then false else _] => destruct c
         end; intuition congruence.
Qed.

(** C2, as stated, at [mixed_feature] ([claim_type] CFR, [fra_type]
    Agriculture): the filter on "Community Forest Resource Rights" and the
    filter on "Agriculture" both retain it, so whichever single category a
    feature is given, retention is not string equality with the category
    field of the filter. *)
Lemma filter_not_category_equality :
  ~ exists category : feature -> option string,
      forall (all : list feature) (flt : Filters.t) (x : feature),
        In x (applyFilters all flt)
        <-> In x all /\ spec_retained category flt x.
Proof.
  intros [category H].
  assert (Hin : In mixed_feature [mixed_feature]) by (left; reflexivity).
  assert (H1 : In mixed_feature
                 (applyFilters [mixed_feature] (only_type CFR_name)))
    by (vm_compute; left; reflexivity).
  assert (H2 : In mixed_feature
                 (applyFilters [mixed_feature] (only_type Agriculture_name)))
    by (vm_compute; left; reflexivity).
  apply H in H1. apply H in H2.
  destruct H1 as [_ (_ & _ & _ & [H1|H1] & _)]; [discriminate H1|].
  destruct H2 as [_ (_ & _ & _ & [H2|H2] & _)]; [discriminate H2|].
  simpl in H1, H2. rewrite H1 in H2. discriminate H2.
Qed.

(** C2, amended: the result of [applyFilters] is a sub-list of the input, in
    the input's order, and a feature is retained if and only if every filter
    field that is set matches it: [state], [district], [village] and
    [status] by string equality; the FRA type when it equals the feature's
    descriptive type, or when it is the long name of the feature's
    [claim_type] code.  A field holding the empty value of its "All ..."
    entry imposes nothing.  There is no area threshold: retention does not
    depend on the areas of a feature. *)
Theorem applyFilters_retains (all : list feature) (flt : Filters.t) :
  sublist (applyFilters all flt) all
  /\ (forall x, In x (applyFilters all flt) <->
        In x all
        /\ field_matches (Filters.state flt) (state (props x))
        /\ field_matches (Filters.district flt) (district (props x))
        /\ field_matches (Filters.village flt) (village (props x))
        /\ (Filters.fraType flt = ""
            \/ type_accepts (Filters.fraType flt) (props x))
        /\ field_matches (Filters.status flt) (status (props x)))
  /\ (forall x a h, passes flt (with_area a h x) = passes flt x).
Proof.
  split; [|split].
  - unfold applyFilters. induction all as [|x all IH]; simpl.
    + constructor.
    + destruct (passes flt x); [apply sublist_skip | apply sublist_cons];
        assumption.
  - intros x. unfold applyFilters. rewrite filter_In, passes_iff.
    reflexivity.
  - intros x a h. reflexivity.
Qed.

(** ** Grouping and draw order *)

Lemma existsb_strict_eq (v : option string) (names : list string) :
  existsb (JS.strict_eq v) names = true <-> exists k, In k names /\ v = Some k.
Proof.
  rewrite existsb_exists. split; intros (k & Hin & Hk); exists k; split;
    try assumption; apply strict_eq_true; assumption.
Qed.

Lemma group_names_own (k : string) :
  In k group_names -> featureGroups !! k = Some [] /\ JS.inherited k = false.
Proof.
  unfold group_names. simpl.
  intros [<-|[<-|[<-|[<-|[<-|[]]]]]]; split; vm_compute; reflexivity.
Qed.

Lemma featureGroups_own_names : own_names featureGroups.
Proof.
  intros k. split.
  - unfold featureGroups. intros Hk.
    repeat (rewrite lookup_insert in Hk; case_decide;
            [subst k; simpl; tauto|]).
    rewrite lookup_empty in Hk. destruct Hk as [? Hk]. discriminate Hk.
  - intros Hk. destruct (group_names_own k Hk) as [-> _]. eexists; reflexivity.
Qed.

Lemma push_own_names (k : string) (f : feature) (g : groups) :
  own_names g -> own_names (push k f g).
Proof.
  intros Hg k'. unfold push. specialize (Hg k').
  destruct (decide (k = k')) as [->|Hne].
  - rewrite lookup_alter_eq. rewrite <- Hg.
    destruct (g !! k'); simpl; split; intros [? H];
      try discriminate H; eexists; reflexivity.
  - rewrite lookup_alter_ne by assumption. exact Hg.
Qed.

(** The group the loop body pushes to is [groupOf]; it throws exactly on a
    descriptive type that names an inherited member. *)
Lemma groupStep_spec (g : groups) (f : feature) :
  own_names g ->
  groupStep g f
  = if hitsPrototype (props f) then JS.Thrown push_error
    else JS.Returned match groupOf (props f) with
                     | Some k => push k f g
                     | None => g
                     end.
Proof.
  intros Hg. unfold groupStep, JS.get, hitsPrototype, groupOf.
  destruct (g !! JS.to_key (fraTypeOf (props f))) as [arr|] eqn:Hl.
  - assert (Hin : In (JS.to_key (fraTypeOf (props f))) group_names)
      by (apply Hg; eexists; exact Hl).
    destruct (group_names_own _ Hin) as [_ ->].
    destruct (fraTypeOf (props f)) as [k|] eqn:Hk; simpl in Hin.
    + replace (existsb (JS.strict_eq (Some k)) group_names) with true.
      * reflexivity.
      * symmetry. apply existsb_strict_eq. exists k. auto.
    + exfalso. unfold group_names in Hin. simpl in Hin.
      repeat (destruct Hin as [Hin|Hin]; [discriminate Hin|]). exact Hin.
  - replace (existsb (JS.strict_eq (fraTypeOf (props f))) group_names)
      with false.
    + destruct (JS.inherited _); [reflexivity|].
      split_tests; reflexivity.
    + symmetry. apply Bool.not_true_is_false. intros Hex.
      apply existsb_strict_eq in Hex. destruct Hex as (k & Hin & Hk).
      rewrite Hk in Hl. simpl in Hl.
      apply Hg in Hin. rewrite Hl in Hin. destruct Hin as [? Hin].
      discriminate Hin.
Qed.

Lemma place_own_names (g : groups) (f : feature) :
  own_names g -> own_names (place g f).
Proof.
  intros Hg. unfold place. destruct (groupOf (props f));
    [apply push_own_names|]; assumption.
Qed.

Lemma for_each_groupStep (X : list feature) (g : groups) :
  own_names g ->
  JS.for_each groupStep X g
  = if existsb (fun f => hitsPrototype (props f)) X then JS.Thrown push_error
    else JS.Returned (fold_left place X g).
Proof.
  revert g. induction X as [|f X IH]; intros g Hg; simpl.
  - reflexivity.
  - rewrite groupStep_spec by assumption.
    destruct (hitsPrototype (props f)); simpl; [reflexivity|].
    apply IH. apply place_own_names. assumption.
Qed.

Lemma place_lookup (g : groups) (f : feature) (k : string) :
  place g f !! k
  = (fun arr => arr ++ collect k [f]) <$> (g !! k).
Proof.
  unfold place, collect. simpl.
  destruct (groupOf (props f)) as [k'|] eqn:Hk.
  - unfold push. destruct (String.eqb_spec k' k) as [->|Hne].
    + rewrite lookup_alter_eq, strict_eq_refl. reflexivity.
    + rewrite lookup_alter_ne by assumption.
      replace (JS.strict_eq (Some k') k) with false
        by (symmetry; apply strict_eq_false; congruence).
      destruct (g !! k); simpl; [rewrite app_nil_r|]; reflexivity.
  - replace (JS.strict_eq None k) with false by reflexivity.
    destruct (g !! k); simpl; [rewrite app_nil_r|]; reflexivity.
Qed.

Lemma collect_cons (k : string) (f : feature) (X : list feature) :
  collect k (f :: X) = collect k [f] ++ collect k X.
Proof.
  unfold collect. simpl.
  destruct (JS.strict_eq (groupOf (props f)) k); reflexivity.
Qed.

Lemma fold_place_lookup (X : list feature) (g : groups) (k : string) :
  fold_left place X g !! k = (fun arr => arr ++ collect k X) <$> (g !! k).
Proof.
  revert g. induction X as [|f X IH]; intros g; cbn [fold_left].
  - destruct (g !! k); simpl; [rewrite app_nil_r|]; reflexivity.
  - rewrite IH, place_lookup, (collect_cons k f X).
    destruct (g !! k) as [arr|]; [|reflexivity].
    unfold fmap, option_fmap, option_map. rewrite app_assoc. reflexivity.
Qed.

Lemma grouped_lookup (X : list feature) (k : string) :
  In k group_names -> fold_left place X featureGroups !! k = Some (collect k X).
Proof.
  intros Hk. rewrite fold_place_lookup.
  destruct (group_names_own k Hk) as [-> _]. reflexivity.
Qed.

Lemma collect_nonempty (k : string) (X : list feature) :
  Nat.ltb 0 (length (collect k X)) = present X k.
Proof.
  unfold collect, present. induction X as [|f X IH]; simpl; [reflexivity|].
  destruct (JS.strict_eq (groupOf (props f)) k); simpl; [reflexivity|].
  exact IH.
Qed.

Lemma displayFRALayers_spec (X : list feature) :
  displayFRALayers X
  = if existsb (fun f => hitsPrototype (props f)) X then JS.Thrown push_error
    else JS.Returned (flat_map (entry X) layerOrder).
Proof.
  unfold displayFRALayers.
  rewrite for_each_groupStep by apply featureGroups_own_names.
  destruct (existsb _ X); simpl; [reflexivity|].
  unfold layerStep, entry.
  rewrite !grouped_lookup by (unfold group_names; simpl; tauto).
  rewrite !collect_nonempty.
  destruct (present X CFR_name), (present X Agriculture_name),
    (present X WaterBody_name), (present X CR_name), (present X IFR_name);
    reflexivity.
Qed.



Lemma plan_types (X : list feature) (order : list string) :
  map fst (flat_map (entry X) order) = List.filter (present X) order.
Proof.
  induction order as [|k order IH]; simpl; [reflexivity|].
  rewrite map_app, IH. unfold entry.
  destruct (present X k); reflexivity.
Qed.




(** The order on a collection in two arrangements. *)
Example drawOrder_example :
  drawOrder [conflict_feature; legacy_cfr; zero_claimed_feature;
             forest_feature]
  = JS.Returned [CFR_name; Agriculture_name]
  /\ drawOrder [forest_feature; zero_claimed_feature; legacy_cfr;
                conflict_feature]
     = JS.Returned [CFR_name; Agriculture_name].
Proof. split; vm_compute; reflexivity. Qed.

(** ** Features the viewer does not recognise *)

Lemma Returned_inj {A} (a b : A) : JS.Returned a = JS.Returned b -> a = b.
Proof. intros H. injection H. trivial. Qed.

Lemma unrecognised_tests (p : properties) :
  recognised p = false ->
  (JS.strict_eq (claim_type p) "CFR" = false
   /\ JS.strict_eq (claim_type p) "IFR" = false
   /\ JS.strict_eq (claim_type p) "CR" = false)
  /\ (JS.strict_eq (fraTypeOf p) CFR_name = false
      /\ JS.strict_eq (fraTypeOf p) IFR_name = false
      /\ JS.strict_eq (fraTypeOf p) CR_name = false
      /\ JS.strict_eq (fraTypeOf p) Agriculture_name = false
      /\ JS.strict_eq (fraTypeOf p) WaterBody_name = false).
Proof.
  unfold recognised, legacy_codes, group_names. simpl existsb.
  rewrite !Bool.orb_false_iff. tauto.
Qed.

Lemma unrecognised_groupOf (p : properties) :
  recognised p = false -> groupOf p = None.
Proof.
  intros H. destruct (unrecognised_tests p H)
    as [(C1 & C2 & C3) (D1 & D2 & D3 & D4 & D5)].
  unfold groupOf, group_names. simpl existsb.
  rewrite C1, C2, C3, D1, D2, D3, D4, D5. reflexivity.
Qed.

Lemma unrecognised_styleKeyOf (p : properties) :
  recognised p = false -> styleKeyOf p = fraTypeOf p.
Proof.
  intros H. destruct (unrecognised_tests p H)
    as [(C1 & C2 & C3) (D1 & D2 & D3 & D4 & D5)].
  unfold styleKeyOf. rewrite C1, C2, C3, D1, D2, D3, D4, D5. reflexivity.
Qed.

Lemma unrecognised_countType (p : properties) (c : typeCounts) :
  recognised p = false -> countType p c = c.
Proof.
  intros H. destruct (unrecognised_tests p H)
    as [(C1 & C2 & C3) (D1 & D2 & D3 & D4 & D5)].
  unfold countType. rewrite C1, C2, C3, D1, D2, D3, D4, D5. reflexivity.
Qed.

Lemma groupOf_recognised (p : properties) (k : string) :
  groupOf p = Some k -> recognised p = true.
Proof.
  intros Hk. destruct (recognised p) eqn:Hr; [reflexivity|].
  rewrite (unrecognised_groupOf p Hr) in Hk. discriminate Hk.
Qed.

Lemma rendered_groupOf (X : list feature) (px : plan) (f : feature) :
  displayFRALayers X = JS.Returned px -> rendered f px ->
  In f X /\ exists k, groupOf (props f) = Some k.
Proof.
  rewrite displayFRALayers_spec. destruct (existsb _ X); [discriminate|].
  intros Hpx (g & Hg & Hf). apply Returned_inj in Hpx. subst px.
  apply in_flat_map in Hg. destruct Hg as (k & _ & Hg).
  unfold entry in Hg. destruct (present X k); [|destruct Hg].
  destruct Hg as [<-|[]]. simpl in Hf. unfold collect in Hf.
  apply filter_In in Hf. destruct Hf as [Hin Hk].
  split; [exact Hin|]. exists k. apply strict_eq_true. exact Hk.
Qed.

Lemma display_skips (f : feature) (X Y : list feature) :
  groupOf (props f) = None -> hitsPrototype (props f) = false ->
  displayFRALayers (X ++ f :: Y) = displayFRALayers (X ++ Y).
Proof.
  intros Hg Hp. rewrite !displayFRALayers_spec.
  rewrite !existsb_app. simpl existsb. rewrite Hp. simpl orb.
  destruct (existsb _ X || existsb _ Y); [reflexivity|]. f_equal.
  apply flat_map_ext. intros k. unfold entry, present, collect.
  rewrite !existsb_app, !List.filter_app. simpl. rewrite Hg.
  reflexivity.
Qed.

(** C4, as stated, at the collection that holds only [forest_feature]
    ([fra_type] "Forest"): the call returns a plan, and the feature is in
    none of its groups. *)
Lemma unknown_feature_dropped :
  In forest_feature [forest_feature]
  /\ recognised (props forest_feature) = false
  /\ ~ exists px, displayFRALayers [forest_feature] = JS.Returned px
                  /\ rendered forest_feature px.
Proof.
  split; [left; reflexivity|]. split; [reflexivity|].
  intros (px & Hpx & g & Hg & _).
  vm_compute in Hpx. injection Hpx as <-. destruct Hg.
Qed.

Lemma colors_lookup (k : string) :
  colors !! k
  = if String.eqb k "CFR" then Some (rule "#8B4513" "#A0522D" 0.4%float)
    else if String.eqb k "IFR" then Some (rule "#FF6B35" "#F7931E" 0.6%float)
    else if String.eqb k "CR" then Some (rule "#9B59B6" "#8E44AD" 0.6%float)
    else if String.eqb k "Agriculture"
    then Some (rule "#2ECC71" "#27AE60" 0.7%float)
    else if String.eqb k "Water Body"
    then Some (rule "#3498DB" "#2980B9" 0.8%float)
    else None.
Proof.
  unfold colors.
  repeat (rewrite lookup_insert;
          match goal with
          | |- context [decide (?a = k)] =>
              destruct (decide (a = k)) as [<-|Hne];
              [reflexivity|
               apply not_eq_sym in Hne; apply String.eqb_neq in Hne;
               rewrite Hne; clear Hne]
          end).
  apply lookup_empty.
Qed.

Lemma colors_missing (k : string) :
  ~ In k legacy_codes -> k <> Agriculture_name -> k <> WaterBody_name ->
  JS.inherited k = false -> JS.get colors k = JS.Missing.
Proof.
  intros Hc Ha Hw Hi. unfold JS.get. rewrite colors_lookup, Hi.
  unfold legacy_codes in Hc. simpl in Hc.
  destruct (String.eqb_spec k "CFR"); [subst k; tauto|].
  destruct (String.eqb_spec k "IFR"); [subst k; tauto|].
  destruct (String.eqb_spec k "CR"); [subst k; tauto|].
  destruct (String.eqb_spec k "Agriculture"); [contradiction|].
  destruct (String.eqb_spec k "Water Body"); [contradiction|].
  reflexivity.
Qed.

(** C4, amended: a feature whose [claim_type] is not CFR, IFR or CR and
    whose descriptive type is none of the five group names (and not the name
    of a member of [Object.prototype]) is styled by [getFeatureStyle] with
    the neutral fallback (stroke #333333, fill #666666, fill opacity 0.5,
    weight 2) unless that type is itself one of the three codes;
    [displayFRALayers] puts it in no layer group, and draws the other
    features as if it were not in the collection; [updateStatistics] counts
    it in [totalFeatures] and in no category. *)
Theorem unknown_feature_left_out (f : feature) :
  recognised (props f) = false ->
  hitsPrototype (props f) = false ->
  (~ In (JS.to_key (fraTypeOf (props f))) legacy_codes ->
     color (getFeatureStyle f) = Some "#333333"
     /\ fillColor (getFeatureStyle f) = Some "#666666"
     /\ fillOpacity (getFeatureStyle f) = Some 0.5%float
     /\ weight (getFeatureStyle f) = Some 2%float)
  /\ (forall X px, displayFRALayers X = JS.Returned px -> ~ rendered f px)
  /\ (forall X Y, displayFRALayers (X ++ f :: Y) = displayFRALayers (X ++ Y))
  /\ (forall X,
        totalFeatures (updateStatistics (X ++ [f]))
        = S (totalFeatures (updateStatistics X))
        /\ counts (tallied (updateStatistics (X ++ [f])))
           = counts (tallied (updateStatistics X))).
Proof.
  intros Hr Hp. split; [|split; [|split]].
  - intros Hc.
    destruct (unrecognised_tests _ Hr) as [_ (_ & _ & _ & D4 & D5)].
    assert (Hm : JS.get colors (JS.to_key (fraTypeOf (props f)))
                 = JS.Missing).
    { apply colors_missing; [exact Hc| | |exact Hp].
      - intros Hk. apply strict_eq_false in D4. apply D4.
        destruct (fraTypeOf (props f)); simpl in Hk;
          [congruence | discriminate Hk].
      - intros Hk. apply strict_eq_false in D5. apply D5.
        destruct (fraTypeOf (props f)); simpl in Hk;
          [congruence | discriminate Hk]. }
    unfold getFeatureStyle, baseStyleOf.
    rewrite (unrecognised_styleKeyOf _ Hr), Hm. simpl.
    repeat split.
    destruct (JS.strict_eq (fraTypeOf (props f)) "CFR") eqn:E;
      [|reflexivity].
    apply strict_eq_true in E. rewrite E in Hm. vm_compute in Hm.
    discriminate Hm.
  - intros X px Hpx Hf.
    destruct (rendered_groupOf X px f Hpx Hf) as [_ [k Hk]].
    rewrite (unrecognised_groupOf _ Hr) in Hk. discriminate Hk.
  - intros X Y. apply display_skips; [|exact Hp].
    apply unrecognised_groupOf. exact Hr.
  - intros X. unfold updateStatistics; simpl.
    rewrite length_app, fold_left_app. simpl.
    rewrite (unrecognised_countType _ _ Hr). split; [lia | reflexivity].
Qed.

(** The theorem at [forest_feature], next to a feature that is drawn. *)
Lemma unknown_feature_left_out_witness :
  (recognised (props forest_feature) = false
   /\ hitsPrototype (props forest_feature) = false)
  /\ color (getFeatureStyle forest_feature) = Some "#333333"
  /\ displayFRALayers [legacy_cfr; forest_feature]
     = displayFRALayers [legacy_cfr].
Proof.
  pose proof (unknown_feature_left_out forest_feature eq_refl eq_refl)
    as (Hstyle & _ & Hskip & _).
  split; [split; reflexivity|]. split.
  - apply Hstyle. vm_compute. intros H.
    repeat (destruct H as [H|H]; [discriminate H|]). exact H.
  - apply (Hskip [legacy_cfr] []).
Defined.

(** ** Two schemas on one feature *)

Lemma groupOf_descriptive (p : properties) (name : string) :
  fraTypeOf p = Some name -> In name group_names -> groupOf p = Some name.
Proof.
  intros Hf Hn. unfold groupOf.
  replace (existsb (JS.strict_eq (fraTypeOf p)) group_names) with true.
  - exact Hf.
  - symmetry. apply existsb_strict_eq. exists name. auto.
Qed.

Lemma display_single (f : feature) (name : string) :
  hitsPrototype (props f) = false ->
  groupOf (props f) = Some name -> In name layerOrder ->
  displayFRALayers [f] = JS.Returned [(name, [f])].
Proof.
  intros Hp Hg Hn. rewrite displayFRALayers_spec. simpl existsb.
  rewrite Hp. simpl orb. cbv iota. f_equal.
  unfold entry, present, collect, layerOrder in *. simpl. rewrite Hg.
  simpl in Hn.
  destruct Hn as [<-|[<-|[<-|[<-|[<-|[]]]]]]; vm_compute; reflexivity.
Qed.

Lemma descriptive_no_throw (p : properties) (name : string) :
  fraTypeOf p = Some name -> In name group_names -> hitsPrototype p = false.
Proof.
  intros Hf Hn. unfold hitsPrototype. rewrite Hf. simpl.
  apply group_names_own. exact Hn.
Qed.

(** C3, as stated, at [conflict_feature] ([claim_type] IFR, [fra_type]
    "Community Forest Resource Rights"): the two schemas conflict, and
    neither the layer group nor the style is the one of the legacy code. *)
Lemma precedence_not_legacy :
  ~ (conflicting conflict_feature "IFR" CFR_name ->
     resolved_from_code conflict_feature "IFR").
Proof.
  intros H.
  assert (Hc : conflicting conflict_feature "IFR" CFR_name).
  { unfold conflicting, legacy_codes, group_names. simpl.
    repeat split; try reflexivity; try tauto. discriminate. }
  destruct (H Hc) as [_ Hs]. vm_compute in Hs. discriminate Hs.
Qed.

(** The cases of a conflict: three codes against five names, without the
    three pairs that agree. *)
Ltac conflict_cases Hcode Hname Hne :=
  unfold legacy_codes, group_names in Hcode, Hname; simpl in Hcode, Hname;
  destruct Hcode as [<-|[<-|[<-|[]]]];
  destruct Hname as [<-|[<-|[<-|[<-|[<-|[]]]]]];
  try (exfalso; apply Hne; reflexivity).

(** C3, amended: when the legacy code of a feature and its descriptive type
    name different categories, [displayFRALayers] puts the feature in the
    group of the descriptive type; [getFeatureStyle] and [updateStatistics]
    give it the category, of the two, that comes first in the chain CFR, IFR,
    CR, so the legacy code decides there only if no earlier category is named
    by the descriptive type; the type filter retains it under either name;
    only the heading of the popup names the category of the legacy code. *)
Theorem precedence_by_call_site (f : feature) (code name : string) :
  conflicting f code name ->
  displayFRALayers [f] = JS.Returned [(name, [f])]
  /\ styleKeyOf (props f) = Some (first_in_chain code (key_of_name name))
  /\ (forall c, countType (props f) c
                = bump (first_in_chain code (key_of_name name)) c)
  /\ (typeMatches (name_of_code code) (props f) = true
      /\ typeMatches name (props f) = true)
  /\ popupTypeOf (props f) = Some (name_of_code code).
Proof.
  intros (Hclaim & Hcode & Hfra & Hname & Hne).
  split; [|split; [|split; [|split]]].
  - apply display_single.
    + eapply descriptive_no_throw; eassumption.
    + apply groupOf_descriptive; assumption.
    + unfold group_names, layerOrder in *. simpl in *. tauto.
  - unfold styleKeyOf. rewrite Hclaim, Hfra.
    conflict_cases Hcode Hname Hne; vm_compute; reflexivity.
  - intros c. unfold countType. rewrite Hclaim, Hfra.
    conflict_cases Hcode Hname Hne; vm_compute; reflexivity.
  - unfold typeMatches. rewrite Hclaim, Hfra.
    conflict_cases Hcode Hname Hne; split; vm_compute; reflexivity.
  - unfold popupTypeOf. rewrite Hclaim.
    conflict_cases Hcode Hname Hne; vm_compute; reflexivity.
Qed.

(** The theorem at [conflict_feature]. *)
Lemma precedence_by_call_site_witness :
  conflicting conflict_feature "IFR" CFR_name
  /\ displayFRALayers [conflict_feature]
     = JS.Returned [(CFR_name, [conflict_feature])]
  /\ styleKeyOf (props conflict_feature) = Some "CFR".
Proof.
  assert (Hc : conflicting conflict_feature "IFR" CFR_name).
  { unfold conflicting, legacy_codes, group_names. simpl.
    repeat split; try reflexivity; try tauto. discriminate. }
  split; [exact Hc|].
  destruct (precedence_by_call_site conflict_feature "IFR" CFR_name Hc)
    as (Hd & Hs & _ & _ & _).
  split; [exact Hd | exact Hs].
Defined.

(** The legacy code does decide the style when it comes first in the
    chain: [mixed_feature] has [claim_type] CFR and [fra_type] Agriculture;
    it is drawn in the Agriculture group with the CFR style. *)
Example mixed_feature_sites :
  displayFRALayers [mixed_feature]
  = JS.Returned [(Agriculture_name, [mixed_feature])]
  /\ styleKeyOf (props mixed_feature) = Some "CFR".
Proof. split; vm_compute; reflexivity. Qed.

(** ** Styles *)

(** The status of a feature decides [dashArray] and nothing else of its
    style: stroke, fill, fill opacity, weight and opacity are the same under
    every status, and the dash pattern is "5, 5" for Pending and [null]
    otherwise. *)
Theorem status_only_dashes (f : feature) (s : option string) :
  color (getFeatureStyle (with_status s f)) = color (getFeatureStyle f)
  /\ fillColor (getFeatureStyle (with_status s f))
     = fillColor (getFeatureStyle f)
  /\ fillOpacity (getFeatureStyle (with_status s f))
     = fillOpacity (getFeatureStyle f)
  /\ weight (getFeatureStyle (with_status s f)) = weight (getFeatureStyle f)
  /\ opacity (getFeatureStyle (with_status s f))
     = opacity (getFeatureStyle f)
  /\ dashArray (getFeatureStyle (with_status s f))
     = Some (if JS.strict_eq s "Pending" then Some "5, 5" else None).
Proof. repeat split. Qed.


(** ** The two schemas of one category *)

Lemma falsy_key (v : option string) :
  JS.truthy v = false -> v = None \/ v = Some "".
Proof.
  destruct v as [s|]; simpl; [|auto].
  rewrite Bool.negb_false_iff, String.eqb_eq. intros ->. auto.
Qed.

(** C9, as stated, at [legacy_cfr_farm] and [descriptive_cfr]: the first
    has [claim_type] "CFR" and no [fra_type], the second [fra_type]
    "Community Forest Resource Rights" and no [claim_type], and they are not
    treated alike.  The [feature_type] of the first puts it in the
    Agriculture group and lets the Agriculture filter retain it, while the
    second is drawn in the Community Forest Resource Rights group and is not
    retained. *)
Lemma legacy_with_feature_type_differs :
  claim_type (props legacy_cfr_farm) = Some "CFR"
  /\ fra_type (props legacy_cfr_farm) = None
  /\ fra_type (props descriptive_cfr) = Some CFR_name
  /\ claim_type (props descriptive_cfr) = None
  /\ ~ treated_alike legacy_cfr_farm descriptive_cfr
  /\ displayFRALayers [legacy_cfr_farm]
     = JS.Returned [(Agriculture_name, [legacy_cfr_farm])]
  /\ displayFRALayers [descriptive_cfr]
     = JS.Returned [(CFR_name, [descriptive_cfr])]
  /\ typeMatches Agriculture_name (props legacy_cfr_farm) = true
  /\ typeMatches Agriculture_name (props descriptive_cfr) = false.
Proof.
  do 4 (split; [reflexivity|]). split.
  - intros [H _]. vm_compute in H. discriminate H.
  - repeat split; vm_compute; reflexivity.
Qed.

(** C9, amended: a feature with [claim_type] "CFR" and no descriptive type
    (neither [fra_type] nor [feature_type]) and a feature with [fra_type]
    "Community Forest Resource Rights" and no [claim_type] are given the
    same category at every call site: each is drawn in the Community Forest
    Resource Rights group, both get the CFR style (the same style, under a
    same status), the FRA-type filter retains one exactly when it retains
    the other, and both are counted as CFR. *)
Theorem legacy_descriptive_equivalence (a b : feature) :
  claim_type (props a) = Some "CFR" ->
  JS.truthy (fra_type (props a)) = false ->
  JS.truthy (feature_type (props a)) = false ->
  fra_type (props b) = Some CFR_name ->
  claim_type (props b) = None ->
  (displayFRALayers [a] = JS.Returned [(CFR_name, [a])]
   /\ displayFRALayers [b] = JS.Returned [(CFR_name, [b])])
  /\ (styleKeyOf (props a) = Some "CFR" /\ styleKeyOf (props b) = Some "CFR")
  /\ (forall s, getFeatureStyle (with_status s a)
                = getFeatureStyle (with_status s b))
  /\ (forall wanted, chosen wanted = true ->
        typeMatches wanted (props a) = typeMatches wanted (props b))
  /\ (forall c, countType (props a) c = bump "CFR" c
                /\ countType (props b) c = bump "CFR" c).
Proof.
  intros Hca Hfa Hta Hfb Hcb.
  assert (Hb : fraTypeOf (props b) = Some CFR_name)
    by (unfold fraTypeOf, JS.or_else; rewrite Hfb; reflexivity).
  assert (Ha : fraTypeOf (props a) = None \/ fraTypeOf (props a) = Some "").
  { unfold fraTypeOf, JS.or_else. rewrite Hfa. apply falsy_key. exact Hta. }
  assert (Hka : styleKeyOf (props a) = Some "CFR")
    by (unfold styleKeyOf; rewrite Hca; reflexivity).
  assert (Hkb : styleKeyOf (props b) = Some "CFR")
    by (unfold styleKeyOf; rewrite Hb, Hcb; reflexivity).
  split; [split|split; [split; assumption|split; [|split]]].
  - apply display_single.
    + unfold hitsPrototype. destruct Ha as [-> | ->]; reflexivity.
    + unfold groupOf. rewrite Hca.
      destruct Ha as [-> | ->]; reflexivity.
    + unfold layerOrder. simpl. tauto.
  - apply display_single.
    + apply (descriptive_no_throw _ CFR_name Hb).
      unfold group_names. simpl. tauto.
    + apply groupOf_descriptive; [exact Hb|].
      unfold group_names. simpl. tauto.
    + unfold layerOrder. simpl. tauto.
  - intros s. unfold getFeatureStyle.
    change (styleKeyOf (props (with_status s a))) with (styleKeyOf (props a)).
    change (styleKeyOf (props (with_status s b))) with (styleKeyOf (props b)).
    rewrite Hka, Hkb. reflexivity.
  - intros wanted Hw. unfold typeMatches. rewrite Hca, Hcb, Hb.
    apply chosen_true in Hw.
    destruct (String.eqb_spec wanted CFR_name) as [->|Hne].
    + reflexivity.
    + replace (JS.strict_eq (Some CFR_name) wanted) with false
        by (symmetry; apply strict_eq_false; congruence).
      replace (JS.strict_eq (fraTypeOf (props a)) wanted) with false.
      * destruct Ha as [-> | ->];
          destruct (String.eqb wanted IFR_name),
            (String.eqb wanted CR_name); reflexivity.
      * symmetry. apply strict_eq_false.
        destruct Ha as [-> | ->]; congruence.
  - intros c. unfold countType. rewrite Hca, Hcb, Hb. split; reflexivity.
Qed.

(** The theorem at [legacy_cfr] and [descriptive_cfr]. *)
Lemma legacy_descriptive_equivalence_witness :
  (claim_type (props legacy_cfr) = Some "CFR"
   /\ fra_type (props legacy_cfr) = None
   /\ fra_type (props descriptive_cfr) = Some CFR_name
   /\ claim_type (props descriptive_cfr) = None)
  /\ displayFRALayers [legacy_cfr] = JS.Returned [(CFR_name, [legacy_cfr])]
  /\ displayFRALayers [descriptive_cfr]
     = JS.Returned [(CFR_name, [descriptive_cfr])]
  /\ getFeatureStyle legacy_cfr = getFeatureStyle descriptive_cfr.
Proof.
  split; [repeat split|].
  destruct (legacy_descriptive_equivalence legacy_cfr descriptive_cfr
              eq_refl eq_refl eq_refl eq_refl eq_refl)
    as ([Ha Hb] & _ & Hs & _).
  split; [exact Ha|]. split; [exact Hb | exact (Hs (Some "Pending"))].
Defined.

(** ** Cascading option lists *)

Lemma units_leb_total (x y : list N) :
  JS.units_leb x y = true \/ JS.units_leb y x = true.
Proof.
  revert y. induction x as [|a x IH]; intros [|b y]; simpl; auto.
  destruct (N.ltb_spec a b) as [Hab|Hab]; simpl; [auto|].
  destruct (N.ltb_spec b a) as [Hba|Hba]; simpl; [auto|].
  replace (a =? b)%N with true by (symmetry; apply N.eqb_eq; lia).
  replace (b =? a)%N with true by (symmetry; apply N.eqb_eq; lia).
  apply IH.
Qed.

Lemma units_leb_trans (x y z : list N) :
  JS.units_leb x y = true -> JS.units_leb y z = true ->
  JS.units_leb x z = true.
Proof.
  revert y z. induction x as [|a x IH]; intros [|b y] [|c z]; simpl; auto;
    try discriminate.
  rewrite !Bool.orb_true_iff, !Bool.andb_true_iff, !N.ltb_lt, !N.eqb_eq.
  intros [Hab|[Hab Hxy]] [Hbc|[Hbc Hyz]].
  - left. lia.
  - left. lia.
  - left. lia.
  - right. split; [lia|]. apply (IH y z); assumption.
Qed.

#[local] Instance sort_le_total : Total sort_le.
Proof.
  intros [x|] [y|]; simpl; try tauto.
  apply units_leb_total.
Qed.

#[local] Instance sort_le_trans : Transitive sort_le.
Proof.
  intros [x|] [y|] [z|]; simpl; try tauto.
  apply units_leb_trans.
Qed.

(** The order is the one of the language, not the order of the UTF-8 bytes:
    the tree U+1F332 is two surrogates, which come before the fullwidth
    tilde U+FF5E, although its bytes come after. *)
Example sort_by_code_units :
  sort [Some "～"; None; Some "🌲"; Some "a"]
  = [Some "a"; Some "🌲"; Some "～"; None]
  /\ JS.code_units "🌲" = [55356%N; 57138%N]
  /\ JS.code_units "～" = [65374%N]
  /\ String.leb "～" "🌲" = true.
Proof. repeat split; vm_compute; reflexivity. Qed.

Lemma new_Set_acc (values seen : list (option string)) :
  NoDup seen ->
  let result :=
    fold_left (fun seen v => if bool_decide (v ∈ seen) then seen
                             else seen ++ [v]) values seen in
  NoDup result /\ forall v, v ∈ result <-> v ∈ seen \/ v ∈ values.
Proof.
  revert seen. induction values as [|x values IH]; intros seen Hnd; simpl.
  - split; [exact Hnd|]. intros v. rewrite elem_of_nil. tauto.
  - case_bool_decide as Hx.
    + destruct (IH seen Hnd) as [H1 H2]. split; [exact H1|].
      intros v. rewrite H2, elem_of_cons.
      split; [tauto|]. intros [H|[->|H]]; auto.
    + assert (Hnd' : NoDup (seen ++ [x])).
      { apply NoDup_app. split; [exact Hnd|]. split.
        - intros y Hy Hy'. apply list_elem_of_singleton in Hy'. subst y.
          exact (Hx Hy).
        - apply NoDup_singleton. }
      destruct (IH (seen ++ [x]) Hnd') as [H1 H2]. split; [exact H1|].
      intros v. rewrite H2, elem_of_app, list_elem_of_singleton, elem_of_cons.
      tauto.
Qed.

Lemma new_Set_spec (values : list (option string)) :
  NoDup (new_Set values) /\ forall v, v ∈ new_Set values <-> v ∈ values.
Proof.
  destruct (new_Set_acc values [] NoDup_nil_2) as [H1 H2].
  split; [exact H1|]. intros v. unfold new_Set. rewrite H2, elem_of_nil.
  tauto.
Qed.

Lemma sort_spec (values : list (option string)) :
  Sorted sort_le (sort values) /\ sort values ≡ₚ values.
Proof.
  split; [apply Sorted_merge_sort, _ | apply merge_sort_Permutation].
Qed.

Lemma districtsOf_spec (all : list feature) (selected : string) :
  Sorted sort_le (districtsOf all selected)
  /\ NoDup (districtsOf all selected)
  /\ forall v, In v (districtsOf all selected) <->
       exists f, In f all /\ state (props f) = Some selected
                 /\ district (props f) = v.
Proof.
  unfold districtsOf.
  destruct (sort_spec (new_Set (map (fun f => district (props f))
    (List.filter (fun f => JS.strict_eq (state (props f)) selected) all))))
    as [Hs Hp].
  destruct (new_Set_spec (map (fun f => district (props f))
    (List.filter (fun f => JS.strict_eq (state (props f)) selected) all)))
    as [Hnd Hin].
  split; [exact Hs|]. split; [rewrite Hp; exact Hnd|].
  intros v. rewrite <- list_elem_of_In, Hp, Hin, list_elem_of_In, in_map_iff.
  split.
  - intros (f & Hv & Hf). apply filter_In in Hf. destruct Hf as [Hf Hst].
    exists f. rewrite strict_eq_true in Hst. auto.
  - intros (f & Hf & Hst & Hv). exists f. split; [exact Hv|].
    apply filter_In. rewrite strict_eq_true. auto.
Qed.

(** C5, as stated, on [two_state_data]: after the user has picked Odisha,
    then Mayurbhanj, and has gone back to "All States", the district list
    does not hold every district of the loaded data: Mayurbhanj is not on
    offer. *)
Lemma cleared_state_offers_no_district :
  state_filter state_cleared = ""
  /\ ~ all_districts_listed two_state_data state_cleared.
Proof.
  split; [reflexivity|]. intros H.
  specialize (H (place_feature 10 "Odisha" "Mayurbhanj" "Jashipur")).
  simpl in H. specialize (H (or_introl eq_refl)).
  vm_compute in H. destruct H as [H|[]]. discriminate H.
Qed.

(** C5, amended: the district options are computed from the full loaded
    data, whatever the filtered view holds.  For a state that is chosen they
    are the "All Districts" entry followed by the districts of the features
    of that state, each once, in the order of [sort()] (by UTF-16 code
    units, [undefined] last).  With no state chosen they are the "All
    Districts" entry alone: going back to "All States" empties the list
    instead of listing every district. *)
Theorem districts_from_full_data (this : dataset) (d : controls) :
  (forall filtered,
     updateDistrictFilter
       {| fraData := fraData this; filteredData := filtered |} d
     = updateDistrictFilter this d)
  /\ (state_filter d = "" ->
      district_options (updateDistrictFilter this d) = [""])
  /\ (state_filter d <> "" ->
      exists districts,
        district_options (updateDistrictFilter this d)
        = "" :: map JS.to_key districts
        /\ Sorted sort_le districts
        /\ NoDup districts
        /\ forall v, In v districts <->
             exists f, In f (fraData this)
                       /\ state (props f) = Some (state_filter d)
                       /\ district (props f) = v).
Proof.
  split; [reflexivity|]. split.
  - intros Hs. unfold updateDistrictFilter. simpl. rewrite Hs. reflexivity.
  - intros Hs. exists (districtsOf (fraData this) (state_filter d)).
    split; [|apply districtsOf_spec].
    unfold updateDistrictFilter. simpl.
    apply chosen_true in Hs. rewrite Hs. reflexivity.
Qed.

Lemma villagesOf_spec (all : list feature) (st di : string) :
  Sorted sort_le (villagesOf all st di)
  /\ NoDup (villagesOf all st di)
  /\ forall v, In v (villagesOf all st di) <->
       exists f, In f all /\ state (props f) = Some st
                 /\ district (props f) = Some di /\ village (props f) = v.
Proof.
  unfold villagesOf.
  match goal with
  | |- context [sort (new_Set ?vs)] =>
      destruct (sort_spec (new_Set vs)) as [Hs Hp];
      destruct (new_Set_spec vs) as [Hnd Hin]
  end.
  split; [exact Hs|]. split; [rewrite Hp; exact Hnd|].
  intros v. rewrite <- list_elem_of_In, Hp, Hin, list_elem_of_In, in_map_iff.
  split.
  - intros (f & Hv & Hf). apply filter_In in Hf. destruct Hf as [Hf Hst].
    apply andb_prop in Hst. rewrite !strict_eq_true in Hst.
    exists f. tauto.
  - intros (f & Hf & Hst & Hdi & Hv). exists f. split; [exact Hv|].
    apply filter_In. split; [exact Hf|].
    apply andb_true_intro. rewrite !strict_eq_true. auto.
Qed.

(** The village options follow the same pattern: from the full loaded data,
    the villages of the chosen state and district, each once, in the order
    of [sort()] (by UTF-16 code units, [undefined] last); the "All Villages"
    entry alone when either is not chosen. *)
Theorem villages_from_full_data (this : dataset) (d : controls) :
  (forall filtered,
     updateVillageFilter
       {| fraData := fraData this; filteredData := filtered |} d
     = updateVillageFilter this d)
  /\ (state_filter d = "" \/ district_filter d = "" ->
      village_options (updateVillageFilter this d) = [""])
  /\ (state_filter d <> "" -> district_filter d <> "" ->
      exists villages,
        village_options (updateVillageFilter this d)
        = "" :: map JS.to_key villages
        /\ Sorted sort_le villages
        /\ NoDup villages
        /\ forall v, In v villages <->
             exists f, In f (fraData this)
                       /\ state (props f) = Some (state_filter d)
                       /\ district (props f) = Some (district_filter d)
                       /\ village (props f) = v).
Proof.
  split; [reflexivity|]. split.
  - intros Hs. unfold updateVillageFilter. simpl.
    destruct Hs as [Hs|Hs]; apply chosen_false in Hs; rewrite Hs;
      [reflexivity | rewrite Bool.orb_true_r; reflexivity].
  - intros Hs Hd.
    exists (villagesOf (fraData this) (state_filter d) (district_filter d)).
    split; [|apply villagesOf_spec].
    unfold updateVillageFilter. simpl.
    apply chosen_true in Hs, Hd. rewrite Hs, Hd. reflexivity.
Qed.

(** The scenario on [two_state_data]. *)
Example district_options_scenario :
  district_options (chooseState two_state_data "Odisha" controls0)
  = [""; "Keonjhar"; "Mayurbhanj"]
  /\ district_options state_cleared = [""].
Proof. split; vm_compute; reflexivity. Qed.

(** ** Highlighting *)

Lemma styleKeyOf_recognised (p : properties) :
  recognised p = true ->
  In (styleKeyOf p)
    [Some "CFR"; Some "IFR"; Some "CR"; Some "Agriculture";
     Some "Water Body"].
Proof.
  unfold recognised, styleKeyOf, legacy_codes, group_names. simpl existsb.
  split_tests; simpl; intros H; try discriminate H; tauto.
Qed.

Lemma getFeatureStyle_recognised (f : feature) :
  recognised (props f) = true ->
  complete (getFeatureStyle f)
  /\ JS.strict_eq (color (getFeatureStyle f)) "#ffff00" = false.
Proof.
  intros Hr. apply styleKeyOf_recognised in Hr.
  unfold getFeatureStyle, complete. simpl in Hr.
  destruct Hr as [<-|[<-|[<-|[<-|[<-|[]]]]]];
    (split; [repeat split; vm_compute; eexists; reflexivity
            | vm_compute; reflexivity]).
Qed.

Lemma setStyle_complete (o s : style) : complete s -> setStyle o s = s.
Proof.
  destruct s as [c fc fo w op da].
  intros ([? Hc] & [? Hfc] & [? Hfo] & [? Hw] & [? Hop] & [? Hda]).
  simpl in *. subst. reflexivity.
Qed.

Lemma newLayer_options (f : feature) :
  recognised (props f) = true -> options (newLayer f) = getFeatureStyle f.
Proof.
  intros Hr. apply setStyle_complete, getFeatureStyle_recognised, Hr.
Qed.

Lemma restyle_lookup (i j : nat) (s : style) (objs : list layer) :
  restyle i s objs !! j
  = if decide (i = j)
    then (fun l => {| layer_feature := layer_feature l;
                      options := setStyle (options l) s |}) <$> objs !! j
    else objs !! j.
Proof.
  unfold restyle. case_decide as Hij.
  - subst j. apply list_lookup_alter_eq.
  - apply list_lookup_alter_ne. exact Hij.
Qed.

Lemma resetStyle_lookup (i j : nat) (objs : list layer) :
  resetStyle i objs !! j
  = if decide (i = j)
    then (fun l => {| layer_feature := layer_feature l;
                      options := setStyle (options l)
                                   (getFeatureStyle (layer_feature l)) |})
         <$> objs !! j
    else objs !! j.
Proof.
  unfold resetStyle. destruct (objs !! i) as [l|] eqn:Hl.
  - rewrite restyle_lookup. case_decide as Hij; [|reflexivity].
    subst j. rewrite Hl. reflexivity.
  - case_decide as Hij; [|reflexivity]. subst j. rewrite Hl. reflexivity.
Qed.

Lemma restyle_length (i : nat) (s : style) (objs : list layer) :
  length (restyle i s objs) = length objs.
Proof. apply length_alter. Qed.

Lemma resetStyle_length (i : nat) (objs : list layer) :
  length (resetStyle i objs) = length objs.
Proof.
  unfold resetStyle. destruct (objs !! i); [apply restyle_length|reflexivity].
Qed.

(** A layer after [setStyle] with its own normal style. *)
Lemma reset_layer (l : layer) :
  recognised (props (layer_feature l)) = true ->
  let l' := {| layer_feature := layer_feature l;
               options := setStyle (options l)
                            (getFeatureStyle (layer_feature l)) |} in
  normal l' /\ highlighted l' = false.
Proof.
  intros Hr. destruct (getFeatureStyle_recognised _ Hr) as [Hc Hy].
  unfold normal, highlighted. cbn [options layer_feature].
  rewrite (setStyle_complete _ _ Hc), (newLayer_options _ Hr).
  split; [reflexivity | exact Hy].
Qed.

Lemma newLayer_normal (f : feature) :
  recognised (props f) = true ->
  normal (newLayer f) /\ highlighted (newLayer f) = false.
Proof.
  intros Hr. split; [reflexivity|].
  unfold highlighted. rewrite (newLayer_options _ Hr).
  apply getFeatureStyle_recognised. exact Hr.
Qed.

Lemma layersOf_recognised (X : list feature) (px : plan) (l : layer) :
  displayFRALayers X = JS.Returned px -> In l (layersOf px) ->
  exists f, l = newLayer f /\ recognised (props f) = true.
Proof.
  intros Hpx Hl. unfold layersOf in Hl.
  apply in_flat_map in Hl. destruct Hl as (g & Hg & Hl).
  apply in_map_iff in Hl. destruct Hl as (f & <- & Hf).
  exists f. split; [reflexivity|].
  destruct (rendered_groupOf X px f Hpx) as [_ [k Hk]].
  - exists g. auto.
  - apply (groupOf_recognised _ k Hk).
Qed.

Lemma restyle_inv (i j : nat) (s : style) (objs : list layer) (l' : layer) :
  restyle i s objs !! j = Some l' ->
  exists l, objs !! j = Some l
    /\ layer_feature l' = layer_feature l
    /\ options l' = if decide (i = j) then setStyle (options l) s
                    else options l.
Proof.
  rewrite restyle_lookup. case_decide as Hij.
  - destruct (objs !! j) as [l|]; [|discriminate].
    intros [= <-]. exists l. auto.
  - intros Hl. exists l'. auto.
Qed.

Lemma resetStyle_inv (i j : nat) (objs : list layer) (l' : layer) :
  resetStyle i objs !! j = Some l' ->
  exists l, objs !! j = Some l
    /\ layer_feature l' = layer_feature l
    /\ options l' = if decide (i = j)
                    then setStyle (options l)
                           (getFeatureStyle (layer_feature l))
                    else options l.
Proof.
  rewrite resetStyle_lookup. case_decide as Hij.
  - destruct (objs !! j) as [l|]; [|discriminate].
    intros [= <-]. exists l. auto.
  - intros Hl. exists l'. auto.
Qed.

Lemma highlighted_options (l l' : layer) :
  options l' = options l -> highlighted l' = highlighted l.
Proof. unfold highlighted. intros ->. reflexivity. Qed.

Lemma reset_not_highlighted (l l' : layer) :
  recognised (props (layer_feature l)) = true ->
  options l' = setStyle (options l) (getFeatureStyle (layer_feature l)) ->
  highlighted l' = false
  /\ options l' = options (newLayer (layer_feature l)).
Proof.
  intros Hr Ho. destruct (reset_layer l Hr) as [Hn Hh].
  unfold normal, highlighted in *. cbn [options layer_feature] in *.
  rewrite Ho. auto.
Qed.

Create HintDb viewer discriminated.

Section Handlers.

(** A viewer in a consistent state, and what each handler makes of it. *)
Variable v : viewer.
Hypothesis Hv : consistent v.

Lemma consistent_redisplay (X : list feature) : consistent (redisplay X v).
Proof.
  destruct Hv as [Hrec Hcur]. unfold redisplay.
  destruct (displayFRALayers X) as [px|] eqn:Hpx; [|split; assumption].
  assert (Hnew : forall i l, layersOf px !! i = Some l ->
            recognised (props (layer_feature l)) = true
            /\ highlighted l = false).
  { intros i l Hl. apply list_elem_of_lookup_2, list_elem_of_In in Hl.
    destruct (layersOf_recognised X px l Hpx Hl) as (f & -> & Hf).
    split; [exact Hf | apply newLayer_normal; exact Hf]. }
  split; cbn [objects currentFeature]; intros i l Hl;
    apply lookup_app_Some in Hl; destruct Hl as [Hl|[_ Hl]].
  - eapply Hrec; eassumption.
  - apply (Hnew _ _ Hl).
  - eapply Hcur; eassumption.
  - intros Hh. destruct (Hnew _ _ Hl) as [_ Hn]. congruence.
Qed.

Lemma consistent_mouseover (i : nat) : consistent (mouseover i v).
Proof.
  destruct Hv as [Hrec Hcur]. unfold mouseover.
  split; cbn [objects currentFeature]; intros j l' Hl';
    destruct (restyle_inv _ _ _ _ _ Hl') as (l & Hl & Hf & Ho).
  - rewrite Hf. eapply Hrec; eassumption.
  - intros Hh. apply (Hcur j l Hl). rewrite <- Hh.
    unfold highlighted. rewrite Ho. case_decide; reflexivity.
Qed.

Lemma consistent_mouseout (i : nat) : consistent (mouseout i v).
Proof.
  destruct Hv as [Hrec Hcur]. unfold mouseout.
  split; cbn [objects currentFeature]; intros j l' Hl';
    destruct (resetStyle_inv _ _ _ _ Hl') as (l & Hl & Hf & Ho).
  - rewrite Hf. eapply Hrec; eassumption.
  - intros Hh. case_decide as Hij.
    + destruct (reset_not_highlighted l l' (Hrec _ _ Hl) Ho) as [Hn _].
      congruence.
    + apply (Hcur j l Hl). rewrite <- Hh. symmetry.
      apply highlighted_options. exact Ho.
Qed.

(** The layers after [resetView], or after the first step of
    [highlightFeature]: none shows the highlight, and the one that was
    current has its normal style. *)
Lemma reset_current (objs : list layer) :
  objs = match currentFeature v with
         | Some c => resetStyle c (objects v)
         | None => objects v
         end ->
  forall j l', objs !! j = Some l' ->
    highlighted l' = false
    /\ recognised (props (layer_feature l')) = true
    /\ (currentFeature v = Some j -> normal l').
Proof.
  destruct Hv as [Hrec Hcur]. intros -> j l' Hl'.
  destruct (currentFeature v) as [c|] eqn:Hc.
  - destruct (resetStyle_inv _ _ _ _ Hl') as (l & Hl & Hf & Ho).
    rewrite Hf. split; [|split; [eapply Hrec; eassumption|]].
    + case_decide as Hcj.
      * apply (reset_not_highlighted l l' (Hrec _ _ Hl) Ho).
      * rewrite (highlighted_options l l' Ho).
        destruct (highlighted l) eqn:Hh; [|reflexivity].
        specialize (Hcur j l Hl Hh). congruence.
    + intros [= ->]. rewrite decide_True in Ho by reflexivity.
      unfold normal. rewrite Hf.
      apply (reset_not_highlighted l l' (Hrec _ _ Hl) Ho).
  - split; [|split; [eapply Hrec; eassumption | discriminate]].
    destruct (highlighted l') eqn:Hh; [|reflexivity].
    specialize (Hcur j l' Hl' Hh). congruence.
Qed.

Lemma highlightFeature_spec (A : nat) :
  currentFeature (highlightFeature A v) = Some A
  /\ (forall i l, objects (highlightFeature A v) !! i = Some l ->
        recognised (props (layer_feature l)) = true
        /\ (highlighted l = true <-> i = A)
        /\ (currentFeature v = Some i -> i <> A -> normal l)).
Proof.
  split; [reflexivity|].
  intros i l' Hl'. unfold highlightFeature in Hl'.
  cbn [objects] in Hl'.
  destruct (restyle_inv _ _ _ _ _ Hl') as (l & Hl & Hf & Ho).
  destruct (reset_current _ eq_refl i l Hl) as (Hh & Hr & Hn).
  rewrite Hf. split; [exact Hr|]. split.
  - case_decide as HAi.
    + subst i. split; [reflexivity|]. intros _.
      unfold highlighted. rewrite Ho. reflexivity.
    + rewrite (highlighted_options l l' Ho), Hh.
      split; [discriminate | congruence].
  - intros Hc Hne. rewrite decide_False in Ho by congruence.
    unfold normal in *. rewrite Hf, Ho. apply Hn. exact Hc.
Qed.

Lemma consistent_highlightFeature (A : nat) :
  consistent (highlightFeature A v).
Proof.
  destruct (highlightFeature_spec A) as [Hc Hs].
  split; intros i l Hl; destruct (Hs i l Hl) as (Hr & Hh & _).
  - exact Hr.
  - intros H. apply Hh in H. subst i. exact Hc.
Qed.

Lemma resetView_spec :
  currentFeature (resetView v) = None
  /\ forall i l, objects (resetView v) !! i = Some l ->
       highlighted l = false
       /\ recognised (props (layer_feature l)) = true.
Proof.
  pose proof (reset_current _ eq_refl) as H.
  unfold resetView. destruct (currentFeature v) as [c|] eqn:Hc;
    cbn [objects currentFeature].
  - split; [reflexivity|]. intros i l Hl. destruct (H i l Hl) as (? & ? & _).
    auto.
  - split; [exact Hc|]. intros i l Hl. destruct (H i l Hl) as (? & ? & _).
    auto.
Qed.

Lemma consistent_resetView : consistent (resetView v).
Proof.
  destruct resetView_spec as [Hc Hs].
  split; intros i l Hl; destruct (Hs i l Hl) as (Hh & Hr).
  - exact Hr.
  - congruence.
Qed.

End Handlers.

#[local] Hint Resolve consistent_redisplay consistent_mouseover
  consistent_mouseout consistent_highlightFeature consistent_resetView
  : viewer.

Lemma consistent_fire (e : event) (v : viewer) :
  consistent v -> consistent (fire e v).
Proof.
  intros Hv. destruct e as [i|i|i| |X]; simpl;
    try (destruct (Nat.ltb i (length (objects v))); [|exact Hv]);
    auto with viewer.
Qed.

Lemma consistent_run (X : list feature) (es : list event) :
  consistent (run X es).
Proof.
  unfold run.
  assert (H0 : consistent (loaded X)).
  { apply consistent_redisplay. split; intros i l Hl; discriminate Hl. }
  revert H0. generalize (loaded X).
  induction es as [|e es IH]; intros v Hv; simpl; [exact Hv|].
  apply IH, consistent_fire, Hv.
Qed.

(** C7: in every state the viewer reaches, through clicks, hovering, view
    resets and redisplays, a layer that shows the highlight is the current
    feature, so no two layers are highlighted at once.  Selecting a layer A
    makes it the current feature and leaves the highlight on A and on no
    other layer, the layer B that was current before having its normal,
    category and status derived, style again.  Clearing leaves no current
    feature and no highlighted layer. *)
Theorem single_highlight (features : list feature) (es : list event) :
  let v := run features es in
  (forall i l, objects v !! i = Some l -> highlighted l = true ->
     currentFeature v = Some i)
  /\ (forall A, A < length (objects v) ->
        let v' := highlightFeature A v in
        currentFeature v' = Some A
        /\ (exists l, objects v' !! A = Some l /\ highlighted l = true)
        /\ (forall i l, objects v' !! i = Some l ->
              (highlighted l = true <-> i = A))
        /\ (forall B l, currentFeature v = Some B -> B <> A ->
              objects v' !! B = Some l -> normal l))
  /\ (let v' := resetView v in
      currentFeature v' = None
      /\ forall i l, objects v' !! i = Some l -> highlighted l = false).
Proof.
  intros v. pose proof (consistent_run features es) as Hv. fold v in Hv.
  split; [apply Hv|]. split.
  - intros A HA v'.
    destruct (highlightFeature_spec v Hv A) as [Hc Hs]. fold v' in Hc, Hs.
    split; [exact Hc|]. split; [|split].
    + assert (Hlen : A < length (objects v')).
      { unfold v', highlightFeature. cbn [objects].
        rewrite restyle_length.
        destruct (currentFeature v); [rewrite resetStyle_length|]; exact HA. }
      apply lookup_lt_is_Some in Hlen. destruct Hlen as [l Hl].
      exists l. split; [exact Hl|]. apply (Hs A l Hl). reflexivity.
    + intros i l Hl. apply (Hs i l Hl).
    + intros B l HB Hne Hl. apply (Hs B l Hl); assumption.
  - intros v'. destruct (resetView_spec v Hv) as [Hc Hs]. fold v' in Hc, Hs.
    split; [exact Hc|]. intros i l Hl. apply (Hs i l Hl).
Qed.

(** The scenario of the specification: B is highlighted, A is clicked. *)
Example click_A_while_B :
  let v := run sample_features [Click 1; MouseOver 0; Click 0] in
  currentFeature v = Some 0
  /\ map highlighted (objects v) = [true; false; false]
  /\ currentFeature (resetView v) = None
  /\ map highlighted (objects (resetView v)) = [false; false; false].
Proof. vm_compute. repeat split. Qed.

(** ** The style of the features the viewer draws *)





(** * More of the viewer *)

(** ** Statistics by status and by category *)

Lemma countType_bucket (p : properties) (c : typeCounts) :
  countType p c
  = match bucketOf p with
    | Some k => bump k c
    | None => c
    end.
Proof.
  unfold countType, bucketOf, recognised, styleKeyOf, legacy_codes,
    group_names.
  simpl existsb. split_tests; reflexivity.
Qed.

Lemma countOf_bump (k k' : string) (c : typeCounts) :
  In k count_keys ->
  countOf k (bump k' c) = countOf k c + (if String.eqb k k' then 1 else 0).
Proof.
  intros Hk. unfold count_keys in Hk. simpl in Hk. unfold bump.
  destruct (String.eqb_spec k' "CFR") as [->|H1];
    [|destruct (String.eqb_spec k' "IFR") as [->|H2];
      [|destruct (String.eqb_spec k' "CR") as [->|H3];
        [|destruct (String.eqb_spec k' "Agriculture") as [->|H4];
          [|destruct (String.eqb_spec k' "Water Body") as [->|H5]]]]];
    destruct Hk as [<-|[<-|[<-|[<-|[<-|[]]]]]];
    unfold countOf;
    first
      [ simpl; lia
      | match goal with
        | |- context [String.eqb ?a ?b] =>
            is_var b;
            replace (String.eqb a b) with false
              by (symmetry; apply String.eqb_neq; congruence)
        end; simpl; lia ].
Qed.

Lemma tally_countOf (k : string) (X : list feature) (t : tally) :
  In k count_keys ->
  countOf k (counts (fold_left statStep X t))
  = countOf k (counts t) + length (List.filter (counted_as k) X).
Proof.
  intros Hk. revert t. induction X as [|f X IH]; intros t; simpl.
  - lia.
  - rewrite IH. simpl counts. rewrite countType_bucket.
    unfold counted_as. destruct (bucketOf (props f)) as [k'|].
    + rewrite (countOf_bump _ _ _ Hk). destruct (String.eqb k k'); simpl; lia.
    + lia.
Qed.

Lemma tally_status (X : list feature) (t : tally) :
  approvedCount (fold_left statStep X t)
  = approvedCount t + length (List.filter (has_status "Approved") X)
  /\ pendingCount (fold_left statStep X t)
     = pendingCount t + length (List.filter (has_status "Pending") X).
Proof.
  revert t. induction X as [|f X IH]; intros t; simpl.
  - lia.
  - destruct (IH (statStep t f)) as [-> ->].
    unfold statStep, countStatus, has_status. simpl.
    destruct (JS.strict_eq (status (props f)) "Approved") eqn:Ea.
    + apply strict_eq_true in Ea. rewrite Ea. simpl. lia.
    + destruct (JS.strict_eq (status (props f)) "Pending"); simpl; lia.
Qed.

Lemma filter_filter_le {A} (p q : A -> bool) (X : list A) :
  length (List.filter q (List.filter p X)) <= length (List.filter q X).
Proof.
  induction X as [|a X IH]; simpl; [lia|].
  destruct (p a); simpl; destruct (q a); simpl; lia.
Qed.

Lemma filter_disjoint_le {A} (p q : A -> bool) (X : list A) :
  (forall a, p a = true -> q a = false) ->
  length (List.filter p X) + length (List.filter q X) <= length X.
Proof.
  intros Hpq. induction X as [|a X IH]; simpl; [lia|].
  destruct (p a) eqn:Hp.
  - rewrite (Hpq a Hp). simpl. lia.
  - destruct (q a); simpl; lia.
Qed.

Lemma filter_partition_all {A} (p q : A -> bool) (X : list A) :
  (forall a, p a = true -> q a = false) ->
  (length (List.filter p X) + length (List.filter q X) = length X
   <-> forallb (fun a => p a || q a) X = true).
Proof.
  intros Hpq. induction X as [|a X IH]; simpl; [tauto|].
  pose proof (filter_disjoint_le p q X Hpq) as Hle.
  destruct (p a) eqn:Hp.
  - rewrite (Hpq a Hp). simpl. rewrite <- IH. lia.
  - destruct (q a); simpl.
    + rewrite <- IH. lia.
    + split; [lia | discriminate].
Qed.

Lemma approved_not_pending (f : feature) :
  has_status "Approved" f = true -> has_status "Pending" f = false.
Proof.
  unfold has_status. intros H. apply strict_eq_true in H. rewrite H.
  reflexivity.
Qed.

(** The two status counters of [updateStatistics]: the number of features
    whose status is "Approved" and the number whose status is "Pending";
    together at most [totalFeatures], and exactly [totalFeatures] when and
    only when every feature has one of these two statuses. *)
Theorem status_counts (X : list feature) :
  let s := updateStatistics X in
  approvedCount (tallied s) = length (List.filter (has_status "Approved") X)
  /\ pendingCount (tallied s)
     = length (List.filter (has_status "Pending") X)
  /\ approvedCount (tallied s) + pendingCount (tallied s) <= totalFeatures s
  /\ (approvedCount (tallied s) + pendingCount (tallied s) = totalFeatures s
      <-> forallb (fun f => has_status "Approved" f || has_status "Pending" f)
            X = true).
Proof.
  simpl. unfold updateStatistics; simpl.
  destruct (tally_status X tally0) as [-> ->]. simpl.
  split; [reflexivity|]. split; [reflexivity|]. split.
  - apply filter_disjoint_le, approved_not_pending.
  - apply filter_partition_all, approved_not_pending.
Qed.

(** Filtering lowers every number of the statistics panel or leaves it as it
    is: the total, each of the five category counts, and the approved and
    pending counts of the filtered data are at most those of the full
    data. *)
Theorem filtering_lowers_counts (X : list feature) (flt : Filters.t) :
  let a := updateStatistics X in
  let b := updateStatistics (applyFilters X flt) in
  totalFeatures b <= totalFeatures a
  /\ (forall k, In k count_keys ->
        countOf k (counts (tallied b)) <= countOf k (counts (tallied a)))
  /\ approvedCount (tallied b) <= approvedCount (tallied a)
  /\ pendingCount (tallied b) <= pendingCount (tallied a).
Proof.
  simpl. unfold updateStatistics, applyFilters; simpl.
  split; [apply filter_length_le|]. split.
  - intros k Hk. rewrite !(tally_countOf k _ _ Hk). simpl.
    pose proof (filter_filter_le (passes flt) (counted_as k) X). lia.
  - destruct (tally_status X tally0) as [-> ->].
    destruct (tally_status (List.filter (passes flt) X) tally0) as [-> ->].
    simpl. split; apply filter_filter_le.
Qed.

Lemma filter_length_none {A} (q : A -> bool) (L : list A) :
  (forall a, In a L -> q a = false) -> length (List.filter q L) = 0.
Proof.
  induction L as [|a L IH]; intros H; simpl; [reflexivity|].
  rewrite (H a (or_introl eq_refl)). apply IH.
  intros b Hb. apply H. right. exact Hb.
Qed.

Lemma filter_length_every {A} (q : A -> bool) (L : list A) :
  (forall a, In a L -> q a = true) -> length (List.filter q L) = length L.
Proof.
  induction L as [|a L IH]; intros H; simpl; [reflexivity|].
  rewrite (H a (or_introl eq_refl)). simpl. f_equal. apply IH.
  intros b Hb. apply H. right. exact Hb.
Qed.

Lemma retained_status (X : list feature) (flt : Filters.t) (x : feature) :
  Filters.status flt <> "" -> In x (applyFilters X flt) ->
  status (props x) = Some (Filters.status flt).
Proof.
  intros Hs Hx. unfold applyFilters in Hx. apply filter_In in Hx.
  destruct Hx as [_ Hx]. apply passes_iff in Hx.
  destruct Hx as (_ & _ & _ & _ & [H|H]); [contradiction | exact H].
Qed.

(** Statistics of data filtered by status: under the "Approved" filter the
    approved count is the total and the pending count is 0, under the
    "Pending" filter it is the other way round, and under any other status
    both counts are 0. *)
Theorem status_filter_statistics (X : list feature) (flt : Filters.t) :
  let s := updateStatistics (applyFilters X flt) in
  (Filters.status flt = "Approved" ->
     approvedCount (tallied s) = totalFeatures s
     /\ pendingCount (tallied s) = 0)
  /\ (Filters.status flt = "Pending" ->
      pendingCount (tallied s) = totalFeatures s
      /\ approvedCount (tallied s) = 0)
  /\ (Filters.status flt <> "" -> Filters.status flt <> "Approved" ->
      Filters.status flt <> "Pending" ->
      approvedCount (tallied s) = 0 /\ pendingCount (tallied s) = 0).
Proof.
  intros s. unfold s, updateStatistics. cbn [tallied totalFeatures].
  destruct (tally_status (applyFilters X flt) tally0) as [-> ->].
  cbn [approvedCount pendingCount tally0 Nat.add].
  assert (Hs : forall x w, Filters.status flt <> "" ->
            In x (applyFilters X flt) ->
            has_status w x = String.eqb (Filters.status flt) w).
  { intros x w Hne Hx. unfold has_status.
    rewrite (retained_status X flt x Hne Hx). reflexivity. }
  split; [|split].
  - intros E. split.
    + apply filter_length_every. intros x Hx. rewrite Hs, E; auto.
      rewrite E. discriminate.
    + apply filter_length_none. intros x Hx. rewrite Hs, E; auto.
      rewrite E. discriminate.
  - intros E. split.
    + apply filter_length_every. intros x Hx. rewrite Hs, E; auto.
      rewrite E. discriminate.
    + apply filter_length_none. intros x Hx. rewrite Hs, E; auto.
      rewrite E. discriminate.
  - intros Hne Hna Hnp. split; apply filter_length_none; intros x Hx;
      rewrite (Hs x _ Hne Hx); apply String.eqb_neq; assumption.
Qed.

Lemma retained_type (X : list feature) (flt : Filters.t) (x : feature) :
  Filters.fraType flt <> "" -> In x (applyFilters X flt) ->
  type_accepts (Filters.fraType flt) (props x).
Proof.
  intros Hs Hx. unfold applyFilters in Hx. apply filter_In in Hx.
  destruct Hx as [_ Hx]. apply passes_iff in Hx.
  destruct Hx as (_ & _ & _ & [H|H] & _); [contradiction | exact H].
Qed.

Lemma accepted_recognised (wanted : string) (p : properties) :
  In wanted group_names -> type_accepts wanted p -> recognised p = true.
Proof.
  intros Hw Ha. unfold recognised. apply Bool.orb_true_iff.
  destruct Ha as [H|[[_ H]|[[_ H]|[_ H]]]].
  - right. apply existsb_strict_eq. exists wanted. auto.
  - left. apply existsb_strict_eq. exists "CFR".
    unfold legacy_codes. simpl. auto.
  - left. apply existsb_strict_eq. exists "IFR".
    unfold legacy_codes. simpl. auto.
  - left. apply existsb_strict_eq. exists "CR".
    unfold legacy_codes. simpl. auto.
Qed.

Lemma group_names_chosen (wanted : string) :
  In wanted group_names -> wanted <> "".
Proof.
  unfold group_names. simpl.
  intros [<-|[<-|[<-|[<-|[<-|[]]]]]]; discriminate.
Qed.

Lemma summarize_recognised (X : list feature) :
  forallb (fun f => recognised (props f)) X = true ->
  sumCounts (counts (tallied (updateStatistics X)))
  = totalFeatures (updateStatistics X).
Proof.
  intros H. unfold updateStatistics; simpl. rewrite tally_counts. simpl.
  apply filter_length_all. exact H.
Qed.

(** Statistics of data filtered by one of the five types: every feature that
    is retained is counted in a category, so the five category counts add up
    to the total; under the "Community Forest Resource Rights" filter the CFR
    count alone is the total. *)
Theorem type_filter_statistics (X : list feature) (flt : Filters.t) :
  In (Filters.fraType flt) group_names ->
  let s := updateStatistics (applyFilters X flt) in
  sumCounts (counts (tallied s)) = totalFeatures s
  /\ (Filters.fraType flt = CFR_name ->
      CFR (counts (tallied s)) = totalFeatures s).
Proof.
  intros Hw s. pose proof (group_names_chosen _ Hw) as Hne. split.
  - apply (summarize_recognised (applyFilters X flt)).
    apply forallb_forall. intros x Hx.
    apply (accepted_recognised _ _ Hw), (retained_type X flt x Hne Hx).
  - intros E. unfold s, updateStatistics. simpl.
    change (CFR ?c) with (countOf "CFR" c).
    rewrite tally_countOf by (unfold count_keys; simpl; auto). simpl.
    apply filter_length_every. intros x Hx.
    pose proof (retained_type X flt x Hne Hx) as Ha. rewrite E in Ha.
    unfold counted_as, bucketOf.
    rewrite (accepted_recognised CFR_name _ (or_introl eq_refl) Ha).
    unfold styleKeyOf.
    destruct Ha as [H|[[_ H]|[[H _]|[H _]]]]; try discriminate H;
      rewrite H; [|reflexivity].
    rewrite strict_eq_refl, Bool.orb_true_r. reflexivity.
Qed.

(** The theorem under the CFR filter on [sample_features]. *)
Lemma type_filter_statistics_witness :
  In (Filters.fraType (only_type CFR_name)) group_names
  /\ CFR (counts (tallied (updateStatistics
            (applyFilters sample_features (only_type CFR_name)))))
     = totalFeatures (updateStatistics
         (applyFilters sample_features (only_type CFR_name))).
Proof.
  assert (H : In (Filters.fraType (only_type CFR_name)) group_names)
    by (left; reflexivity).
  split; [exact H|].
  apply (type_filter_statistics sample_features (only_type CFR_name) H).
  reflexivity.
Defined.

(** ** What the map draws *)

Lemma recognised_groupOf (p : properties) :
  recognised p = true -> exists k, groupOf p = Some k /\ In k layerOrder.
Proof.
  unfold recognised, groupOf. intros H.
  destruct (existsb (JS.strict_eq (fraTypeOf p)) group_names) eqn:Hd.
  - apply existsb_strict_eq in Hd. destruct Hd as (k & Hk & ->).
    exists k. split; [reflexivity|].
    unfold group_names, layerOrder in *. simpl in *. tauto.
  - rewrite Bool.orb_false_r in H. unfold legacy_codes in H.
    simpl existsb in H. unfold layerOrder.
    destruct (JS.strict_eq (claim_type p) "CFR");
      [eexists; split; [reflexivity | simpl; tauto]|].
    destruct (JS.strict_eq (claim_type p) "IFR");
      [eexists; split; [reflexivity | simpl; tauto]|].
    destruct (JS.strict_eq (claim_type p) "CR");
      [eexists; split; [reflexivity | simpl; tauto]|].
    discriminate H.
Qed.

Lemma filter_disjoint_Permutation {A} (p q : A -> bool) (X : list A) :
  (forall a, p a = true -> q a = false) ->
  Permutation (List.filter (fun a => p a || q a) X)
    (List.filter p X ++ List.filter q X).
Proof.
  intros Hpq. induction X as [|a X IH]; simpl; [constructor|].
  destruct (p a) eqn:Hp; simpl.
  - rewrite (Hpq a Hp). constructor. exact IH.
  - destruct (q a); [|exact IH].
    etransitivity; [constructor; exact IH|]. apply Permutation_middle.
Qed.

Lemma collect_concat (X : list feature) (keys : list string) :
  NoDup keys ->
  Permutation
    (List.filter (fun f => existsb (JS.strict_eq (groupOf (props f))) keys) X)
    (concat (map (fun k => collect k X) keys)).
Proof.
  induction 1 as [|k keys Hk _ IH]; simpl.
  - induction X as [|f X IHX]; [constructor | exact IHX].
  - etransitivity.
    + apply (filter_disjoint_Permutation
               (fun f => JS.strict_eq (groupOf (props f)) k)
               (fun f => existsb (JS.strict_eq (groupOf (props f))) keys)).
      intros f Hf. apply strict_eq_true in Hf. rewrite Hf.
      apply Bool.not_true_is_false. intros Hex.
      apply existsb_strict_eq in Hex. destruct Hex as (k' & Hin & [= ->]).
      apply Hk. apply list_elem_of_In. exact Hin.
    + apply Permutation_app_head. exact IH.
Qed.

Lemma plan_concat (X : list feature) (keys : list string) :
  concat (map snd (flat_map (entry X) keys))
  = concat (map (fun k => collect k X) keys).
Proof.
  induction keys as [|k keys IH]; simpl; [reflexivity|].
  rewrite map_app, concat_app, IH. f_equal.
  unfold entry. rewrite <- collect_nonempty.
  destruct (collect k X); simpl; rewrite ?app_nil_r; reflexivity.
Qed.

Lemma recognised_in_layerOrder (p : properties) :
  existsb (JS.strict_eq (groupOf p)) layerOrder = recognised p.
Proof.
  destruct (recognised p) eqn:Hr.
  - destruct (recognised_groupOf p Hr) as (k & Hk & Hin).
    apply existsb_strict_eq. exists k. auto.
  - rewrite (unrecognised_groupOf p Hr). reflexivity.
Qed.

(** Whenever [displayFRALayers] returns, its layer groups hold exactly the
    recognised features of the collection, each once: the groups taken
    together are a rearrangement of the recognised features, every group has
    a feature, and a group holds the features of its type in the order of
    the collection. *)
Theorem drawn_features (X : list feature) (px : plan) :
  displayFRALayers X = JS.Returned px ->
  Permutation (concat (map snd px))
    (List.filter (fun f => recognised (props f)) X)
  /\ (forall g, In g px ->
        snd g <> [] /\ snd g = collect (fst g) X).
Proof.
  rewrite displayFRALayers_spec. destruct (existsb _ X); [discriminate|].
  intros Hpx. apply Returned_inj in Hpx. subst px. split.
  - rewrite plan_concat. symmetry.
    erewrite filter_ext; [apply collect_concat|].
    + apply (bool_decide_unpack _). vm_compute. exact I.
    + intros f. symmetry. apply recognised_in_layerOrder.
  - intros g Hg. apply in_flat_map in Hg. destruct Hg as (k & _ & Hg).
    unfold entry in Hg. rewrite <- collect_nonempty in Hg.
    destruct (collect k X) as [|f0 fs] eqn:Hc; [destruct Hg|].
    destruct Hg as [<-|[]]. cbn [fst snd].
    split; [discriminate | symmetry; exact Hc].
Qed.

(** The theorem on [sample_features]. *)
Lemma drawn_features_witness :
  displayFRALayers sample_features
  = JS.Returned [(CFR_name, [conflict_feature; legacy_cfr]);
                 (Agriculture_name, [zero_claimed_feature])]
  /\ Permutation [conflict_feature; legacy_cfr; zero_claimed_feature]
       (List.filter (fun f => recognised (props f)) sample_features).
Proof.
  assert (H : displayFRALayers sample_features
              = JS.Returned [(CFR_name, [conflict_feature; legacy_cfr]);
                             (Agriculture_name, [zero_claimed_feature])])
    by (vm_compute; reflexivity).
  split; [exact H|].
  exact (proj1 (drawn_features sample_features _ H)).
Defined.

Lemma collect_all (w : string) (L : list feature) :
  (forall f, In f L -> groupOf (props f) = Some w) -> collect w L = L.
Proof.
  unfold collect. induction L as [|f L IH]; intros H; simpl; [reflexivity|].
  rewrite (H f (or_introl eq_refl)), strict_eq_refl. f_equal.
  apply IH. intros g Hg. apply H. right. exact Hg.
Qed.

Lemma collect_other (w k : string) (L : list feature) :
  (forall f, In f L -> groupOf (props f) = Some w) -> k <> w ->
  collect k L = [].
Proof.
  unfold collect. induction L as [|f L IH]; intros H Hne; simpl;
    [reflexivity|].
  rewrite (H f (or_introl eq_refl)).
  replace (JS.strict_eq (Some w) k) with false
    by (symmetry; apply strict_eq_false; congruence).
  apply IH; [|exact Hne]. intros g Hg. apply H. right. exact Hg.
Qed.

Lemma display_one_group (w : string) (L : list feature) :
  In w layerOrder ->
  (forall f, In f L ->
     groupOf (props f) = Some w /\ hitsPrototype (props f) = false) ->
  displayFRALayers L
  = JS.Returned match L with
                | [] => []
                | _ :: _ => [(w, L)]
                end.
Proof.
  intros Hw H. rewrite displayFRALayers_spec.
  replace (existsb (fun f => hitsPrototype (props f)) L) with false.
  - f_equal. unfold entry, layerOrder in *. simpl flat_map.
    rewrite <- !collect_nonempty. simpl in Hw.
    assert (Hall : forall f, In f L -> groupOf (props f) = Some w)
      by (intros f Hf; apply H, Hf).
    destruct Hw as [<-|[<-|[<-|[<-|[<-|[]]]]]];
      rewrite (collect_all _ L Hall);
      repeat (rewrite (collect_other _ _ L Hall) by discriminate);
      destruct L; reflexivity.
  - symmetry. apply Bool.not_true_is_false. intros Hex.
    apply existsb_exists in Hex. destruct Hex as (f & Hf & Hp).
    destruct (H f Hf) as [_ Hn]. congruence.
Qed.

(** Under the "Agriculture" filter, and under the "Water Body" filter, the
    map gets the features that are retained in one layer group of that type
    (no group when nothing is retained), and the call does not throw,
    whatever the loaded data holds. *)
Theorem plain_type_filter_draws_one_group (X : list feature)
  (flt : Filters.t) :
  Filters.fraType flt = Agriculture_name
  \/ Filters.fraType flt = WaterBody_name ->
  displayFRALayers (applyFilters X flt)
  = JS.Returned match applyFilters X flt with
                | [] => []
                | _ :: _ => [(Filters.fraType flt, applyFilters X flt)]
                end.
Proof.
  intros Hw. apply display_one_group.
  - unfold layerOrder. simpl. destruct Hw as [-> | ->]; tauto.
  - intros f Hf.
    assert (Hne : Filters.fraType flt <> "")
      by (destruct Hw as [-> | ->]; discriminate).
    pose proof (retained_type X flt f Hne Hf) as Ha.
    assert (Hd : fraTypeOf (props f) = Some (Filters.fraType flt)).
    { destruct Ha as [H|[[H _]|[[H _]|[H _]]]]; [exact H| | |];
        destruct Hw as [E|E]; rewrite E in H; discriminate H. }
    assert (Hin : In (Filters.fraType flt) group_names)
      by (unfold group_names; simpl; destruct Hw as [-> | ->]; tauto).
    split.
    + apply groupOf_descriptive; assumption.
    + eapply descriptive_no_throw; eassumption.
Qed.

(** The theorem under the Agriculture filter on data that holds
    [prototype_feature], on which the unfiltered call throws. *)
Lemma plain_type_filter_draws_one_group_witness :
  displayFRALayers (prototype_feature :: sample_features)
  = JS.Thrown push_error
  /\ displayFRALayers
       (applyFilters (prototype_feature :: sample_features)
          (only_type Agriculture_name))
     = JS.Returned [(Agriculture_name, [zero_claimed_feature])].
Proof.
  split; [vm_compute; reflexivity|].
  exact (plain_type_filter_draws_one_group
           (prototype_feature :: sample_features)
           (only_type Agriculture_name) (or_introl eq_refl)).
Defined.

(** ** Filters against each other *)

Lemma narrows_passes (g f : Filters.t) (x : feature) :
  narrows g f -> passes g x = true -> passes f x = true.
Proof.
  intros (Hs & Hd & Hv & Ht & Hst). rewrite !passes_iff.
  unfold field_matches.
  intros (Gs & Gd & Gv & Gt & Gst).
  repeat split.
  - destruct Hs as [E|E]; [auto|]. rewrite <- E.
    destruct Gs as [G|G]; [|auto]. left. congruence.
  - destruct Hd as [E|E]; [auto|]. rewrite <- E.
    destruct Gd as [G|G]; [|auto]. left. congruence.
  - destruct Hv as [E|E]; [auto|]. rewrite <- E.
    destruct Gv as [G|G]; [|auto]. left. congruence.
  - destruct Ht as [E|E]; [auto|]. rewrite <- E.
    destruct Gt as [G|G]; [|auto]. left. congruence.
  - destruct Hst as [E|E]; [auto|]. rewrite <- E.
    destruct Gst as [G|G]; [|auto]. left. congruence.
Qed.

Lemma filter_implied {A} (p q : A -> bool) (X : list A) :
  (forall a, q a = true -> p a = true) ->
  List.filter q (List.filter p X) = List.filter q X
  /\ sublist (List.filter q X) (List.filter p X).
Proof.
  intros Hqp. induction X as [|a X [IH1 IH2]]; simpl.
  - split; [reflexivity | constructor].
  - destruct (q a) eqn:Hq.
    + rewrite (Hqp a Hq). simpl. rewrite Hq, IH1.
      split; [reflexivity | apply sublist_skip; exact IH2].
    + destruct (p a); simpl; [rewrite Hq|];
        (split; [exact IH1|]); [apply sublist_cons|]; exact IH2.
Qed.

Lemma no_filter_all (X : list feature) : applyFilters X no_filter = X.
Proof.
  unfold applyFilters. induction X as [|x X IH]; simpl; [reflexivity|].
  replace (passes no_filter x) with true by reflexivity.
  f_equal. exact IH.
Qed.

(** A filter that keeps every setting of another one and sets more fields
    retains a sub-list of what the other retains, and the same features as
    when it is applied to the other's result; with every control on its
    "All ..." entry the filter retains everything. *)
Theorem narrower_filter_retains_less (X : list feature) (g f : Filters.t) :
  narrows g f ->
  sublist (applyFilters X g) (applyFilters X f)
  /\ applyFilters (applyFilters X f) g = applyFilters X g
  /\ applyFilters X no_filter = X.
Proof.
  intros Hn. unfold applyFilters.
  destruct (filter_implied (passes f) (passes g) X
              (fun x => narrows_passes g f x Hn)) as [H1 H2].
  split; [exact H2|]. split; [exact H1 | apply no_filter_all].
Qed.

(** The theorem for the Mayurbhanj filter against the Odisha filter. *)
Lemma narrower_filter_retains_less_witness :
  narrows mayurbhanj_filter odisha_filter
  /\ sublist (applyFilters (fraData two_state_data) mayurbhanj_filter)
       (applyFilters (fraData two_state_data) odisha_filter).
Proof.
  assert (H : narrows mayurbhanj_filter odisha_filter).
  { unfold narrows. simpl. repeat split; auto. }
  split; [exact H|].
  apply (narrower_filter_retains_less (fraData two_state_data) _ _ H).
Defined.

(** ** The cascade and the filter *)

Lemma sorted_set_In (values : list (option string)) (v : option string) :
  In v (sort (new_Set values)) <-> In v values.
Proof.
  destruct (sort_spec (new_Set values)) as [_ Hp].
  destruct (new_Set_spec values) as [_ Hin].
  rewrite <- !list_elem_of_In, Hp. apply Hin.
Qed.

(** Every place of the loaded data can be reached through the cascade: for a
    feature with a state, a district and a village, the state is among the
    state options; once it is chosen the district is among the district
    options; once that is chosen the village is among the village options;
    and with the three chosen (and no type or status filter) [applyFilters]
    retains the feature. *)
Theorem cascade_reaches_every_place (this : dataset) (c : controls)
  (f : feature) (s d v : string) :
  In f (fraData this) ->
  state (props f) = Some s -> district (props f) = Some d ->
  village (props f) = Some v ->
  s <> "" -> d <> "" -> v <> "" ->
  let c1 := chooseState this s c in
  let c2 := chooseDistrict this d c1 in
  let c3 := chooseVillage v c2 in
  In s (stateOptions (fraData this))
  /\ In d (district_options c1)
  /\ In v (village_options c2)
  /\ (fra_type_filter c = "" -> status_filter c = "" ->
      In f (applyFilters (fraData this) (readFilters c3))).
Proof.
  intros Hf Hs Hd Hv Ns Nd Nv c1 c2 c3.
  assert (Cs : chosen s = true) by (apply chosen_true; exact Ns).
  assert (Cd : chosen d = true) by (apply chosen_true; exact Nd).
  split; [|split; [|split]].
  - unfold stateOptions. right. apply in_map_iff. exists (Some s).
    split; [reflexivity|]. apply sorted_set_In, in_map_iff.
    exists f. auto.
  - unfold c1, chooseState, updateDistrictFilter. simpl. rewrite Cs. simpl.
    right. apply in_map_iff. exists (Some d). split; [reflexivity|].
    apply districtsOf_spec. exists f. auto.
  - unfold c2, c1, chooseDistrict, chooseState, updateVillageFilter,
      updateDistrictFilter. simpl. rewrite Cs, Cd. simpl.
    right. apply in_map_iff. exists (Some v). split; [reflexivity|].
    apply villagesOf_spec. exists f. auto.
  - intros Ht Hst. unfold applyFilters. apply filter_In.
    split; [exact Hf|]. apply passes_iff. unfold field_matches.
    simpl. rewrite Ht, Hst, Hs, Hd, Hv. auto 6.
Qed.

(** The theorem for the first feature of [two_state_data]. *)
Lemma cascade_reaches_every_place_witness :
  In "Odisha" (stateOptions (fraData two_state_data))
  /\ In "Mayurbhanj"
       (district_options (chooseState two_state_data "Odisha" controls0))
  /\ In "Jashipur"
       (village_options
          (chooseDistrict two_state_data "Mayurbhanj"
             (chooseState two_state_data "Odisha" controls0))).
Proof.
  destruct (cascade_reaches_every_place two_state_data controls0
              (place_feature 10 "Odisha" "Mayurbhanj" "Jashipur")
              "Odisha" "Mayurbhanj" "Jashipur")
    as (H1 & H2 & H3 & _);
    try reflexivity; try discriminate; [left; reflexivity|].
  split; [exact H1|]. split; [exact H2 | exact H3].
Defined.

(** An option of the district list is the "All Districts" entry, or the
    district of a feature of the chosen state, which the filter on that
    state and district then retains, or the text "undefined", which stands
    for the features of that state that have no district and which, as a
    filter value, none of them matches. *)
Theorem district_option_origin (this : dataset) (c : controls)
  (s o : string) :
  s <> "" ->
  In o (district_options (chooseState this s c)) ->
  o = ""
  \/ (exists f, In f (fraData this) /\ state (props f) = Some s
                /\ district (props f) = Some o
                /\ (o <> "" ->
                    In f (applyFilters (fraData this)
                            {| Filters.state := s; Filters.district := o;
                               Filters.village := ""; Filters.fraType := "";
                               Filters.status := "" |})))
  \/ (o = "undefined"
      /\ exists f, In f (fraData this) /\ state (props f) = Some s
                   /\ district (props f) = None
                   /\ passes {| Filters.state := s; Filters.district := o;
                                Filters.village := ""; Filters.fraType := "";
                                Filters.status := "" |} f = false).
Proof.
  intros Ns Ho. unfold chooseState, updateDistrictFilter in Ho.
  simpl in Ho. rewrite (proj2 (chosen_true s) Ns) in Ho. simpl in Ho.
  destruct Ho as [<-|Ho]; [left; reflexivity|]. right.
  apply in_map_iff in Ho. destruct Ho as (v & <- & Hv).
  apply districtsOf_spec in Hv. destruct Hv as (f & Hf & Hs & Hd).
  destruct v as [d|]; simpl.
  - left. exists f. repeat split; try assumption.
    intros Nd. unfold applyFilters. apply filter_In. split; [exact Hf|].
    apply passes_iff. unfold field_matches. simpl. rewrite Hs, Hd. auto 6.
  - right. split; [reflexivity|]. exists f. repeat split; try assumption.
    apply Bool.not_true_is_false. intros Hp. apply passes_iff in Hp.
    destruct Hp as (_ & [H|H] & _); simpl in H; [discriminate H|].
    rewrite Hd in H. discriminate H.
Qed.

(** The theorem for the Mayurbhanj option of the Odisha list. *)
Lemma district_option_origin_witness :
  In "Mayurbhanj"
    (district_options (chooseState two_state_data "Odisha" controls0))
  /\ exists f, In f (fraData two_state_data)
               /\ district (props f) = Some "Mayurbhanj".
Proof.
  assert (H : In "Mayurbhanj"
                (district_options
                   (chooseState two_state_data "Odisha" controls0)))
    by (vm_compute; tauto).
  split; [exact H|].
  destruct (district_option_origin two_state_data controls0
              "Odisha" "Mayurbhanj" ltac:(discriminate) H)
    as [E|[(f & Hf & _ & Hd & _)|[E _]]];
    [discriminate E | exists f; auto | discriminate E].
Defined.

(** ** Hovering and clicking *)

Lemma restyle_other (i j : nat) (s : style) (objs : list layer) :
  i <> j -> restyle i s objs !! j = objs !! j.
Proof. intros H. rewrite restyle_lookup. apply decide_False. exact H. Qed.

Lemma resetStyle_other (i j : nat) (objs : list layer) :
  i <> j -> resetStyle i objs !! j = objs !! j.
Proof. intros H. rewrite resetStyle_lookup. apply decide_False. exact H. Qed.

(** Moving the pointer onto a layer and off it again, in any state the
    viewer reaches: the layer ends with its normal style and without the
    highlight, also when it was the highlighted one, while [currentFeature]
    is what it was; no other layer changes. *)
Theorem hover_round_trip (features : list feature) (es : list event)
  (i : nat) :
  let v := run features es in
  let v' := mouseout i (mouseover i v) in
  currentFeature v' = currentFeature v
  /\ length (objects v') = length (objects v)
  /\ (forall l', objects v' !! i = Some l' ->
        normal l' /\ highlighted l' = false
        /\ exists l, objects v !! i = Some l
                     /\ layer_feature l' = layer_feature l)
  /\ (forall j, j <> i -> objects v' !! j = objects v !! j).
Proof.
  intros v v'. pose proof (consistent_run features es) as Hv. fold v in Hv.
  split; [reflexivity|]. split; [|split].
  - unfold v', mouseout, mouseover. simpl.
    rewrite resetStyle_length, restyle_length. reflexivity.
  - intros l' Hl'. unfold v', mouseout, mouseover in Hl'. simpl in Hl'.
    destruct (resetStyle_inv _ _ _ _ Hl') as (l1 & Hl1 & Hf1 & Ho1).
    destruct (restyle_inv _ _ _ _ _ Hl1) as (l & Hl & Hf & Ho).
    rewrite decide_True in Ho1 by reflexivity.
    assert (Hr : recognised (props (layer_feature l1)) = true)
      by (rewrite Hf; apply (layers_recognised v Hv i l Hl)).
    destruct (reset_not_highlighted l1 l' Hr Ho1) as [Hh Hn].
    split; [|split; [exact Hh|]].
    + unfold normal. rewrite Hf1. exact Hn.
    + exists l. split; [exact Hl | congruence].
  - intros j Hj. unfold v', mouseout, mouseover. simpl.
    rewrite resetStyle_other, restyle_other by congruence. reflexivity.
Qed.

(** The highlight is lost by hovering: after a click on layer 0 and the
    pointer leaving it, no layer is highlighted and [currentFeature] is
    still layer 0. *)
Example highlight_lost_on_mouseout :
  let v := run sample_features [MouseOver 0; Click 0; MouseOut 0] in
  currentFeature v = Some 0
  /\ map highlighted (objects v) = [false; false; false].
Proof. vm_compute. split; reflexivity. Qed.

(** The four styles are closed under the three calls of [setStyle] the
    viewer makes on a layer. *)
Lemma four_styles_closed (n o : style) :
  complete n ->
  o = n \/ o = setStyle n hover_style \/ o = setStyle n highlight_style
  \/ o = setStyle (setStyle n highlight_style) hover_style ->
  setStyle o n = n
  /\ setStyle o highlight_style = setStyle n highlight_style
  /\ (setStyle o hover_style = setStyle n hover_style
      \/ setStyle o hover_style
         = setStyle (setStyle n highlight_style) hover_style).
Proof.
  intros Hn Ho. split; [apply setStyle_complete, Hn|].
  destruct n as [c fc fo w op da].
  destruct Ho as [-> | [-> | [-> | ->]]]; split; auto.
Qed.

Lemma four_styles_fixed (n o : style) :
  complete n ->
  o = n \/ o = setStyle n hover_style \/ o = setStyle n highlight_style
  \/ o = setStyle (setStyle n highlight_style) hover_style ->
  fillColor o = fillColor n /\ dashArray o = dashArray n
  /\ (color o = color n \/ color o = Some "#ffff00").
Proof.
  intros Hn Ho. destruct n as [c fc fo w op da].
  destruct Ho as [-> | [-> | [-> | ->]]]; simpl; auto.
Qed.

Section FourStyles.

Variable v : viewer.
Hypothesis Hv : consistent v.
Hypothesis H4 : forall i l, objects v !! i = Some l -> shows_one_of_four l.

Lemma restyled_four (i j : nat) (s : style) (l' : layer) :
  s = hover_style \/ s = highlight_style ->
  restyle i s (objects v) !! j = Some l' -> shows_one_of_four l'.
Proof.
  intros Hs Hl'. destruct (restyle_inv _ _ _ _ _ Hl') as (l & Hl & Hf & Ho).
  pose proof (H4 j l Hl) as Hl4. unfold shows_one_of_four in *.
  rewrite Hf, Ho. case_decide; [|exact Hl4].
  pose proof (layers_recognised v Hv j l Hl) as Hr.
  destruct (getFeatureStyle_recognised _ Hr) as [Hc _].
  destruct (four_styles_closed _ _ Hc Hl4) as (_ & Hh & Ho').
  destruct Hs as [-> | ->].
  - destruct Ho' as [-> | ->]; auto.
  - rewrite Hh. auto.
Qed.

Lemma reset_four (i j : nat) (l' : layer) :
  resetStyle i (objects v) !! j = Some l' -> shows_one_of_four l'.
Proof.
  intros Hl'. destruct (resetStyle_inv _ _ _ _ Hl') as (l & Hl & Hf & Ho).
  pose proof (H4 j l Hl) as Hl4. unfold shows_one_of_four in *.
  rewrite Hf, Ho. case_decide; [|exact Hl4].
  pose proof (layers_recognised v Hv j l Hl) as Hr.
  destruct (getFeatureStyle_recognised _ Hr) as [Hc _].
  left. apply setStyle_complete, Hc.
Qed.

End FourStyles.

Lemma four_styles_fire (e : event) (v : viewer) :
  consistent v ->
  (forall i l, objects v !! i = Some l -> shows_one_of_four l) ->
  forall i l, objects (fire e v) !! i = Some l -> shows_one_of_four l.
Proof.
  intros Hv H4. destruct e as [k|k|k| |X]; simpl;
    try (destruct (Nat.ltb k (length (objects v))); [|exact H4]).
  - intros i l Hl. unfold highlightFeature in Hl. simpl in Hl.
    destruct (currentFeature v) as [c|].
    + apply (restyled_four (mouseout c v) (consistent_mouseout v Hv c))
        with (i := k) (j := i) (s := highlight_style); auto.
      intros j l0. apply (reset_four v Hv H4).
    + apply (restyled_four v Hv H4 k i highlight_style); auto.
  - intros i l Hl. apply (restyled_four v Hv H4 k i hover_style); auto.
  - intros i l Hl. apply (reset_four v Hv H4 k i). exact Hl.
  - unfold resetView. destruct (currentFeature v) as [c|]; [|exact H4].
    intros i l Hl. apply (reset_four v Hv H4 c i). exact Hl.
  - unfold redisplay.
    destruct (displayFRALayers X) as [px|] eqn:Hpx; [|exact H4].
    intros i l Hl. simpl in Hl. apply lookup_app_Some in Hl.
    destruct Hl as [Hl|[_ Hl]]; [apply (H4 i l Hl)|].
    apply list_elem_of_lookup_2, list_elem_of_In in Hl.
    destruct (layersOf_recognised X px l Hpx Hl) as (f & -> & Hf).
    left. apply newLayer_options. exact Hf.
Qed.

Lemma four_styles_run (features : list feature) (es : list event) :
  forall i l, objects (run features es) !! i = Some l -> shows_one_of_four l.
Proof.
  unfold run.
  assert (H0 : consistent (loaded features)
               /\ forall i l, objects (loaded features) !! i = Some l ->
                    shows_one_of_four l).
  { split.
    - apply consistent_redisplay. split; intros i l Hl; discriminate Hl.
    - apply (four_styles_fire (Redisplay features)
               {| currentFeature := None; objects := [] |}).
      + split; intros i l Hl; discriminate Hl.
      + intros i l Hl. discriminate Hl. }
  revert H0. generalize (loaded features).
  induction es as [|e es IH]; intros v [Hv H4]; simpl; [exact H4|].
  apply IH. split; [apply consistent_fire, Hv|].
  apply four_styles_fire; assumption.
Qed.

(** In every state the viewer reaches, a layer shows one of four styles
    fixed by its feature: the normal style, the normal style under the hover
    style, under the highlight style, or under both.  Clicks and hovering
    never change the fill colour or the dash pattern of a layer, and the
    stroke colour is the one of the category or the highlight colour. *)
Theorem layer_shows_one_of_four (features : list feature)
  (es : list event) (i : nat) (l : layer) :
  objects (run features es) !! i = Some l ->
  shows_one_of_four l
  /\ fillColor (options l) = fillColor (getFeatureStyle (layer_feature l))
  /\ dashArray (options l) = dashArray (getFeatureStyle (layer_feature l))
  /\ (color (options l) = color (getFeatureStyle (layer_feature l))
      \/ color (options l) = Some "#ffff00").
Proof.
  intros Hl. pose proof (four_styles_run features es i l Hl) as H4.
  split; [exact H4|].
  pose proof (consistent_run features es) as Hv.
  pose proof (layers_recognised _ Hv i l Hl) as Hr.
  destruct (getFeatureStyle_recognised _ Hr) as [Hc _].
  apply (four_styles_fixed _ _ Hc H4).
Qed.

(** The theorem for the clicked and hovered layer of a scenario. *)
Lemma layer_shows_one_of_four_witness :
  exists l, objects (run sample_features [Click 0; MouseOver 0]) !! 0
            = Some l
            /\ fillColor (options l) = Some "#A0522D"
            /\ color (options l) = Some "#ffff00".
Proof.
  eexists. split; [vm_compute; reflexivity|].
  match goal with
  | |- fillColor (options ?l) = _ /\ _ =>
      destruct (layer_shows_one_of_four sample_features
                  [Click 0; MouseOver 0] 0 l ltac:(vm_compute; reflexivity))
        as (_ & Hf & _ & _)
  end.
  split; [rewrite Hf|]; vm_compute; reflexivity.
Defined.

Lemma highlight_again (v : viewer) (A : nat) :
  consistent v ->
  (forall i l, objects v !! i = Some l -> shows_one_of_four l) ->
  restyle A highlight_style
    (resetStyle A (restyle A highlight_style (objects v)))
  = restyle A highlight_style (objects v).
Proof.
  intros Hv H4. apply list_eq. intros j.
  destruct (decide (A = j)) as [<-|Hne].
  - rewrite restyle_lookup, decide_True by reflexivity.
    rewrite resetStyle_lookup, decide_True by reflexivity.
    rewrite restyle_lookup, decide_True by reflexivity.
    destruct (objects v !! A) as [l|] eqn:Hl; [|reflexivity].
    simpl. f_equal. f_equal.
    pose proof (layers_recognised v Hv A l Hl) as Hr.
    destruct (getFeatureStyle_recognised _ Hr) as [Hc _].
    destruct (four_styles_closed _ _ Hc (H4 A l Hl)) as (_ & Hh & _).
    rewrite (setStyle_complete _ _ Hc). symmetry. exact Hh.
  - rewrite !restyle_other, resetStyle_other, restyle_other by assumption.
    reflexivity.
Qed.

(** Clicking the layer that is already the current feature changes nothing:
    in any state the viewer reaches, [highlightFeature] on a layer twice
    leaves the viewer as [highlightFeature] on it once does; and
    [resetView] twice leaves it as [resetView] once does. *)
Theorem click_twice_is_click_once (features : list feature)
  (es : list event) (A : nat) :
  let v := run features es in
  highlightFeature A (highlightFeature A v) = highlightFeature A v
  /\ resetView (resetView v) = resetView v.
Proof.
  intros v. pose proof (consistent_run features es) as Hv. fold v in Hv.
  pose proof (four_styles_run features es) as H4. fold v in H4.
  split.
  - unfold highlightFeature. cbn [currentFeature objects].
    f_equal. destruct (currentFeature v) as [c|].
    + apply (highlight_again (mouseout c v) A).
      * apply consistent_mouseout, Hv.
      * intros i l. apply (reset_four v Hv H4 c i).
    + apply (highlight_again v A Hv H4).
  - unfold resetView. destruct (currentFeature v) as [c|] eqn:Hc; simpl;
      [reflexivity | rewrite Hc; reflexivity].
Qed.

(** ** The popup *)

Lemma glyph_of_group (name : string) :
  In name group_names ->
  JS.get typeIcons name
  = match typeIcons !! name with
    | Some s => JS.Own s
    | None => JS.Missing
    end
  /\ glyph_of name <> Glyph "📍".
Proof.
  unfold group_names. simpl.
  intros [<-|[<-|[<-|[<-|[<-|[]]]]]]; split;
    try (vm_compute; reflexivity); vm_compute; discriminate.
Qed.

(** The two schemas differ in the popup: a feature that carries only a
    legacy code gets the heading of its category and the generic pin as
    icon, not the icon of the category; a feature whose descriptive type
    names the category gets the icon of the category. *)
Theorem popup_icon_by_schema (p : properties) (code : string) :
  In code legacy_codes ->
  (claim_type p = Some code -> JS.truthy (fraTypeOf p) = false ->
     popupTypeOf p = Some (name_of_code code)
     /\ typeIconOf p = Glyph "📍"
     /\ typeIconOf p <> glyph_of (name_of_code code))
  /\ (fraTypeOf p = Some (name_of_code code) ->
      typeIconOf p = glyph_of (name_of_code code)
      /\ typeIconOf p <> Glyph "📍").
Proof.
  intros Hc.
  assert (Hn : In (name_of_code code) group_names).
  { unfold legacy_codes, group_names in *. simpl in *.
    destruct Hc as [<-|[<-|[<-|[]]]]; simpl; tauto. }
  destruct (glyph_of_group _ Hn) as [Hg Hne].
  split.
  - intros Hclaim Hf.
    assert (Hi : typeIconOf p = Glyph "📍").
    { unfold typeIconOf. apply falsy_key in Hf.
      destruct Hf as [-> | ->]; vm_compute; reflexivity. }
    split; [|split; [exact Hi | rewrite Hi; congruence]].
    unfold popupTypeOf. rewrite Hclaim.
    unfold legacy_codes in Hc. simpl in Hc.
    destruct Hc as [<-|[<-|[<-|[]]]]; reflexivity.
  - intros Hf.
    assert (Hi : typeIconOf p = glyph_of (name_of_code code)).
    { unfold typeIconOf, glyph_of. rewrite Hf. simpl JS.to_key. rewrite Hg.
      destruct (typeIcons !! name_of_code code); reflexivity. }
    split; [exact Hi | rewrite Hi; exact Hne].
Qed.

(** The theorem for [legacy_cfr] and [descriptive_cfr]. *)
Lemma popup_icon_by_schema_witness :
  typeIconOf (props legacy_cfr) = Glyph "📍"
  /\ typeIconOf (props descriptive_cfr) = Glyph "🌲"
  /\ popupTypeOf (props legacy_cfr) = popupTypeOf (props descriptive_cfr).
Proof.
  assert (Hc : In "CFR" legacy_codes) by (left; reflexivity).
  destruct (popup_icon_by_schema (props legacy_cfr) "CFR" Hc) as [Hl _].
  destruct (Hl eq_refl eq_refl) as (Hh & Hi & _).
  split; [exact Hi|]. split; [vm_compute; reflexivity|].
  rewrite Hh. reflexivity.
Defined.
(** * The page *)

(** ** Displaying the layers *)

Lemma fold_addGroup (px : plan) (q : page) :
  fold_left addGroup px q
  = Page (data q) (selects q) (state_options q) (panel q)
      (fold_left (fun m g => <[layerKeyOf (fst g) := snd g]> m) px
         (layers q))
      (stack q ++ map (fun g => layerKeyOf (fst g)) px)
      (overlays q) (alerts q) (hierarchyVisible q) (uncaught q).
Proof.
  revert q. induction px as [|g px IH]; intros q.
  - destruct q; simpl. rewrite app_nil_r. reflexivity.
  - simpl. rewrite IH. unfold addGroup, set_stack, set_layers. simpl.
    rewrite <- app_assoc. reflexivity.
Qed.

Lemma layer_keys_names : layer_keys = map layerKeyOf group_names.
Proof. vm_compute. reflexivity. Qed.

Lemma layersFor_lookup (X : list feature) (name : string) :
  In name group_names ->
  layersFor X !! layerKeyOf name
  = if present X name then Some (collect name X) else None.
Proof.
  intros Hin. unfold layersFor, layerOrder. cbn [flat_map]. unfold entry.
  unfold group_names in Hin. simpl in Hin.
  destruct Hin as [<-|[<-|[<-|[<-|[<-|[]]]]]];
    generalize (collect CFR_name X), (collect IFR_name X),
      (collect CR_name X), (collect Agriculture_name X),
      (collect WaterBody_name X);
    intros c1 c2 c3 c4 c5;
    destruct (present X CFR_name), (present X Agriculture_name),
      (present X WaterBody_name), (present X CR_name),
      (present X IFR_name); vm_compute; reflexivity.
Qed.

Lemma fold_insert_keys (px : plan) (m : gmap string (list feature))
  (key : string) :
  is_Some (fold_left (fun m g => <[layerKeyOf (fst g) := snd g]> m) px m
           !! key) ->
  In key (map (fun g => layerKeyOf (fst g)) px) \/ is_Some (m !! key).
Proof.
  revert m. induction px as [|g px IH]; intros m; simpl; [tauto|].
  intros H. destruct (IH _ H) as [H1 | H1]; [tauto|].
  destruct (decide (layerKeyOf (fst g) = key)) as [He | He]; [tauto|].
  rewrite lookup_insert_ne in H1 by exact He. tauto.
Qed.

Lemma layersFor_keys (X : list feature) (key : string) :
  is_Some (layersFor X !! key) -> In key layer_keys.
Proof.
  intros H. apply fold_insert_keys in H. destruct H as [H | H].
  - rewrite <- (map_map fst layerKeyOf), plan_types in H.
    apply in_map_iff in H. destruct H as (n & <- & Hn).
    apply filter_In in Hn. destruct Hn as [Hn _].
    unfold layerOrder in Hn. simpl in Hn.
    destruct Hn as [<-|[<-|[<-|[<-|[<-|[]]]]]]; vm_compute; tauto.
  - rewrite lookup_empty in H. destruct H as [? H]. discriminate.
Qed.

Lemma filter_map_comm {A B : Type} (g : A -> B) (P : B -> bool)
  (l : list A) :
  List.filter P (map g l) = map g (List.filter (fun a => P (g a)) l).
Proof.
  induction l as [|a l IH]; simpl; [reflexivity|].
  destruct (P (g a)); simpl; rewrite IH; reflexivity.
Qed.

Lemma overlayNames_layersFor (X : list feature) :
  overlayNames (layersFor X) = overlayFor X.
Proof.
  unfold overlayNames, overlayFor. rewrite layer_keys_names, filter_map_comm.
  rewrite map_map. f_equal. apply filter_ext_in. intros n Hn.
  rewrite layersFor_lookup by exact Hn.
  destruct (present X n); vm_compute; reflexivity.
Qed.

Lemma stack_of_plan (X : list feature) :
  NoDup (map layerKeyOf (List.filter (present X) layerOrder)).
Proof.
  unfold layerOrder. cbn [List.filter].
  destruct (present X CFR_name), (present X Agriculture_name),
    (present X WaterBody_name), (present X CR_name), (present X IFR_name);
    apply (bool_decide_unpack _); vm_compute; exact I.
Qed.

Lemma layerOrder_names (n : string) : In n layerOrder -> In n group_names.
Proof. unfold layerOrder, group_names. simpl. tauto. Qed.

Lemma filter_nothing {A : Type} (P : A -> bool) (l : list A) :
  (forall a, In a l -> P a = false) -> List.filter P l = [].
Proof.
  induction l as [|a l IH]; simpl; intros H; [reflexivity|].
  rewrite (H a) by tauto. apply IH. intros b Hb. apply H. tauto.
Qed.

Lemma tidy_cleared (p : page) : tidy (cleared p).
Proof.
  split; simpl.
  - constructor.
  - intros key [].
  - intros key H. rewrite lookup_empty in H. destruct H as [? H].
    discriminate.
Qed.

Lemma tidy_drawn (X : list feature) (p : page) : tidy (drawn X p).
Proof.
  split; unfold drawn, set_overlays, set_stack, set_layers;
    cbn [stack layers].
  - apply stack_of_plan.
  - intros key H. apply in_map_iff in H. destruct H as (n & <- & Hn).
    apply filter_In in Hn. destruct Hn as [Hn Hp].
    rewrite layersFor_lookup by (apply layerOrder_names; exact Hn).
    rewrite Hp. eexists. reflexivity.
  - apply layersFor_keys.
Qed.

(** [displayFRALayers] on a tidy page, case by case. *)
Lemma displayPage_cases (p : page) :
  tidy p ->
  displayPage p
  = match data p with
    | None => Ok (cleared p)
    | Some this =>
        if existsb (fun f => hitsPrototype (props f)) (filteredData this)
        then Raise (cleared p) push_error
        else Ok (drawn (filteredData this) p)
    end.
Proof.
  intros Ht. unfold displayPage.
  rewrite (filter_nothing _ (stack p)).
  2:{ intros key Hk. apply (on_map_layers p Ht) in Hk.
      destruct Hk as [x Hx]. rewrite Hx. reflexivity. }
  cbn [data set_layers set_stack].
  destruct (data p) as [this|]; [|reflexivity].
  rewrite displayFRALayers_spec.
  destruct (existsb _ (filteredData this)); [reflexivity|].
  rewrite fold_addGroup. unfold addFRALayerControl.
  cbn [data selects state_options panel layers stack overlays alerts
       hierarchyVisible uncaught set_layers set_stack app].
  rewrite <- (map_map fst layerKeyOf), plan_types.
  fold (layersFor (filteredData this)).
  rewrite overlayNames_layersFor. unfold drawn, set_overlays.
  cbn [data selects state_options panel layers stack overlays alerts
       hierarchyVisible uncaught set_layers set_stack app].
  destruct (overlayFor (filteredData this)); rewrite ?app_nil_r.
  - destruct p; reflexivity.
  - reflexivity.
Qed.

(** ** What the handlers keep *)

Lemma tidy_ext (p q : page) :
  tidy p -> layers q = layers p -> stack q = stack p -> tidy q.
Proof.
  intros [H1 H2 H3] Hl Hs. split; rewrite ?Hl, ?Hs; assumption.
Qed.

Lemma shows_ext (all X : list feature) (p q : page) :
  shows all X p -> data q = data p -> panel q = panel p ->
  layers q = layers p -> stack q = stack p -> shows all X q.
Proof.
  intros [H1 H2 H3 H4] Hd Hp Hl Hs.
  split; rewrite ?Hd, ?Hp, ?Hl; try assumption.
  apply (tidy_ext p); assumption.
Qed.

Lemma shows_drawn (all X : list feature) (p : page) :
  data p = Some {| fraData := all; filteredData := X |} ->
  shows all X (updatePanel (drawn X p)).
Proof.
  intros Hd. unfold updatePanel.
  replace (data (drawn X p)) with (data p) by reflexivity.
  rewrite Hd. cbn [filteredData]. split.
  - exact Hd.
  - reflexivity.
  - intros name Hn. apply layersFor_lookup. exact Hn.
  - apply (tidy_ext (drawn X p)); [apply tidy_drawn | reflexivity..].
Qed.

Lemma drawable_filter (X : list feature) (flt : Filters.t) :
  drawable X -> drawable (applyFilters X flt).
Proof.
  unfold drawable, applyFilters.
  induction X as [|x X IH]; simpl; [reflexivity|].
  intros H. apply orb_false_iff in H. destruct H as [H1 H2].
  destruct (passes flt x); simpl; [rewrite H1|]; auto.
Qed.

Lemma tidy_constructed : tidy constructed.
Proof.
  split; simpl.
  - constructor.
  - intros key [].
  - intros key H. rewrite lookup_empty in H. destruct H as [? H].
    discriminate.
Qed.

(** [toggleAllLayers] on a tidy page: with a layer on the map all leave it;
    otherwise the layers go onto the map in the order of their keys. *)
Lemma toggleAllLayers_tidy (p : page) :
  tidy p ->
  toggleAllLayers p
  = set_stack
      match stack p with
      | [] =>
          List.filter (fun key => bool_decide (is_Some (layers p !! key)))
            layer_keys
      | _ :: _ => []
      end p.
Proof.
  intros Ht. unfold toggleAllLayers.
  destruct (stack p) as [|k rest] eqn:Hs.
  - replace (existsb _ layer_keys) with false.
    2:{ symmetry. apply not_true_is_false. intros H.
        apply existsb_exists in H. destruct H as (key & _ & H).
        apply andb_true_iff in H. destruct H as [_ H].
        apply bool_decide_eq_true in H. inversion H. }
    f_equal. unfold layer_keys. cbn [fold_left List.filter].
    destruct (bool_decide (is_Some (layers p !! "cfr"))),
      (bool_decide (is_Some (layers p !! "ifr"))),
      (bool_decide (is_Some (layers p !! "cr"))),
      (bool_decide (is_Some (layers p !! "agriculture"))),
      (bool_decide (is_Some (layers p !! "waterBody")));
      vm_compute; reflexivity.
  - assert (Hk : is_Some (layers p !! k)).
    { apply (on_map_layers p Ht). rewrite Hs. left. reflexivity. }
    replace (existsb _ layer_keys) with true.
    2:{ symmetry. apply existsb_exists. exists k. split.
        - apply (layers_keys p Ht). exact Hk.
        - apply andb_true_iff. split; apply bool_decide_eq_true.
          + exact Hk.
          + apply list_elem_of_In. left. reflexivity. }
    f_equal. apply filter_nothing. intros key Hkey.
    apply negb_false_iff, bool_decide_eq_true.
    apply (on_map_layers p Ht). rewrite Hs. exact Hkey.
Qed.

Lemma tidy_toggleAllLayers (p : page) : tidy p -> tidy (toggleAllLayers p).
Proof.
  intros Ht. rewrite toggleAllLayers_tidy by exact Ht.
  split; cbn [stack layers set_stack].
  - destruct (stack p); [|constructor].
    unfold layer_keys. cbn [List.filter].
    destruct (bool_decide (is_Some (layers p !! "cfr"))),
      (bool_decide (is_Some (layers p !! "ifr"))),
      (bool_decide (is_Some (layers p !! "cr"))),
      (bool_decide (is_Some (layers p !! "agriculture"))),
      (bool_decide (is_Some (layers p !! "waterBody")));
      apply (bool_decide_unpack _); vm_compute; exact I.
  - intros key H. destruct (stack p); [|destruct H].
    apply filter_In in H. destruct H as [_ H].
    apply bool_decide_eq_true in H. exact H.
  - apply (layers_keys p Ht).
Qed.

(** The handlers that redisplay, on a tidy page. *)
Lemma applyFilters_tidy (p : page) :
  tidy p ->
  act ApplyFilters p
  = match data p with
    | None => showAlert "No data available to filter!" "error" p
    | Some this =>
        let shown := applyFilters (fraData this) (readFilters (selects p)) in
        let p1 :=
          set_data (Some {| fraData := fraData this;
                            filteredData := shown |}) p in
        if existsb (fun f => hitsPrototype (props f)) shown
        then settle (Raise (cleared p1) push_error)
        else
          showAlert (filters_applied (length shown) (length (fraData this)))
            "success" (updatePanel (drawn shown p1))
    end.
Proof.
  intros Ht. unfold act, applyFiltersPage.
  destruct (data p) as [this|]; [|reflexivity].
  cbv zeta. rewrite displayPage_cases by (apply (tidy_ext p); auto).
  cbn [data set_data filteredData].
  destruct (existsb _ _); reflexivity.
Qed.

Lemma clearFilters_tidy (p : page) :
  tidy p ->
  act ClearFilters p
  = let p2 :=
      set_data
        match data p with
        | None => None
        | Some this => Some {| fraData := fraData this;
                               filteredData := fraData this |}
        end (set_selects controls0 p) in
    match data p with
    | None => showAlert "Filters cleared!" "success" (cleared p2)
    | Some this =>
        if existsb (fun f => hitsPrototype (props f)) (fraData this)
        then settle (Raise (cleared p2) push_error)
        else
          showAlert "Filters cleared!" "success"
            (updatePanel (drawn (fraData this) p2))
    end.
Proof.
  intros Ht. unfold act, clearFiltersPage.
  cbv zeta. rewrite displayPage_cases by (apply (tidy_ext p); auto).
  cbn [data set_data set_selects filteredData].
  destruct (data p) as [this|]; [|reflexivity].
  cbn [filteredData].
  destruct (existsb _ _); reflexivity.
Qed.

Lemma toggleHierarchy_tidy (p : page) :
  tidy p ->
  act ToggleHierarchy p
  = let p1 := set_hierarchyVisible (negb (hierarchyVisible p)) p in
    if hierarchyVisible p then p1
    else
      match data p with
      | None => cleared p1
      | Some this =>
          if existsb (fun f => hitsPrototype (props f)) (filteredData this)
          then settle (Raise (cleared p1) push_error)
          else drawn (filteredData this) p1
      end.
Proof.
  intros Ht. unfold act, toggleHierarchy. cbv zeta.
  cbn [hierarchyVisible set_hierarchyVisible].
  destruct (hierarchyVisible p); [reflexivity|]. cbn [negb].
  rewrite displayPage_cases by (apply (tidy_ext p); auto).
  cbn [data set_hierarchyVisible].
  destruct (data p) as [this|]; [|reflexivity].
  destruct (existsb _ _); reflexivity.
Qed.

Lemma pick_keeps (a : action) (p : page) :
  match a with
  | PickState _ | PickDistrict _ | PickVillage _ | PickType _
  | PickStatus _ | ZoomToData | ExportData => True
  | _ => False
  end ->
  data (act a p) = data p /\ panel (act a p) = panel p
  /\ layers (act a p) = layers p /\ stack (act a p) = stack p
  /\ overlays (act a p) = overlays p
  /\ state_options (act a p) = state_options p
  /\ hierarchyVisible (act a p) = hierarchyVisible p.
Proof.
  destruct a; intros H; try destruct H; unfold act.
  - unfold zoomToDataPage.
    destruct (data p) as [[? [|? ?]]|] eqn:E; cbn; rewrite ?E;
      repeat split; reflexivity.
  - unfold exportDataPage.
    destruct (data p) eqn:E; cbn; rewrite ?E; repeat split; reflexivity.
  - unfold updateDistrictPage. cbn [data set_selects].
    destruct (data p) eqn:E; [cbn; rewrite ?E; repeat split; reflexivity|].
    cbn [selects].
    destruct (negb _); cbn; rewrite ?E; repeat split; reflexivity.
  - unfold updateVillagePage. cbn [data set_selects].
    destruct (data p) eqn:E; [cbn; rewrite ?E; repeat split; reflexivity|].
    cbn [selects].
    destruct (_ || _); cbn; rewrite ?E; repeat split; reflexivity.
  - cbn. repeat split; reflexivity.
  - cbn. repeat split; reflexivity.
  - cbn. repeat split; reflexivity.
Qed.

Lemma act_tidy (a : action) (p : page) : tidy p -> tidy (act a p).
Proof.
  intros Ht. destruct a.
  - rewrite applyFilters_tidy by exact Ht.
    destruct (data p) as [this|].
    + cbv zeta. destruct (existsb _ _).
      * eapply tidy_ext; [apply (tidy_cleared p)|reflexivity..].
      * eapply tidy_ext; [apply tidy_drawn|..].
        -- unfold updatePanel. cbn [data drawn set_overlays set_stack
             set_layers set_data]. reflexivity.
        -- reflexivity.
    + eapply tidy_ext; [exact Ht|reflexivity..].
  - rewrite clearFilters_tidy by exact Ht. cbv zeta.
    destruct (data p) as [this|].
    + destruct (existsb _ _).
      * eapply tidy_ext; [apply (tidy_cleared p)|reflexivity..].
      * eapply tidy_ext; [apply tidy_drawn|..].
        -- unfold updatePanel. cbn [data drawn set_overlays set_stack
             set_layers set_data set_selects]. reflexivity.
        -- reflexivity.
    + eapply tidy_ext; [apply (tidy_cleared p)|reflexivity..].
  - destruct (pick_keeps ZoomToData p I) as (_ & _ & Hl & Hs & _).
    eapply tidy_ext; eassumption.
  - destruct (pick_keeps ExportData p I) as (_ & _ & Hl & Hs & _).
    eapply tidy_ext; eassumption.
  - rewrite toggleHierarchy_tidy by exact Ht. cbv zeta.
    destruct (hierarchyVisible p).
    + eapply tidy_ext; [exact Ht|reflexivity..].
    + destruct (data p) as [this|].
      * destruct (existsb _ _).
        -- eapply tidy_ext; [apply (tidy_cleared p)|reflexivity..].
        -- eapply tidy_ext; [apply tidy_drawn|reflexivity..].
      * eapply tidy_ext; [apply (tidy_cleared p)|reflexivity..].
  - apply tidy_toggleAllLayers. exact Ht.
  - destruct (pick_keeps (PickState v) p I) as (_ & _ & Hl & Hs & _).
    eapply tidy_ext; eassumption.
  - destruct (pick_keeps (PickDistrict v) p I) as (_ & _ & Hl & Hs & _).
    eapply tidy_ext; eassumption.
  - destruct (pick_keeps (PickVillage v) p I) as (_ & _ & Hl & Hs & _).
    eapply tidy_ext; eassumption.
  - destruct (pick_keeps (PickType v) p I) as (_ & _ & Hl & Hs & _).
    eapply tidy_ext; eassumption.
  - destruct (pick_keeps (PickStatus v) p I) as (_ & _ & Hl & Hs & _).
    eapply tidy_ext; eassumption.
Qed.

(** ** Sessions *)

Lemma session_snoc (response : option (list feature))
  (actions : list action) (a : action) :
  session response (actions ++ [a]) = act a (session response actions).
Proof. unfold session. rewrite fold_left_app. reflexivity. Qed.

Lemma init_cases (features : list feature) :
  init (Some features)
  = let this := {| fraData := features; filteredData := features |} in
    let p1 := set_data (Some this) constructed in
    if existsb (fun f => hitsPrototype (props f)) features
    then
      updatePanel (setupFilters (showAlert load_failed "error" (cleared p1)))
    else updatePanel (setupFilters (drawn features p1)).
Proof.
  unfold init, loadFRAData. cbv zeta.
  rewrite displayPage_cases by (apply (tidy_ext constructed);
    [apply tidy_constructed | reflexivity..]).
  cbn [data set_data filteredData].
  destruct (existsb _ features); reflexivity.
Qed.

Lemma init_tidy (response : option (list feature)) : tidy (init response).
Proof.
  destruct response as [features|].
  - rewrite init_cases. cbv zeta. destruct (existsb _ features).
    + eapply tidy_ext; [apply (tidy_cleared constructed)|reflexivity..].
    + eapply tidy_ext; [apply tidy_drawn|reflexivity..].
  - eapply tidy_ext; [apply tidy_constructed|reflexivity..].
Qed.

Lemma session_tidy (response : option (list feature))
  (actions : list action) : tidy (session response actions).
Proof.
  induction actions as [|a actions IH] using rev_ind.
  - apply init_tidy.
  - rewrite session_snoc. apply act_tidy. exact IH.
Qed.

Lemma init_shows (features : list feature) :
  drawable features ->
  shows features features (init (Some features))
  /\ state_options (init (Some features)) = Some (stateOptions features)
  /\ uncaught (init (Some features)) = []
  /\ alerts (init (Some features)) = [].
Proof.
  intros Hd. rewrite init_cases. cbv zeta. rewrite Hd. split.
  - eapply shows_ext;
      [apply (shows_drawn features features
                (set_data (Some {| fraData := features;
                                   filteredData := features |})
                   constructed)); reflexivity
      | reflexivity..].
  - repeat split; reflexivity.
Qed.

Lemma act_shows (all : list feature) (flt : Filters.t) (p : page)
  (a : action) :
  drawable all -> shows all (applyFilters all flt) p ->
  (exists flt', shows all (applyFilters all flt') (act a p))
  /\ state_options (act a p) = state_options p
  /\ uncaught (act a p) = uncaught p.
Proof.
  intros Hd Hs. pose proof (shows_tidy _ _ _ Hs) as Ht.
  pose proof (shows_data _ _ _ Hs) as Hdata.
  assert (Hkeep : forall a',
    data (act a' p) = data p /\ panel (act a' p) = panel p
    /\ layers (act a' p) = layers p /\ stack (act a' p) = stack p
    /\ overlays (act a' p) = overlays p
    /\ state_options (act a' p) = state_options p
    /\ hierarchyVisible (act a' p) = hierarchyVisible p ->
    uncaught (act a' p) = uncaught p ->
    (exists flt', shows all (applyFilters all flt') (act a' p))
    /\ state_options (act a' p) = state_options p
    /\ uncaught (act a' p) = uncaught p).
  { intros a' (H1 & H2 & H3 & H4 & _ & H6 & _) Hu. split; [|tauto].
    exists flt. apply (shows_ext _ _ p); assumption. }
  destruct a.
  - rewrite applyFilters_tidy by exact Ht. rewrite Hdata. cbv zeta.
    cbn [fraData].
    rewrite (drawable_filter all (readFilters (selects p)) Hd).
    split; [|split; reflexivity].
    exists (readFilters (selects p)).
    rewrite ?(drawable_filter all (readFilters (selects p)) Hd).
    match goal with
    | |- shows _ _ (showAlert _ _ (updatePanel (drawn ?X ?q))) =>
        apply (shows_ext _ _ (updatePanel (drawn X q)));
          [apply shows_drawn; reflexivity | reflexivity..]
    end.
  - rewrite clearFilters_tidy by exact Ht. rewrite Hdata. cbv zeta.
    cbn [fraData]. rewrite Hd.
    split; [|split; reflexivity].
    exists no_filter. rewrite no_filter_all, ?Hd.
    match goal with
    | |- shows _ _ (showAlert _ _ (updatePanel (drawn ?X ?q))) =>
        apply (shows_ext _ _ (updatePanel (drawn X q)));
          [apply shows_drawn; reflexivity | reflexivity..]
    end.
  - apply Hkeep; [apply (pick_keeps ZoomToData p I)|].
    unfold act, zoomToDataPage. rewrite Hdata. cbn [filteredData].
    destruct (applyFilters all flt); reflexivity.
  - apply Hkeep; [apply (pick_keeps ExportData p I)|].
    unfold act, exportDataPage. rewrite Hdata. reflexivity.
  - rewrite toggleHierarchy_tidy by exact Ht. cbv zeta.
    destruct (hierarchyVisible p).
    + split; [|split; reflexivity]. exists flt.
      apply (shows_ext _ _ p); [exact Hs|reflexivity..].
    + rewrite Hdata. cbn [filteredData].
      rewrite (drawable_filter all flt Hd).
      split; [|split; reflexivity]. exists flt.
      rewrite ?(drawable_filter all flt Hd).
      destruct Hs as [H1 H2 H3 H4]. split.
      * exact H1.
      * exact H2.
      * intros name Hn. apply layersFor_lookup. exact Hn.
      * eapply tidy_ext; [apply tidy_drawn|reflexivity..].
  - pose proof (tidy_toggleAllLayers p Ht) as Ht'. unfold act.
    rewrite toggleAllLayers_tidy in * by exact Ht.
    split; [|split; reflexivity]. exists flt.
    destruct Hs as [H1 H2 H3 H4]. split.
    + exact H1.
    + exact H2.
    + exact H3.
    + exact Ht'.
  - apply Hkeep; [apply (pick_keeps (PickState v) p I)|].
    unfold act, updateDistrictPage. cbn [data set_selects].
    rewrite Hdata. reflexivity.
  - apply Hkeep; [apply (pick_keeps (PickDistrict v) p I)|].
    unfold act, updateVillagePage. cbn [data set_selects].
    rewrite Hdata. reflexivity.
  - apply Hkeep; [apply (pick_keeps (PickVillage v) p I)|]. reflexivity.
  - apply Hkeep; [apply (pick_keeps (PickType v) p I)|]. reflexivity.
  - apply Hkeep; [apply (pick_keeps (PickStatus v) p I)|]. reflexivity.
Qed.

Lemma session_shows (features : list feature) (actions : list action) :
  drawable features ->
  (exists flt,
     shows features (applyFilters features flt)
       (session (Some features) actions))
  /\ state_options (session (Some features) actions)
     = Some (stateOptions features)
  /\ uncaught (session (Some features) actions) = [].
Proof.
  intros Hd. induction actions as [|a actions IH] using rev_ind.
  - destruct (init_shows features Hd) as (H1 & H2 & H3 & _).
    split; [|split; assumption].
    exists no_filter. rewrite no_filter_all. exact H1.
  - rewrite session_snoc. destruct IH as ((flt & H1) & H2 & H3).
    destruct (act_shows features flt _ a Hd H1) as (H4 & H5 & H6).
    split; [exact H4|]. rewrite H5, H6. split; assumption.
Qed.

(** In a session on data the grouping loop accepts, whatever the user does
    (apply or clear the filters, pick values, zoom, export, toggle the
    hierarchy or the layers), the page stays in step with one selection: the
    data shown is the loaded data under some filter, the statistics panel
    holds the statistics of exactly that selection, and the layer of every
    category holds the features of the selection drawn in it; the state
    options stay those of the loaded data and no error escapes a handler. *)
Theorem page_shows_selection (features : list feature)
  (actions : list action) :
  drawable features ->
  (exists flt,
     shows features (applyFilters features flt)
       (session (Some features) actions))
  /\ state_options (session (Some features) actions)
     = Some (stateOptions features)
  /\ uncaught (session (Some features) actions) = [].
Proof.
  intros Hd. induction actions as [|a actions IH] using rev_ind.
  - destruct (init_shows features Hd) as (Hs & Ho & Hu & _).
    split; [|split; assumption].
    exists no_filter. rewrite no_filter_all. exact Hs.
  - rewrite session_snoc. destruct IH as ((flt & Hs) & Ho & Hu).
    destruct (act_shows features flt _ a Hd Hs) as (Hs' & Ho' & Hu').
    split; [exact Hs'|]. rewrite Ho', Hu'. split; assumption.
Qed.

(** The theorem for [sample_features] and [sample_actions]. *)
Lemma page_shows_selection_witness :
  (exists flt,
     shows sample_features (applyFilters sample_features flt)
       (session (Some sample_features) sample_actions))
  /\ state_options (session (Some sample_features) sample_actions)
     = Some (stateOptions sample_features)
  /\ uncaught (session (Some sample_features) sample_actions) = [].
Proof.
  apply (page_shows_selection sample_features sample_actions).
  vm_compute. reflexivity.
Defined.

(** The outcome of "Apply Filters" in such a session: the selection is the
    loaded data under the values of the five controls, which stay as they
    are; the statistics are those of the selection; an overlay control for
    the groups of the selection is added to the ones already on the map
    (none when the selection has no group); and the alert reports the number
    of retained and of loaded features. *)
Theorem apply_filters_outcome (features : list feature)
  (actions : list action) :
  drawable features ->
  let p := session (Some features) actions in
  let shown := applyFilters features (readFilters (selects p)) in
  let q := act ApplyFilters p in
  data q = Some {| fraData := features; filteredData := shown |}
  /\ panel q = Some (updateStatistics shown)
  /\ selects q = selects p
  /\ overlays q = overlays p ++ match overlayFor shown with
                                | [] => []
                                | names => [names]
                                end
  /\ alerts q
     = alerts p
       ++ [(filters_applied (length shown) (length features), "success")].
Proof.
  intros Hd p shown q.
  destruct (session_shows features actions Hd) as ((flt & Hs) & _ & _).
  fold p in Hs. subst q shown.
  rewrite applyFilters_tidy by apply (shows_tidy _ _ _ Hs).
  rewrite (shows_data _ _ _ Hs). cbv zeta. cbn [fraData].
  rewrite (drawable_filter features (readFilters (selects p)) Hd).
  repeat split; reflexivity.
Qed.

(** The theorem for [sample_features] after the two picks of
    [sample_actions]. *)
Lemma apply_filters_outcome_witness :
  let p := session (Some sample_features) (firstn 2 sample_actions) in
  alerts (act ApplyFilters p)
  = alerts p ++ [("Filters applied! Showing 2 of 4 features.", "success")].
Proof.
  intros p.
  destruct (apply_filters_outcome sample_features (firstn 2 sample_actions))
    as (_ & _ & _ & _ & H).
  - vm_compute. reflexivity.
  - exact H.
Defined.

(** "Clear Filters" brings the page back to what it was when it was opened:
    the data shown, the five controls and their options, the statistics, the
    layers and their order on the map are those of the page as loaded.  Only
    the alerts, the overlay controls and the hierarchy flag keep their
    history. *)
Theorem clear_filters_restores (features : list feature)
  (actions : list action) :
  drawable features ->
  let q := act ClearFilters (session (Some features) actions) in
  let p0 := init (Some features) in
  data q = data p0 /\ selects q = selects p0
  /\ state_options q = state_options p0 /\ panel q = panel p0
  /\ layers q = layers p0 /\ stack q = stack p0
  /\ uncaught q = uncaught p0
  /\ last (alerts q) = Some ("Filters cleared!", "success").
Proof.
  intros Hd q p0.
  destruct (session_shows features actions Hd) as ((flt & Hs) & Ho & Hu).
  subst q p0. rewrite init_cases. cbv zeta. rewrite Hd.
  rewrite clearFilters_tidy by apply (shows_tidy _ _ _ Hs).
  rewrite (shows_data _ _ _ Hs). cbv zeta. cbn [fraData]. rewrite Hd.
  repeat split; try reflexivity.
  - cbn. exact Ho.
  - cbn. exact Hu.
  - cbn. apply last_snoc.
Qed.

(** The theorem for [sample_features] after the first three actions of
    [sample_actions]. *)
Lemma clear_filters_restores_witness :
  let q :=
    act ClearFilters
      (session (Some sample_features) (firstn 3 sample_actions)) in
  data q = data (init (Some sample_features))
  /\ selects q = controls0.
Proof.
  intros q.
  destruct (clear_filters_restores sample_features
              (firstn 3 sample_actions)) as (H1 & H2 & _).
  - vm_compute. reflexivity.
  - split; [exact H1 | exact H2].
Defined.

(** ** Hiding and showing the layers *)

Lemma keys_layersFor (X : list feature) :
  List.filter (fun key => bool_decide (is_Some (layersFor X !! key)))
    layer_keys
  = map layerKeyOf (List.filter (present X) group_names).
Proof.
  rewrite layer_keys_names, filter_map_comm. f_equal.
  apply filter_ext_in. intros n Hn.
  rewrite layersFor_lookup by exact Hn.
  destruct (present X n); vm_compute; reflexivity.
Qed.

(** In every session, with or without data, the button that toggles the
    layers takes all layers off the map when some layer is on it, and
    otherwise puts every layer on the map in the order of the keys of
    [this.layers]; nothing else on the page changes, and pressing it three
    times is pressing it once. *)
Theorem toggle_all_layers_cycle (response : option (list feature))
  (actions : list action) :
  let p := session response actions in
  toggleAllLayers p
  = set_stack
      match stack p with
      | [] =>
          List.filter (fun key => bool_decide (is_Some (layers p !! key)))
            layer_keys
      | _ :: _ => []
      end p
  /\ toggleAllLayers (toggleAllLayers (toggleAllLayers p))
     = toggleAllLayers p.
Proof.
  intros p. pose proof (session_tidy response actions) as Ht. fold p in Ht.
  pose proof (tidy_toggleAllLayers p Ht) as Ht1.
  pose proof (tidy_toggleAllLayers _ Ht1) as Ht2.
  split; [apply toggleAllLayers_tidy; exact Ht|].
  rewrite (toggleAllLayers_tidy _ Ht2), (toggleAllLayers_tidy _ Ht1).
  rewrite (toggleAllLayers_tidy _ Ht).
  cbn [stack layers set_stack data selects state_options panel overlays
       alerts hierarchyVisible uncaught].
  destruct (stack p) as [|k rest];
    destruct (List.filter _ layer_keys) as [|k' rest'] eqn:Hf;
    cbn [stack layers set_stack]; rewrite ?Hf; reflexivity.
Qed.

(** After "Apply Filters" the layers lie on the map in the order of the
    hierarchy (CFR, Agriculture, Water Body, CR, IFR, as far as present).
    Hiding and showing them with the layer button puts them back in the
    order of the keys of [this.layers] (CFR, IFR, CR, Agriculture, Water
    Body): individual rights, drawn on top before, then lie under every
    other group but CFR. *)
Theorem hide_show_reorders (features : list feature)
  (actions : list action) :
  drawable features ->
  let p := session (Some features) actions in
  let shown := applyFilters features (readFilters (selects p)) in
  let q := act ApplyFilters p in
  stack q = map layerKeyOf (List.filter (present shown) layerOrder)
  /\ stack (act ToggleAllLayers q) = []
  /\ stack (act ToggleAllLayers (act ToggleAllLayers q))
     = map layerKeyOf (List.filter (present shown) group_names)
  /\ (forall other,
        present shown IFR_name = true ->
        In other [CR_name; Agriculture_name; WaterBody_name] ->
        present shown other = true ->
        last (stack q) = Some "ifr"
        /\ last (stack (act ToggleAllLayers (act ToggleAllLayers q)))
           = Some (layerKeyOf
                     (if present shown WaterBody_name then WaterBody_name
                      else if present shown Agriculture_name
                           then Agriculture_name else CR_name))).
Proof.
  intros Hd p shown q.
  destruct (session_shows features actions Hd) as ((flt & Hs) & _ & _).
  fold p in Hs.
  assert (Hq : q = showAlert
                     (filters_applied (length shown) (length features))
                     "success"
                     (updatePanel
                        (drawn shown
                           (set_data
                              (Some {| fraData := features;
                                       filteredData := shown |}) p)))).
  { subst q. rewrite applyFilters_tidy by apply (shows_tidy _ _ _ Hs).
    rewrite (shows_data _ _ _ Hs). cbv zeta. cbn [fraData].
    fold shown. unfold shown at 1.
    rewrite (drawable_filter features (readFilters (selects p)) Hd).
    reflexivity. }
  assert (Hst : stack q
                = map layerKeyOf (List.filter (present shown) layerOrder)).
  { rewrite Hq. reflexivity. }
  assert (Hl : layers q = layersFor shown).
  { rewrite Hq. reflexivity. }
  assert (Ht : tidy q).
  { subst q. apply act_tidy. apply (shows_tidy _ _ _ Hs). }
  pose proof (tidy_toggleAllLayers q Ht) as Ht1.
  assert (H2 : stack (act ToggleAllLayers q) = []
               /\ stack (act ToggleAllLayers (act ToggleAllLayers q))
                  = map layerKeyOf (List.filter (present shown) group_names)).
  { unfold act.
    rewrite (toggleAllLayers_tidy _ Ht1), (toggleAllLayers_tidy _ Ht).
    cbn [stack layers set_stack]. rewrite Hl, keys_layersFor, Hst.
    clear. clearbody shown.
    unfold layerOrder, group_names. cbn [List.filter].
    destruct (present shown CFR_name), (present shown Agriculture_name),
      (present shown WaterBody_name), (present shown CR_name),
      (present shown IFR_name); split; reflexivity. }
  destruct H2 as [H2 H3].
  split; [exact Hst|]. split; [exact H2|]. split; [exact H3|].
  intros other Hifr Hin Hother. rewrite Hst, H3.
  clear Hq Hst Hl Ht Ht1 H2 H3 Hs. clearbody shown. clear q p.
  unfold layerOrder, group_names. cbn [List.filter]. rewrite Hifr.
  destruct Hin as [<-|[<-|[<-|[]]]]; rewrite Hother;
    destruct (present shown CFR_name);
    try destruct (present shown Agriculture_name);
    try destruct (present shown WaterBody_name);
    try destruct (present shown CR_name);
    split; reflexivity.
Qed.

(** The theorem for the features of the scenario, which has a CFR, an IFR
    and a Water Body group. *)
Lemma hide_show_reorders_witness :
  let q := act ApplyFilters (session (Some scenario_features) []) in
  stack q = ["cfr"; "waterBody"; "ifr"]
  /\ stack (act ToggleAllLayers (act ToggleAllLayers q))
     = ["cfr"; "ifr"; "waterBody"].
Proof.
  intros q.
  destruct (hide_show_reorders scenario_features []) as (H1 & _ & H2 & _).
  - vm_compute. reflexivity.
  - split; [exact H1 | exact H2].
Defined.

(** ** Without data, and with data the grouping loop throws on *)

Lemma no_data_init :
  init None
  = Page None controls0 None None ∅ [] [] [(load_failed, "error")] true [].
Proof. reflexivity. Qed.

Lemma no_data_act (a : action) (s : controls) (al : list (string * string))
  (hv : bool) (un : list string) :
  exists s' al' hv' un',
    act a (Page None s None None ∅ [] [] ((load_failed, "error") :: al) hv
             un)
    = Page None s' None None ∅ [] [] ((load_failed, "error") :: al') hv'
        un'.
Proof.
  destruct a; try (do 4 eexists; reflexivity).
  - destruct hv; do 4 eexists; reflexivity.
  - unfold act, updateDistrictPage. cbn [data selects set_selects].
    cbn [state_filter pick_state]. destruct (negb (chosen v));
      do 4 eexists; reflexivity.
  - unfold act, updateVillagePage. cbn [data selects set_selects].
    cbn [state_filter district_filter pick_district].
    destruct (negb (chosen (state_filter s)) || negb (chosen v));
      do 4 eexists; reflexivity.
Qed.

Lemma no_data_session (actions : list action) :
  exists s al hv un,
    session None actions
    = Page None s None None ∅ [] [] ((load_failed, "error") :: al) hv un.
Proof.
  induction actions as [|a actions IH] using rev_ind.
  - exists controls0, [], true, []. reflexivity.
  - rewrite session_snoc. destruct IH as (s & al & hv & un & ->).
    apply no_data_act.
Qed.

(** When the data could not be loaded, the page stays empty whatever the
    user does: no data, no statistics, no state options, no layer and no
    overlay control, and the first alert is the load failure.  "Apply
    Filters", "Zoom to Data" and "Export" answer with their error alert;
    "Clear Filters" still reports success; and a change of the state
    control to a state makes [updateDistrictFilter] throw an error no
    handler catches, without an alert. *)
Theorem no_data_page (actions : list action) :
  let p := session None actions in
  (data p = None /\ panel p = None /\ state_options p = None
   /\ layers p = ∅ /\ stack p = [] /\ overlays p = []
   /\ head (alerts p) = Some (load_failed, "error"))
  /\ alerts (act ApplyFilters p)
     = alerts p ++ [("No data available to filter!", "error")]
  /\ alerts (act ZoomToData p)
     = alerts p ++ [("No data to zoom to!", "error")]
  /\ alerts (act ExportData p)
     = alerts p ++ [("No data to export!", "error")]
  /\ alerts (act ClearFilters p)
     = alerts p ++ [("Filters cleared!", "success")]
  /\ (forall v,
        v <> "" ->
        uncaught (act (PickState v) p) = uncaught p ++ [null_features]
        /\ alerts (act (PickState v) p) = alerts p).
Proof.
  intros p. destruct (no_data_session actions) as (s & al & hv & un & Hp).
  fold p in Hp. rewrite Hp.
  split; [repeat split; reflexivity|].
  do 4 (split; [reflexivity|]).
  intros v Hv. apply chosen_true in Hv.
  unfold act, updateDistrictPage. cbn [data selects set_selects].
  cbn [state_filter pick_state]. rewrite Hv. split; reflexivity.
Qed.

Lemma session_data (features : list feature) (actions : list action) :
  exists X,
    data (session (Some features) actions)
    = Some {| fraData := features; filteredData := X |}.
Proof.
  induction actions as [|a actions IH] using rev_ind.
  - exists features. change (session (Some features) [])
      with (init (Some features)).
    rewrite init_cases. cbv zeta.
    destruct (existsb _ features); reflexivity.
  - rewrite session_snoc. destruct IH as (X & HX).
    pose proof (session_tidy (Some features) actions) as Ht.
    set (p := session (Some features) actions) in *.
    destruct a.
    + rewrite applyFilters_tidy by exact Ht. rewrite HX. cbv zeta.
      cbn [fraData]. destruct (existsb _ _); eexists; reflexivity.
    + rewrite clearFilters_tidy by exact Ht. rewrite HX. cbv zeta.
      cbn [fraData]. destruct (existsb _ _); eexists; reflexivity.
    + destruct (pick_keeps ZoomToData p I) as (-> & _). eauto.
    + destruct (pick_keeps ExportData p I) as (-> & _). eauto.
    + rewrite toggleHierarchy_tidy by exact Ht. cbv zeta.
      destruct (hierarchyVisible p); [eauto|]. rewrite HX.
      destruct (existsb _ _); exists X; exact HX.
    + exists X. unfold act. rewrite toggleAllLayers_tidy by exact Ht.
      exact HX.
    + destruct (pick_keeps (PickState v) p I) as (-> & _). eauto.
    + destruct (pick_keeps (PickDistrict v) p I) as (-> & _). eauto.
    + destruct (pick_keeps (PickVillage v) p I) as (-> & _). eauto.
    + destruct (pick_keeps (PickType v) p I) as (-> & _). eauto.
    + destruct (pick_keeps (PickStatus v) p I) as (-> & _). eauto.
Qed.

(** One feature whose type names a member of [Object.prototype] is enough
    to lose the map.  On loading, the page reports a failed load although
    the data is there: the state options and the statistics are filled from
    it, and no layer is drawn.  Later, whenever "Apply Filters" retains the
    feature, the selection changes but the map is left without layers, the
    statistics panel keeps the numbers of the selection before, no alert is
    shown, and the error reaches the console. *)
Theorem poisoned_data (features : list feature) (f : feature) :
  In f features -> hitsPrototype (props f) = true ->
  (let p0 := init (Some features) in
   data p0 = Some {| fraData := features; filteredData := features |}
   /\ alerts p0 = [(load_failed, "error")]
   /\ state_options p0 = Some (stateOptions features)
   /\ panel p0 = Some (updateStatistics features)
   /\ layers p0 = ∅ /\ stack p0 = [] /\ overlays p0 = [])
  /\ (forall actions,
        let p := session (Some features) actions in
        let shown := applyFilters features (readFilters (selects p)) in
        let q := act ApplyFilters p in
        passes (readFilters (selects p)) f = true ->
        data q = Some {| fraData := features; filteredData := shown |}
        /\ layers q = ∅ /\ stack q = []
        /\ panel q = panel p /\ alerts q = alerts p
        /\ uncaught q = uncaught p ++ [push_error]).
Proof.
  intros Hin Hf. split.
  - cbv zeta. rewrite init_cases. cbv zeta.
    replace (existsb _ features) with true.
    2:{ symmetry. apply existsb_exists. exists f. tauto. }
    repeat split; reflexivity.
  - intros actions p shown q Hpass.
    destruct (session_data features actions) as (X & HX). fold p in HX.
    subst q. rewrite applyFilters_tidy by apply session_tidy.
    rewrite HX. cbv zeta. cbn [fraData]. fold shown.
    replace (existsb _ shown) with true.
    2:{ symmetry. apply existsb_exists. exists f. split; [|exact Hf].
        apply filter_In. tauto. }
    repeat split; reflexivity.
Qed.

(** The theorem for [poisoned_features] and [prototype_feature], with no
    filter set. *)
Lemma poisoned_data_witness :
  alerts (init (Some poisoned_features)) = [(load_failed, "error")]
  /\ uncaught (act ApplyFilters (session (Some poisoned_features) []))
     = [push_error].
Proof.
  destruct (poisoned_data poisoned_features prototype_feature)
    as ((_ & H1 & _) & H2).
  - vm_compute. tauto.
  - reflexivity.
  - split; [exact H1|].
    destruct (H2 []) as (_ & _ & _ & _ & _ & H3); [reflexivity|].
    exact H3.
Defined.
